(** * static/dashboard.js: the dashboard controller, embedded in Rocq

    The script is client-side glue: it reads form fields, posts a request
    to the analytics backend, and renders the reply into the page and into
    charts.  The embedding follows the script function by function.

    - JavaScript strings are [string]s; the script only inspects the ASCII
      characters [status/] and [0]-[9], which no multi-byte sequence of a
      UTF-8 text contains, so the byte view and the UTF-16 view agree on
      everything the script looks at.
    - JavaScript numbers are binary64 values ([spec_float] at precision 53).
    - The page and the chart registry form the [World]; functions of the
      script are computations in a state-and-exception monad over it.
    - An [async] function is a [Flow]: it either settles at once or stops at
      its single [fetch], holding the request and its continuation. *)

From Stdlib Require Import Ascii ZArith Bool Lia.
From Stdlib Require Import Floats.SpecFloat Numbers.DecimalString.
From stdpp Require Import base option list strings gmap.

(** ** Strings and the regular expression of [extractTweetId] *)

Module Str.

(** [\d] without the unicode flag: exactly [0]..[9]. *)
Definition is_digit (c : ascii) : bool :=
  match c with
  | "0" | "1" | "2" | "3" | "4" | "5" | "6" | "7" | "8" | "9" => true
  | _ => false
  end%char.

(** Greedy [\d*] at the head of [s]: the longest run of digits. *)
Fixpoint digits_of (s : string) : string :=
  match s with
  | String c t => if is_digit c then String c (digits_of t) else EmptyString
  | EmptyString => EmptyString
  end.

(** What is left of [s] after its leading digits. *)
Fixpoint after_digits (s : string) : string :=
  match s with
  | String c t => if is_digit c then after_digits t else s
  | EmptyString => EmptyString
  end.

(** [strip_prefix p s] is the rest of [s] after the literal [p], if [s]
    starts with it. *)
Fixpoint strip_prefix (p s : string) : option string :=
  match p, s with
  | EmptyString, _ => Some s
  | String a p', String b s' =>
      if Ascii.eqb a b then strip_prefix p' s' else None
  | String _ _, EmptyString => None
  end.

Fixpoint all_digits (s : string) : bool :=
  match s with
  | String c t => is_digit c && all_digits t
  | EmptyString => true
  end.

Fixpoint no_digits (s : string) : bool :=
  match s with
  | String c t => negb (is_digit c) && no_digits t
  | EmptyString => true
  end.

End Str.

Module Regex.
Import Str.

(** [/status\/(\d+)/] tried at the head of [s]: capture group 1. *)
Definition match_here (s : string) : option string :=
  match strip_prefix "status/" s with
  | Some rest =>
      match digits_of rest with
      | EmptyString => None
      | String c d => Some (String c d)
      end
  | None => None
  end.

(** [s.match(/status\/(\d+)/)]: the pattern is tried at each position
    from the left; the first position where it matches wins.  The result
    is capture group 1 of the match array, or [None] for [null]. *)
Fixpoint match_status (s : string) : option string :=
  match match_here s with
  | Some g1 => Some g1
  | None =>
      match s with
      | EmptyString => None
      | String _ t => match_status t
      end
  end.

End Regex.

(** [function extractTweetId(input)] *)
Definition extractTweetId (input : string) : string :=
  match Regex.match_status input with
  | Some g1 => g1
  | None => input
  end.

(** The pattern [status/] immediately followed by a digit occurs in [input]
    right after the prefix [pre]. *)
Definition pattern_at (input pre : string) : Prop :=
  ∃ c rest, input = pre +:+ "status/" +:+ String c rest ∧ Str.is_digit c = true.

(** ** Numbers

    JavaScript numbers are IEEE 754 binary64 values.  The operations the
    script applies to them are multiplication by 100, [>] against 0, the
    conversion to a string of a template literal, and [toFixed]. *)

Module Num.

Definition number := spec_float.
Definition prec : Z := 53.
Definition emax : Z := 1024.

(** An integer literal such as [100] or [50]. *)
Definition of_Z (z : Z) : number := binary_normalize prec emax z 0 false.

Definition mul : number → number → number := SFmul prec emax.
Definition div : number → number → number := SFdiv prec emax.

(** [x > y] *)
Definition gt (x y : number) : bool := SFltb y x.

(** The decimal literal [digits / 10^places], rounded to the nearest
    binary64 value as a JSON or source literal is: [decimal 873 3] is the
    number [0.873]. *)
Definition decimal (digits : Z) (places : nat) : number :=
  div (of_Z digits) (of_Z (10 ^ Z.of_nat places)).

(** The decimal digits of a non-negative integer. *)
Definition digits (z : Z) : string :=
  NilZero.string_of_uint (N.to_uint (Z.to_N z)).

(** [m * 2^e] when that is an integer of magnitude at most [2^53]. *)
Definition safe_integer (m : positive) (e : Z) : option Z :=
  let z := if (0 <=? e)%Z then (Z.pos m * 2 ^ e)%Z
           else (Z.pos m / 2 ^ (- e))%Z in
  if ((0 <=? e) || (Z.pos m mod 2 ^ (- e) =? 0))%Z && (z <=? 2 ^ 53)%Z
  then Some z else None.

(** [Number::toString]: what [`${x}`] puts into a template.  An integer
    of magnitude at most [2^53] prints as its decimal digits; for every
    other finite value the shortest round-tripping decimal is the
    engine's business and is taken from [general]. *)
Definition toString (general : number → string) (x : number) : string :=
  match x with
  | S754_nan => "NaN"
  | S754_zero _ => "0"
  | S754_infinity false => "Infinity"
  | S754_infinity true => "-Infinity"
  | S754_finite s m e =>
      match safe_integer m e with
      | Some z => (if s then "-" else "") +:+ digits z
      | None => general x
      end
  end.

(** The integer [n] for which [n / 10^f - m * 2^e] is closest to zero,
    the larger one when two are equally close. *)
Definition scaled_round (m : positive) (e : Z) (f : nat) : Z :=
  let t := (Z.pos m * 10 ^ Z.of_nat f)%Z in
  if (0 <=? e)%Z then (t * 2 ^ e)%Z
  else ((2 * t + 2 ^ (- e)) / 2 ^ (1 - e))%Z.

Definition at_least_1e21 (m : positive) (e : Z) : bool :=
  if (0 <=? e)%Z then (10 ^ 21 <=? Z.pos m * 2 ^ e)%Z
  else (10 ^ 21 * 2 ^ (- e) <=? Z.pos m)%Z.

Fixpoint zeros (n : nat) : string :=
  match n with O => "" | S n => String "0"%char (zeros n) end.

(** Put the decimal point [f] digits from the right, padding with
    zeros on the left when the digits are too few. *)
Definition point (m : string) (f : nat) : string :=
  let k := String.length m in
  let m := if (k <=? f)%nat then zeros (f + 1 - k) +:+ m else m in
  let k := String.length m in
  match f with
  | O => m
  | _ => String.substring 0 (k - f) m +:+ "." +:+ String.substring (k - f) f m
  end.

(** [x.toFixed(f)] (ECMAScript, Number.prototype.toFixed). *)
Definition toFixed (general : number → string) (x : number) (f : nat) : string :=
  match x with
  | S754_finite s m e =>
      if at_least_1e21 m e then toString general x
      else (if s then "-" else "") +:+ point (digits (scaled_round m e f)) f
  | S754_zero _ => point "0" f
  | _ => toString general x
  end.

End Num.

Abbreviation number := Num.number.

(** ** What the browser supplies

    Functions the script calls and the engine implements. *)
Record Runtime := {
  (** [Number::toString] outside the integers of magnitude [<= 2^53] *)
  number_to_string : number → string;
  (** [Number.prototype.toLocaleString] *)
  toLocaleString : number → string;
  (** [new Date(v).toLocaleDateString()] *)
  toLocaleDateString : string → string;
  (** [String.prototype.toLowerCase] *)
  toLowerCase : string → string;
  (** the message of the [TypeError] for reading or calling a property
      of [null] or [undefined] *)
  type_error_message : string → string;
  (** the message of the [TypeError] for assigning to a property of
      [null] or [undefined] *)
  set_error_message : string → string
}.

(** ** The page *)

Module Html.

(** A start tag as the tokenizer reports it. *)
Record Tag := { tag_name : string; tag_attrs : list (string * string) }.

Definition is_space (c : ascii) : bool :=
  match c with
  | " " | "009" | "010" | "012" | "013" => true
  | _ => false
  end%char.

Definition is_alpha (c : ascii) : bool :=
  let n := nat_of_ascii c in
  ((65 <=? n) && (n <=? 90) || (97 <=? n) && (n <=? 122))%nat.

Definition lower (c : ascii) : ascii :=
  let n := nat_of_ascii c in
  if ((65 <=? n) && (n <=? 90))%nat then ascii_of_nat (n + 32) else c.

(** Accumulators hold their characters last-first. *)
Definition rev_string (l : list ascii) : string :=
  String.string_of_list_ascii (rev l).

(** Where the tokenizer is inside the markup. *)
Inductive State :=
| Data
| TagOpen
| TagName (name : list ascii)
| BeforeAttr (t : Tag)
| AttrName (t : Tag) (name : list ascii)
| AfterAttrName (t : Tag) (name : list ascii)
| BeforeValue (t : Tag) (name : list ascii)
| Quoted (t : Tag) (name : list ascii) (q : ascii) (val : list ascii)
| Unquoted (t : Tag) (name : list ascii) (val : list ascii).

Definition new_tag (name : list ascii) : Tag :=
  {| tag_name := rev_string name; tag_attrs := [] |}.

(** A repeated attribute is ignored: the first one stands. *)
Definition add_attr (t : Tag) (name val : list ascii) : Tag :=
  let n := rev_string name in
  if existsb (λ a, String.eqb a.1 n) (tag_attrs t) then t
  else {| tag_name := tag_name t;
          tag_attrs := tag_attrs t ++ [(n, rev_string val)] |}.

(** One character: the next state and the start tag completed, if any. *)
Definition step (st : State) (c : ascii) : State * option Tag :=
  let gt := Ascii.eqb c ">" in
  match st with
  | Data => (if Ascii.eqb c "<" then TagOpen else Data, None)
  | TagOpen =>
      if is_alpha c then (TagName [lower c], None)
      else if Ascii.eqb c "<" then (TagOpen, None) else (Data, None)
  | TagName n =>
      if gt then (Data, Some (new_tag n))
      else if is_space c || Ascii.eqb c "/" then (BeforeAttr (new_tag n), None)
      else (TagName (lower c :: n), None)
  | BeforeAttr t =>
      if gt then (Data, Some t)
      else if is_space c || Ascii.eqb c "/" then (BeforeAttr t, None)
      else (AttrName t [lower c], None)
  | AttrName t n =>
      if gt then (Data, Some (add_attr t n []))
      else if Ascii.eqb c "=" then (BeforeValue t n, None)
      else if is_space c then (AfterAttrName t n, None)
      else if Ascii.eqb c "/" then (BeforeAttr (add_attr t n []), None)
      else (AttrName t (lower c :: n), None)
  | AfterAttrName t n =>
      if gt then (Data, Some (add_attr t n []))
      else if Ascii.eqb c "=" then (BeforeValue t n, None)
      else if is_space c then (AfterAttrName t n, None)
      else if Ascii.eqb c "/" then (BeforeAttr (add_attr t n []), None)
      else (AttrName (add_attr t n []) [lower c], None)
  | BeforeValue t n =>
      if gt then (Data, Some (add_attr t n []))
      else if is_space c then (BeforeValue t n, None)
      else if Ascii.eqb c "034" || Ascii.eqb c "'" then (Quoted t n c [], None)
      else (Unquoted t n [c], None)
  | Quoted t n q v =>
      if Ascii.eqb c q then (BeforeAttr (add_attr t n v), None)
      else (Quoted t n q (c :: v), None)
  | Unquoted t n v =>
      if gt then (Data, Some (add_attr t n v))
      else if is_space c then (BeforeAttr (add_attr t n v), None)
      else (Unquoted t n (c :: v), None)
  end%char.

(** The start tags of a piece of markup, in document order.  A tag cut
    off by the end of the markup is dropped. *)
Fixpoint scan (st : State) (s : string) : list Tag :=
  match s with
  | EmptyString => []
  | String c t =>
      match step st c with
      | (st', Some tg) => tg :: scan st' t
      | (st', None) => scan st' t
      end
  end.

Definition start_tags (markup : string) : list Tag := scan Data markup.

Definition attr (name : string) (t : Tag) : option string :=
  snd <$> find (λ a, String.eqb a.1 name) (tag_attrs t).

(** The class names of a [class] attribute: its space-separated words. *)
Fixpoint words (cur : list ascii) (s : string) : list string :=
  match s with
  | EmptyString => match cur with [] => [] | _ => [rev_string cur] end
  | String c t =>
      if is_space c
      then match cur with [] => words [] t | _ => rev_string cur :: words [] t end
      else words (c :: cur) t
  end.

End Html.

(** A node of the document: an element with the attributes and properties
    the script reads or writes. *)
Record Node := {
  tag : string;                 (** lower-case tag name *)
  node_id : option string;      (** the [id] attribute *)
  classList : gset string;
  value : string;               (** [.value] of a form control *)
  content : string              (** [.textContent] or [.innerHTML] as last set *)
}.

Definition node_of_tag (t : Html.Tag) : Node :=
  {| tag := Html.tag_name t;
     node_id := Html.attr "id" t;
     classList := list_to_set (Html.words [] (default "" (Html.attr "class" t)));
     value := default "" (Html.attr "value" t);
     content := "" |}.

(** The nodes that assigning [markup] to [innerHTML] creates: one for
    each start tag, read by the tag states of the tokenizer.  This is
    what the parser does on markup made of tags and text, as the
    templates of the script are.  Comments, character references,
    elements whose content is not parsed ([textarea], [script], ...) and
    the tree builder's corrections are outside it: the theorems about
    the nodes take payload text that holds no [<], or concern tags of a
    template that stand before any payload text. *)
Definition parse_markup (markup : string) : list Node :=
  node_of_tag <$> Html.start_tags markup.

(** An element of the page as served, with the nodes its [innerHTML]
    currently holds.  The page's own markup is not part of the script; it
    is any list of such elements. *)
Record Element := { node : Node; kids : list Node }.

(** A reference to a node, as [getElementById] or [event.target] yield. *)
Inductive NodeRef :=
| Static (i : nat)
| Dynamic (i j : nat).

(** ** Charts, exceptions and the world *)

(** Modelled from the spec: the chart-ready series the backend embeds in a
    payload ("labels + values"), which the script passes on untouched. *)
Record ChartData := { labels : list string; series : list number }.

(** A chart object of the charting library: the canvas it was built on,
    what it was built from, and whether [destroy()] has been called. *)
Record Chart := {
  canvas : string;
  kind : string;
  data : ChartData;
  live : bool
}.

(** A thrown [Error]; the script only ever reads its [message]. *)
Inductive Exn := Error (message : string).

Definition message (e : Exn) : string := let 'Error m := e in m.

Record World := {
  page : list Element;
  (** [event.target] of the event being dispatched, if there is one *)
  event_target : option NodeRef;
  (** every chart object constructed so far *)
  charts : list Chart;
  (** [let chartInstances = {}]: canvas identifier to chart object *)
  chartInstances : gmap string nat;
  (** what [console.error] received *)
  console : list Exn
}.

Definition set_page (f : list Element → list Element) (w : World) : World :=
  {| page := f (page w); event_target := event_target w; charts := charts w;
     chartInstances := chartInstances w; console := console w |}.

(** The world before the script has run on the served page [p]. *)
Definition initial (p : list Element) : World :=
  {| page := p; event_target := None; charts := [];
     chartInstances := ∅; console := [] |}.

(** ** Synchronous code: state and exceptions *)

Inductive Result (A : Type) :=
| Ok (a : A) (w : World)
| Throw (e : Exn) (w : World).
Arguments Ok {A} a w.
Arguments Throw {A} e w.

Definition world_of {A} (r : Result A) : World :=
  match r with Ok _ w | Throw _ w => w end.

Definition M (A : Type) : Type := World → Result A.

#[export] Instance M_ret : MRet M := λ A a w, Ok a w.
#[export] Instance M_bind : MBind M := λ A B f m w,
  match m w with
  | Ok a w' => f a w'
  | Throw e w' => Throw e w'
  end.

Definition throw {A} (e : Exn) : M A := λ w, Throw e w.
Definition gets {A} (f : World → A) : M A := λ w, Ok (f w) w.
Definition modify (f : World → World) : M unit := λ w, Ok () (f w).

(** ** The document *)

Module Dom.

Definition has_id (id : string) (n : Node) : bool :=
  bool_decide (node_id n = Some id).

(** The element or one of the nodes inside it carries the id. *)
Definition declares (id : string) (e : Element) : bool :=
  has_id id (node e) || existsb (has_id id) (kids e).

(** The first node in document order with the id. *)
Definition find_id (id : string) (p : list Element) : option NodeRef :=
  match list_find (λ e, declares id e = true) p with
  | Some (i, e) =>
      if has_id id (node e) then Some (Static i)
      else (λ jn, Dynamic i jn.1) <$> list_find (λ n, has_id id n = true) (kids e)
  | None => None
  end.

Definition get (r : NodeRef) (p : list Element) : option Node :=
  match r with
  | Static i => node <$> p !! i
  | Dynamic i j => p !! i ≫= λ e, kids e !! j
  end.

(** Change a node in place.  A reference to a node that is no longer in
    the document changes nothing in the document. *)
Definition update (r : NodeRef) (f : Node → Node) (p : list Element)
  : list Element :=
  match r with
  | Static i => alter (λ e, {| node := f (node e); kids := kids e |}) i p
  | Dynamic i j =>
      alter (λ e, {| node := node e; kids := alter f j (kids e) |}) i p
  end.

Definition with_classes (f : gset string → gset string) (n : Node) : Node :=
  {| tag := tag n; node_id := node_id n; classList := f (classList n);
     value := value n; content := content n |}.

Definition with_value (v : string) (n : Node) : Node :=
  {| tag := tag n; node_id := node_id n; classList := classList n;
     value := v; content := content n |}.

Definition with_content (c : string) (n : Node) : Node :=
  {| tag := tag n; node_id := node_id n; classList := classList n;
     value := value n; content := c |}.

(** Replace what an element holds: its text or markup and the nodes
    inside it.  Of a node that markup created the nodes inside are not
    told apart from its siblings, so only its own content changes. *)
Definition replace (r : NodeRef) (c : string) (inside : list Node)
    (p : list Element) : list Element :=
  match r with
  | Static i => alter (λ e, {| node := with_content c (node e); kids := inside |}) i p
  | Dynamic _ _ => update r (with_content c) p
  end.

(** [querySelectorAll('.' + cls).forEach(n => n.classList.remove(c))] *)
Definition remove_from_all (cls c : string) (p : list Element) : list Element :=
  let f n := if bool_decide (cls ∈ classList n)
             then with_classes (λ s, s ∖ {[c]}) n else n in
  (λ e, {| node := f (node e); kids := f <$> kids e |}) <$> p.

(** How many nodes of the page carry both classes. *)
Definition count_with (cls c : string) (p : list Element) : nat :=
  let f n := bool_decide (cls ∈ classList n ∧ c ∈ classList n) in
  sum_list ((λ e, length (filter (λ n, f n = true) (node e :: kids e))) <$> p).

End Dom.

Section Document.
Context (rt : Runtime).

(** [document.getElementById(id)]: a node or [null]. *)
Definition getElementById (id : string) : M (option NodeRef) :=
  gets (λ w, Dom.find_id id (page w)).

(** Reading property [prop] of what may be [null] or [undefined]. *)
Definition deref {A} (prop : string) (r : option A) : M A :=
  match r with
  | Some r => mret r
  | None => throw (Error (type_error_message rt prop))
  end.

(** [document.getElementById(id).prop] *)
Definition element (id prop : string) : M NodeRef :=
  r ← getElementById id; deref prop r.

(** The object of [document.getElementById(id).prop = v]: assigning to
    a property of [null] throws. *)
Definition assignee (id prop : string) : M NodeRef :=
  r ← getElementById id;
  match r with
  | Some r => mret r
  | None => throw (Error (set_error_message rt prop))
  end.

Definition classList_add (c : string) (r : NodeRef) : M unit :=
  modify (set_page (Dom.update r (Dom.with_classes (λ s, s ∪ {[c]})))).

Definition classList_remove (c : string) (r : NodeRef) : M unit :=
  modify (set_page (Dom.update r (Dom.with_classes (λ s, s ∖ {[c]})))).

Definition get_value (r : NodeRef) : M string :=
  gets (λ w, default "" (value <$> Dom.get r (page w))).

Definition set_value (v : string) (r : NodeRef) : M unit :=
  modify (set_page (Dom.update r (Dom.with_value v))).

Definition set_textContent (c : string) (r : NodeRef) : M unit :=
  modify (set_page (Dom.replace r c [])).

Definition set_innerHTML (c : string) (r : NodeRef) : M unit :=
  modify (set_page (Dom.replace r c (parse_markup c))).

(** [function switchTab(tabName)] *)
Definition switchTab (tabName : string) : M unit :=
  modify (set_page (Dom.remove_from_all "tab-content" "active"));;
  modify (set_page (Dom.remove_from_all "tab" "active"));;
  panel ← element (tabName +:+ "-tab") "classList";
  classList_add "active" panel;;
  target ← gets event_target;
  target ← deref "target" target;
  classList_add "active" target.

(** [function showLoading(id)] *)
Definition showLoading (id : string) : M unit :=
  element id "classList" ≫= classList_add "active".

(** [function hideLoading(id)] *)
Definition hideLoading (id : string) : M unit :=
  element id "classList" ≫= classList_remove "active".

(** [function showError(id, message)] *)
Definition showError (id message : string) : M unit :=
  errorDiv ← assignee id "textContent";
  set_textContent message errorDiv;;
  classList_add "active" errorDiv.

(** [function hideError(id)] *)
Definition hideError (id : string) : M unit :=
  element id "classList" ≫= classList_remove "active".

(** [function showResults(id)] *)
Definition showResults (id : string) : M unit :=
  element id "classList" ≫= classList_add "active".

(** [function hideResults(id)] *)
Definition hideResults (id : string) : M unit :=
  element id "classList" ≫= classList_remove "active".

(** The property names every object inherits from [Object.prototype]:
    [chartInstances[k]] is truthy for them although the script never
    stored anything under [k]. *)
Definition Object_prototype : list string :=
  [ "constructor"; "__defineGetter__"; "__defineSetter__"; "hasOwnProperty";
    "__lookupGetter__"; "__lookupSetter__"; "isPrototypeOf";
    "propertyIsEnumerable"; "toString"; "valueOf"; "__proto__";
    "toLocaleString" ].

(** [chart.destroy()] *)
Definition destroy (h : nat) : M unit :=
  modify (λ w,
    {| page := page w; event_target := event_target w;
       charts := alter (λ c, {| canvas := canvas c; kind := kind c;
                                data := data c; live := false |}) h (charts w);
       chartInstances := chartInstances w; console := console w |}).

(** [chartInstances[canvasId] = new Chart(ctx, {type, data, options})] *)
Definition register_new_Chart (canvasId type : string) (chartData : ChartData)
  : M unit :=
  modify (λ w,
    {| page := page w; event_target := event_target w;
       charts := charts w ++ [ {| canvas := canvasId; kind := type;
                                  data := chartData; live := true |} ];
       chartInstances := <[canvasId := length (charts w)]> (chartInstances w);
       console := console w |}).

(** [function createChart(canvasId, type, chartData)] *)
Definition createChart (canvasId type : string) (chartData : ChartData)
  : M unit :=
  existing ← gets (λ w, chartInstances w !! canvasId);
  match existing with
  | Some h => destroy h
  | None =>
      if bool_decide (canvasId ∈ Object_prototype)
      then throw (Error (type_error_message rt "destroy"))
      else mret ()
  end;;
  c ← element canvasId "getContext";
  n ← gets (λ w, Dom.get c (page w));
  (if bool_decide (tag <$> n = Some "canvas") then mret ()
   else throw (Error (type_error_message rt "getContext")));;
  register_new_Chart canvasId type chartData.

End Document.

(** ** Requests and responses *)

(** A value of the object handed to [JSON.stringify] for the request body:
    a field read from the page is a string, a literal is a number. *)
Inductive JsValue :=
| JsString (s : string)
| JsNumber (n : number).

(** [fetch(url, {method: 'POST', headers: {'Content-Type':
    'application/json'}, body: JSON.stringify(body)})]: every request of
    the script has this form, so a request is its path and its body
    object. *)
Record Request := { url : string; body : list (string * JsValue) }.

(** Modelled from the spec: the response envelope, "a tagged result with a
    success flag; on success carries a feature-specific payload; on failure
    carries an error message string". *)
Inductive ApiResponse (P : Type) :=
| Success (payload : P)
| Failure (error : string).
Arguments Success {P} payload.
Arguments Failure {P} error.

(** What the two [await]s of a flow deliver: the parsed body of the
    response, or the rejection of [fetch] or of [response.json()]. *)
Inductive FetchOutcome (P : Type) :=
| Reply (data : ApiResponse P)
| Rejected (e : Exn).
Arguments Reply {P} data.
Arguments Rejected {P} e.

(** Modelled from the spec: the payloads, field by field as the table of
    external interfaces lists them.  A field the script guards before use
    ([description], [engagement], [charts] and [sentiment_distribution] of
    a reply analysis) or reads only when there are replies
    ([sentiment_stats], [analyzed_replies]) is optional. *)

Module UserInfo.
Record t := {
  username : string; tweet_count : number; followers_count : number;
  following_count : number; name : string; verified : bool;
  description : option string; created_at : string }.
End UserInfo.

Module Stats.
Record t := {
  total : number; positive_pct : number; neutral_pct : number;
  negative_pct : number }.
End Stats.

Module Tweet.
Record t := {
  id : string; confidence : number; created_at : string; text : string;
  likes : number; retweets : number; replies : number }.
End Tweet.

Module Categorized.
Record t := { positive : list Tweet.t; neutral : list Tweet.t;
              negative : list Tweet.t }.
End Categorized.

Module TweetCharts.
Record t := { pie_chart : ChartData; engagement : option ChartData }.
End TweetCharts.

Module UserTweets.
Record t := { stats : Stats.t; categorized : Categorized.t;
              charts : TweetCharts.t }.
End UserTweets.

Module Original.
Record t := { text : string; likes : number; retweets : number;
              replies : number }.
End Original.

Module SentimentStats.
Record t := {
  positive_pct : number; neutral_pct : number; negative_pct : number;
  avg_confidence : number }.
End SentimentStats.

Module Reply.
Record t := { sentiment : string; confidence : number; text : string }.
End Reply.

Module ReplyAnalysis.
Record t := {
  total_replies : number;
  sentiment_stats : option SentimentStats.t;
  analyzed_replies : option (list Reply.t) }.
End ReplyAnalysis.

Module ReplyCharts.
Record t := { sentiment_distribution : option ChartData }.
End ReplyCharts.

Module TweetReplies.
Record t := { tweet : Original.t; reply_analysis : ReplyAnalysis.t;
              charts : option ReplyCharts.t }.
End TweetReplies.

Module Pct.
Record t := { positive_pct : number; neutral_pct : number;
              negative_pct : number }.
End Pct.

Module Info.
Record t := { username : string }.
End Info.

Module User.
Record t := { info : Info.t; stats : Pct.t }.
End User.

Module UserCharts.
Record t := { profile_comparison : ChartData;
              sentiment_comparison : ChartData }.
End UserCharts.

Module CompareUsers.
Record t := { user1 : User.t; user2 : User.t; charts : UserCharts.t }.
End CompareUsers.

Module Details.
Record t := { text : string }.
End Details.

Module ComparedTweet.
Record t := { details : Details.t; stats : Pct.t }.
End ComparedTweet.

Module ComparisonCharts.
Record t := { comparison : ChartData }.
End ComparisonCharts.

Module CompareTweets.
Record t := { tweet1 : ComparedTweet.t; tweet2 : ComparedTweet.t;
              charts : ComparisonCharts.t }.
End CompareTweets.

Module Search.
Record t := { query : string; stats : Stats.t; charts : TweetCharts.t }.
End Search.

Module Sentiment.
Record t := { sentiment : string; confidence : number; text : string;
              cleaned_text : string }.
End Sentiment.

(** ** Asynchronous code

    An [async] function runs until its [fetch] and hands the world back to
    the event loop; the rest runs when the response arrives, on the world
    as it is then. *)

Inductive Flow (P A : Type) :=
| Done (r : Result A)
| Await (w : World) (req : Request) (k : FetchOutcome P → World → Flow P A).
Arguments Done {P A} r.
Arguments Await {P A} w req k.

Definition Async (P A : Type) : Type := World → Flow P A.

Fixpoint flow_bind {P A B} (g : A → Async P B) (f : Flow P A) : Flow P B :=
  match f with
  | Done (Ok a w) => g a w
  | Done (Throw e w) => Done (Throw e w)
  | Await w req k => Await w req (λ o w', flow_bind g (k o w'))
  end.

Fixpoint flow_catch {P A} (h : Exn → Async P A) (f : Flow P A) : Flow P A :=
  match f with
  | Done (Ok a w) => Done (Ok a w)
  | Done (Throw e w) => h e w
  | Await w req k => Await w req (λ o w', flow_catch h (k o w'))
  end.

#[export] Instance Async_ret {P} : MRet (Async P) := λ A a w, Done (Ok a w).
#[export] Instance Async_bind {P} : MBind (Async P) := λ A B g m w,
  flow_bind g (m w).

(** A call of a synchronous function from an [async] one. *)
Definition sync {P A} (m : M A) : Async P A := λ w, Done (m w).

(** [try { body } catch (error) { handler }] around code that awaits. *)
Definition async_try {P A} (body : Async P A) (handler : Exn → Async P A)
  : Async P A := λ w, flow_catch handler (body w).

(** [await fetch(...)] followed by [await response.json()]. *)
Definition fetch {P} (req : Request) : Async P (ApiResponse P) := λ w,
  Await w req (λ o w',
    match o with
    | Reply data => Done (Ok data w')
    | Rejected e => Done (Throw e w')
    end).

(** [!s] for a string. *)
Definition falsy (s : string) : bool := bool_decide (s = "").

(** [a || b] for a string that may be missing. *)
Definition or_else (a : option string) (b : string) : string :=
  match a with
  | Some s => if falsy s then b else s
  | None => b
  end.

(** Markup literals are written with a backquote where the script has a
    double quote. *)
Definition markup (s : string) : string :=
  String.string_of_list_ascii
    ((λ c, if Ascii.eqb c "`" then "034"%char else c)
       <$> String.list_ascii_of_string s).

(** ** The seven request flows *)

Section Dashboard.
Context (rt : Runtime).

(** [`${x}`] for a number. *)
Definition show (x : number) : string := Num.toString (number_to_string rt) x.

(** [(x * 100).toFixed(1)] *)
Definition percent (x : number) : string :=
  Num.toFixed (number_to_string rt) (Num.mul x (Num.of_Z 100)) 1.

(** [document.getElementById(id).value] *)
Definition field (id : string) : M string :=
  element rt id "value" ≫= get_value.

(** [document.getElementById(id).innerHTML = html] *)
Definition render (id html : string) : M unit :=
  assignee rt id "innerHTML" ≫= set_innerHTML html.

Definition profile_html (user : UserInfo.t) : string :=
  markup "
        <div class=`stats-grid`>
            <div class=`stat-card`>
                <h3>Username</h3>
                <div class=`value` style=`font-size: 1.5em;`>@" +:+
  UserInfo.username user +:+
  markup "</div>
            </div>
            <div class=`stat-card`>
                <h3>Total Posts</h3>
                <div class=`value`>" +:+
  toLocaleString rt (UserInfo.tweet_count user) +:+
  markup "</div>
            </div>
            <div class=`stat-card`>
                <h3>Followers</h3>
                <div class=`value`>" +:+
  toLocaleString rt (UserInfo.followers_count user) +:+
  markup "</div>
            </div>
            <div class=`stat-card`>
                <h3>Following</h3>
                <div class=`value`>" +:+
  toLocaleString rt (UserInfo.following_count user) +:+
  markup "</div>
            </div>
        </div>
        <div class=`chart-container`>
            <h3>" +:+
  UserInfo.name user +:+
  " " +:+
  (if UserInfo.verified user then "✓" else "") +:+
  markup "</h3>
            <p style=`color: #666; margin-top: 10px;`>" +:+
  or_else (UserInfo.description user) "No description" +:+
  markup "</p>
            <p style=`color: #999; margin-top: 10px; font-size: 0.9em;`>
                Joined: " +:+
  toLocaleDateString rt (UserInfo.created_at user) +:+
  "
            </p>
        </div>
    ".

(** [function displayUserProfile(user)] *)
Definition displayUserProfile (user : UserInfo.t) : M unit :=
  render "profileResults" (profile_html user);;
  showResults rt "profileResults".

(** [async function getUserProfile()] *)
Definition getUserProfile : Async UserInfo.t unit :=
  username ← sync (field "profileUsername");
  if falsy username
  then sync (showError rt "profileError" "Please enter a username")
  else
    sync (showLoading rt "profileLoading");;
    sync (hideError rt "profileError");;
    sync (hideResults rt "profileResults");;
    async_try
      (data ← fetch {| url := "/api/user-info";
                       body := [("username", JsString username)] |};
       sync (hideLoading rt "profileLoading");;
       match data with
       | Success user_info => sync (displayUserProfile user_info)
       | Failure error => sync (showError rt "profileError" error)
       end)
      (λ error,
         sync (hideLoading rt "profileLoading");;
         sync (showError rt "profileError" ("Error: " +:+ message error))).

Definition tweets_head (data : UserTweets.t) (username : string) : string :=
  markup "
        <h2 style=`margin-bottom: 20px;`>@" +:+
  username +:+
  markup "'s Tweet Analysis</h2>
        
        <div class=`stats-grid`>
            <div class=`stat-card`>
                <h3>Total Analyzed</h3>
                <div class=`value`>" +:+
  show (Stats.total (UserTweets.stats data)) +:+
  markup "</div>
            </div>
            <div class=`stat-card`>
                <h3>Positive</h3>
                <div class=`value`>" +:+
  show (Stats.positive_pct (UserTweets.stats data)) +:+
  markup "%</div>
            </div>
            <div class=`stat-card`>
                <h3>Neutral</h3>
                <div class=`value`>" +:+
  show (Stats.neutral_pct (UserTweets.stats data)) +:+
  markup "%</div>
            </div>
            <div class=`stat-card`>
                <h3>Negative</h3>
                <div class=`value`>" +:+
  show (Stats.negative_pct (UserTweets.stats data)) +:+
  markup "%</div>
            </div>
        </div>
        
        <div class=`chart-grid`>
            <div class=`chart-container`>
                <canvas id=`tweetsChart`></canvas>
            </div>
            <div class=`chart-container`>
                <canvas id=`engagementChart`></canvas>
            </div>
        </div>
        
        <h3 style=`margin: 20px 0;`>Recent Tweets by Sentiment</h3>
        <div class=`tweets-list`>
    ".

Definition tweets_heading (sentiment : string) : string :=
  markup "<h4 style=`margin: 15px 0; text-transform: capitalize;`>" +:+
  sentiment +:+
  " Tweets:</h4>".

Definition tweet_card (sentiment : string) (tweet : Tweet.t) : string :=
  markup "
                    <div class=`tweet-card`>
                        <div style=`display: flex; justify-content: space-between; margin-bottom: 10px;`>
                            <span class=`sentiment-badge " +:+
  sentiment +:+
  markup "`>" +:+
  sentiment +:+
  " (" +:+
  percent (Tweet.confidence tweet) +:+
  markup "%)</span>
                            <span style=`color: #666; font-size: 0.9em;`>" +:+
  toLocaleDateString rt (Tweet.created_at tweet) +:+
  markup "</span>
                        </div>
                        <p style=`margin-bottom: 10px;`>" +:+
  Tweet.text tweet +:+
  markup "</p>
                        <div style=`color: #999; font-size: 0.9em;`>
                            ❤️ " +:+
  show (Tweet.likes tweet) +:+
  " | 🔄 " +:+
  show (Tweet.retweets tweet) +:+
  " | 💬 " +:+
  show (Tweet.replies tweet) +:+
  markup "
                            <button class=`btn` style=`float: right; padding: 5px 15px; font-size: 0.8em;` 
                                    onclick=`analyzeSpecificTweet('" +:+
  Tweet.id tweet +:+
  markup "')`>
                                Analyze Replies
                            </button>
                        </div>
                    </div>
                ".

(** The body of [['positive', 'neutral', 'negative'].forEach]. *)
Definition tweets_of (html sentiment : string) (all : list Tweet.t) : string :=
  let tweets := take 5 all in
  if (0 <? length tweets)%nat
  then foldl (λ html tweet, html +:+ tweet_card sentiment tweet)
             (html +:+ tweets_heading sentiment) tweets
  else html.

Definition tweets_html (data : UserTweets.t) (username : string) : string :=
  let html := tweets_head data username in
  let html := tweets_of html "positive"
                (Categorized.positive (UserTweets.categorized data)) in
  let html := tweets_of html "neutral"
                (Categorized.neutral (UserTweets.categorized data)) in
  let html := tweets_of html "negative"
                (Categorized.negative (UserTweets.categorized data)) in
  html +:+ "</div>".

(** [function displayUserTweets(data, username)] *)
Definition displayUserTweets (data : UserTweets.t) (username : string)
  : M unit :=
  render "tweetsResults" (tweets_html data username);;
  showResults rt "tweetsResults";;
  createChart rt "tweetsChart" "pie"
    (TweetCharts.pie_chart (UserTweets.charts data));;
  match TweetCharts.engagement (UserTweets.charts data) with
  | Some engagement => createChart rt "engagementChart" "bar" engagement
  | None => mret ()
  end.

(** [async function getUserTweets()] *)
Definition getUserTweets : Async UserTweets.t unit :=
  username ← sync (field "tweetsUsername");
  maxResults ← sync (field "tweetsMax");
  if falsy username
  then sync (showError rt "tweetsError" "Please enter a username")
  else
    sync (showLoading rt "tweetsLoading");;
    sync (hideError rt "tweetsError");;
    sync (hideResults rt "tweetsResults");;
    async_try
      (data ← fetch {| url := "/api/user-tweets";
                       body := [("username", JsString username);
                                ("max_results", JsString maxResults)] |};
       sync (hideLoading rt "tweetsLoading");;
       match data with
       | Success data => sync (displayUserTweets data username)
       | Failure error => sync (showError rt "tweetsError" error)
       end)
      (λ error,
         sync (hideLoading rt "tweetsLoading");;
         sync (showError rt "tweetsError" ("Error: " +:+ message error))).

Definition reply_head (data : TweetReplies.t) : string :=
  let analysis := TweetReplies.reply_analysis data in
  markup "
        <div class=`chart-container`>
            <h3>Original Tweet</h3>
            <p style=`margin: 10px 0;`>" +:+
  Original.text (TweetReplies.tweet data) +:+
  markup "</p>
            <div style=`color: #999; font-size: 0.9em;`>
                ❤️ " +:+
  show (Original.likes (TweetReplies.tweet data)) +:+
  " | 🔄 " +:+
  show (Original.retweets (TweetReplies.tweet data)) +:+
  " | 💬 " +:+
  show (Original.replies (TweetReplies.tweet data)) +:+
  markup "
            </div>
        </div>
        
        <h3 style=`margin: 20px 0;`>Reply Analysis (" +:+
  show (ReplyAnalysis.total_replies analysis) +:+
  " replies)</h3>
    ".

Definition reply_stats (stats : SentimentStats.t) : string :=
  markup "
            <div class=`stats-grid`>
                <div class=`stat-card`>
                    <h3>Positive</h3>
                    <div class=`value`>" +:+
  show (SentimentStats.positive_pct stats) +:+
  markup "%</div>
                </div>
                <div class=`stat-card`>
                    <h3>Neutral</h3>
                    <div class=`value`>" +:+
  show (SentimentStats.neutral_pct stats) +:+
  markup "%</div>
                </div>
                <div class=`stat-card`>
                    <h3>Negative</h3>
                    <div class=`value`>" +:+
  show (SentimentStats.negative_pct stats) +:+
  markup "%</div>
                </div>
                <div class=`stat-card`>
                    <h3>Avg Confidence</h3>
                    <div class=`value`>" +:+
  percent (SentimentStats.avg_confidence stats) +:+
  markup "%</div>
                </div>
            </div>
            
            <div class=`chart-container`>
                <canvas id=`replyChart`></canvas>
            </div>
            
            <h3 style=`margin: 20px 0;`>Sample Replies</h3>
            <div class=`tweets-list`>
        ".

Definition reply_card (reply : Reply.t) : string :=
  markup "
                <div class=`tweet-card`>
                    <span class=`sentiment-badge " +:+
  toLowerCase rt (Reply.sentiment reply) +:+
  markup "`>
                        " +:+
  Reply.sentiment reply +:+
  " (" +:+
  percent (Reply.confidence reply) +:+
  markup "%)
                    </span>
                    <p style=`margin: 10px 0;`>" +:+
  Reply.text reply +:+
  "</p>
                </div>
            ".

Definition no_replies : string := "<p>No replies found for this tweet.</p>".

(** The markup [displayReplyAnalysis] builds; reading a field of a
    missing [sentiment_stats] or [analyzed_replies] throws. *)
Definition reply_html (data : TweetReplies.t) : M string :=
  let analysis := TweetReplies.reply_analysis data in
  let html := reply_head data in
  if Num.gt (ReplyAnalysis.total_replies analysis) (Num.of_Z 0)
  then
    stats ← deref rt "positive_pct" (ReplyAnalysis.sentiment_stats analysis);
    let html := html +:+ reply_stats stats in
    replies ← deref rt "slice" (ReplyAnalysis.analyzed_replies analysis);
    let html := foldl (λ html reply, html +:+ reply_card reply) html
                      (take 10 replies) in
    mret (html +:+ "</div>")
  else mret (html +:+ no_replies).

(** [function displayReplyAnalysis(data)] *)
Definition displayReplyAnalysis (data : TweetReplies.t) : M unit :=
  html ← reply_html data;
  render "replyResults" html;;
  showResults rt "replyResults";;
  match TweetReplies.charts data ≫= ReplyCharts.sentiment_distribution with
  | Some sentiment_distribution =>
      createChart rt "replyChart" "pie" sentiment_distribution
  | None => mret ()
  end.

(** [async function analyzeReplies()] *)
Definition analyzeReplies : Async TweetReplies.t unit :=
  input ← sync (field "replyTweetId");
  let tweetId := extractTweetId input in
  if falsy tweetId
  then sync (showError rt "replyError" "Please enter a tweet ID or URL")
  else
    sync (showLoading rt "replyLoading");;
    sync (hideError rt "replyError");;
    sync (hideResults rt "replyResults");;
    async_try
      (data ← fetch {| url := "/api/tweet-replies";
                       body := [("tweet_id", JsString tweetId)] |};
       sync (hideLoading rt "replyLoading");;
       match data with
       | Success data => sync (displayReplyAnalysis data)
       | Failure error => sync (showError rt "replyError" error)
       end)
      (λ error,
         sync (hideLoading rt "replyLoading");;
         sync (showError rt "replyError" ("Error: " +:+ message error))).

(** [function analyzeSpecificTweet(tweetId)]; the promise of
    [analyzeReplies()] is not awaited, the flow goes on by itself. *)
Definition analyzeSpecificTweet (tweetId : string)
  : Async TweetReplies.t unit :=
  sync (assignee rt "replyTweetId" "value" ≫= set_value tweetId);;
  sync (switchTab rt "reply-analysis");;
  analyzeReplies.

Definition users_html (data : CompareUsers.t) : string :=
  markup "
        <h2 style=`margin-bottom: 20px;`>User Comparison</h2>
        
        <div class=`chart-grid`>
            <div class=`chart-container`>
                <h3>Profile Metrics</h3>
                <canvas id=`profileCompareChart`></canvas>
            </div>
            <div class=`chart-container`>
                <h3>Sentiment Comparison</h3>
                <canvas id=`sentimentCompareChart`></canvas>
            </div>
        </div>
        
        <div style=`display: grid; grid-template-columns: 1fr 1fr; gap: 20px;`>
            <div class=`chart-container`>
                <h3>@" +:+
  Info.username (User.info (CompareUsers.user1 data)) +:+
  "</h3>
                <p>Positive: " +:+
  show (Pct.positive_pct (User.stats (CompareUsers.user1 data))) +:+
  "%</p>
                <p>Neutral: " +:+
  show (Pct.neutral_pct (User.stats (CompareUsers.user1 data))) +:+
  "%</p>
                <p>Negative: " +:+
  show (Pct.negative_pct (User.stats (CompareUsers.user1 data))) +:+
  markup "%</p>
            </div>
            <div class=`chart-container`>
                <h3>@" +:+
  Info.username (User.info (CompareUsers.user2 data)) +:+
  "</h3>
                <p>Positive: " +:+
  show (Pct.positive_pct (User.stats (CompareUsers.user2 data))) +:+
  "%</p>
                <p>Neutral: " +:+
  show (Pct.neutral_pct (User.stats (CompareUsers.user2 data))) +:+
  "%</p>
                <p>Negative: " +:+
  show (Pct.negative_pct (User.stats (CompareUsers.user2 data))) +:+
  "%</p>
            </div>
        </div>
    ".

(** [function displayUserComparison(data)] *)
Definition displayUserComparison (data : CompareUsers.t) : M unit :=
  render "compareUsersResults" (users_html data);;
  showResults rt "compareUsersResults";;
  createChart rt "profileCompareChart" "bar"
    (UserCharts.profile_comparison (CompareUsers.charts data));;
  createChart rt "sentimentCompareChart" "bar"
    (UserCharts.sentiment_comparison (CompareUsers.charts data)).

(** [async function compareUsers()] *)
Definition compareUsers : Async CompareUsers.t unit :=
  user1 ← sync (field "compareUser1");
  user2 ← sync (field "compareUser2");
  if falsy user1 || falsy user2
  then sync (showError rt "compareUsersError" "Please enter both usernames")
  else
    sync (showLoading rt "compareUsersLoading");;
    sync (hideError rt "compareUsersError");;
    sync (hideResults rt "compareUsersResults");;
    async_try
      (data ← fetch {| url := "/api/compare-users";
                       body := [("username1", JsString user1);
                                ("username2", JsString user2);
                                ("max_tweets", JsNumber (Num.of_Z 50))] |};
       sync (hideLoading rt "compareUsersLoading");;
       match data with
       | Success data => sync (displayUserComparison data)
       | Failure error => sync (showError rt "compareUsersError" error)
       end)
      (λ error,
         sync (hideLoading rt "compareUsersLoading");;
         sync (showError rt "compareUsersError"
                 ("Error: " +:+ message error))).

Definition tweets_compared_html (data : CompareTweets.t) : string :=
  markup "
        <h2 style=`margin-bottom: 20px;`>Tweet Comparison</h2>
        
        <div style=`display: grid; grid-template-columns: 1fr 1fr; gap: 20px; margin-bottom: 20px;`>
            <div class=`chart-container`>
                <h3>Tweet 1</h3>
                <p>" +:+
  Details.text (ComparedTweet.details (CompareTweets.tweet1 data)) +:+
  markup "</p>
                <p style=`margin-top: 10px;`>
                    Positive: " +:+
  show (Pct.positive_pct (ComparedTweet.stats (CompareTweets.tweet1 data))) +:+
  "% | 
                    Neutral: " +:+
  show (Pct.neutral_pct (ComparedTweet.stats (CompareTweets.tweet1 data))) +:+
  "% | 
                    Negative: " +:+
  show (Pct.negative_pct (ComparedTweet.stats (CompareTweets.tweet1 data))) +:+
  markup "%
                </p>
            </div>
            <div class=`chart-container`>
                <h3>Tweet 2</h3>
                <p>" +:+
  Details.text (ComparedTweet.details (CompareTweets.tweet2 data)) +:+
  markup "</p>
                <p style=`margin-top: 10px;`>
                    Positive: " +:+
  show (Pct.positive_pct (ComparedTweet.stats (CompareTweets.tweet2 data))) +:+
  "% | 
                    Neutral: " +:+
  show (Pct.neutral_pct (ComparedTweet.stats (CompareTweets.tweet2 data))) +:+
  "% | 
                    Negative: " +:+
  show (Pct.negative_pct (ComparedTweet.stats (CompareTweets.tweet2 data))) +:+
  markup "%
                </p>
            </div>
        </div>
        
        <div class=`chart-container`>
            <h3>Reply Sentiment Comparison</h3>
            <canvas id=`tweetCompareChart`></canvas>
        </div>
    ".

(** [function displayTweetComparison(data)] *)
Definition displayTweetComparison (data : CompareTweets.t) : M unit :=
  render "compareTweetsResults" (tweets_compared_html data);;
  showResults rt "compareTweetsResults";;
  createChart rt "tweetCompareChart" "bar"
    (ComparisonCharts.comparison (CompareTweets.charts data)).

(** [async function compareTweets()] *)
Definition compareTweets : Async CompareTweets.t unit :=
  input1 ← sync (field "compareTweet1");
  let tweet1 := extractTweetId input1 in
  input2 ← sync (field "compareTweet2");
  let tweet2 := extractTweetId input2 in
  if falsy tweet1 || falsy tweet2
  then sync (showError rt "compareTweetsError" "Please enter both tweet IDs")
  else
    sync (showLoading rt "compareTweetsLoading");;
    sync (hideError rt "compareTweetsError");;
    sync (hideResults rt "compareTweetsResults");;
    async_try
      (data ← fetch {| url := "/api/compare-tweets";
                       body := [("tweet_id1", JsString tweet1);
                                ("tweet_id2", JsString tweet2)] |};
       sync (hideLoading rt "compareTweetsLoading");;
       match data with
       | Success data => sync (displayTweetComparison data)
       | Failure error => sync (showError rt "compareTweetsError" error)
       end)
      (λ error,
         sync (hideLoading rt "compareTweetsLoading");;
         sync (showError rt "compareTweetsError"
                 ("Error: " +:+ message error))).

Definition search_html (data : Search.t) : string :=
  let stats := Search.stats data in
  markup "
        <h2 style=`margin-bottom: 20px;`>Search Results: `" +:+
  Search.query data +:+
  markup "`</h2>
        
        <div class=`stats-grid`>
            <div class=`stat-card`>
                <h3>Total Tweets</h3>
                <div class=`value`>" +:+
  show (Stats.total stats) +:+
  markup "</div>
            </div>
            <div class=`stat-card`>
                <h3>Positive</h3>
                <div class=`value`>" +:+
  show (Stats.positive_pct stats) +:+
  markup "%</div>
            </div>
            <div class=`stat-card`>
                <h3>Neutral</h3>
                <div class=`value`>" +:+
  show (Stats.neutral_pct stats) +:+
  markup "%</div>
            </div>
            <div class=`stat-card`>
                <h3>Negative</h3>
                <div class=`value`>" +:+
  show (Stats.negative_pct stats) +:+
  markup "%</div>
            </div>
        </div>
        
        <div class=`chart-grid`>
            <div class=`chart-container`>
                <canvas id=`searchPieChart`></canvas>
            </div>
            <div class=`chart-container`>
                <canvas id=`searchEngagementChart`></canvas>
            </div>
        </div>
    ".

(** [function displaySearchResults(data)] *)
Definition displaySearchResults (data : Search.t) : M unit :=
  render "searchResults" (search_html data);;
  showResults rt "searchResults";;
  createChart rt "searchPieChart" "pie"
    (TweetCharts.pie_chart (Search.charts data));;
  match TweetCharts.engagement (Search.charts data) with
  | Some engagement => createChart rt "searchEngagementChart" "bar" engagement
  | None => mret ()
  end.

(** [async function searchAndAnalyze()] *)
Definition searchAndAnalyze : Async Search.t unit :=
  query ← sync (field "searchQuery");
  maxResults ← sync (field "searchMax");
  if falsy query
  then sync (showError rt "searchError" "Please enter a search query")
  else
    sync (showLoading rt "searchLoading");;
    sync (hideError rt "searchError");;
    sync (hideResults rt "searchResults");;
    async_try
      (data ← fetch {| url := "/api/search-analyze";
                       body := [("query", JsString query);
                                ("max_results", JsString maxResults)] |};
       sync (hideLoading rt "searchLoading");;
       match data with
       | Success data => sync (displaySearchResults data)
       | Failure error => sync (showError rt "searchError" error)
       end)
      (λ error,
         sync (hideLoading rt "searchLoading");;
         sync (showError rt "searchError" ("Error: " +:+ message error))).

Definition sentiment_html (data : Sentiment.t) : string :=
  markup "
                <div class=`chart-container` style=`margin-top: 20px;`>
                    <div class=`tweet-card`>
                        <span class=`sentiment-badge " +:+
  toLowerCase rt (Sentiment.sentiment data) +:+
  markup "`>
                            " +:+
  Sentiment.sentiment data +:+
  " (" +:+
  show (Sentiment.confidence data) +:+
  markup "%)
                        </span>
                        <p style=`margin: 10px 0;`><strong>Text:</strong> " +:+
  Sentiment.text data +:+
  "</p>
                        <p><strong>Cleaned:</strong> " +:+
  Sentiment.cleaned_text data +:+
  "</p>
                    </div>
                </div>
            ".

(** [console.error('Error:', error)] *)
Definition console_error (error : Exn) : M unit :=
  modify (λ w,
    {| page := page w; event_target := event_target w; charts := charts w;
       chartInstances := chartInstances w;
       console := console w ++ [error] |}).

(** [async function testSentiment()] *)
Definition testSentiment : Async Sentiment.t unit :=
  text ← sync (field "testText");
  if falsy text then mret ()
  else
    async_try
      (data ← fetch {| url := "/api/test-sentiment";
                       body := [("text", JsString text)] |};
       match data with
       | Success data =>
           sync (render "testResults" (sentiment_html data));;
           sync (showResults rt "testResults")
       | Failure _ => mret ()
       end)
      (λ error, sync (console_error error)).

End Dashboard.

(** ** Vocabulary of the properties *)

(** The part of a request flow after its input is read and found
    non-empty: the six flows that have an error region share it word for
    word, up to the identifiers, the request and the display function. *)
Definition request_flow {P} (rt : Runtime) (loading error results : string)
    (req : Request) (display : P → M unit) : Async P unit :=
  sync (showLoading rt loading);;
  sync (hideError rt error);;
  sync (hideResults rt results);;
  async_try
    (data ← fetch req;
     sync (hideLoading rt loading);;
     match data with
     | Success payload => sync (display payload)
     | Failure err => sync (showError rt error err)
     end)
    (λ err,
       sync (hideLoading rt loading);;
       sync (showError rt error ("Error: " +:+ message err))).

(** The static element [id] resolves to, if it resolves to one. *)
Definition static_element (id : string) (w : World) : option (nat * Element) :=
  match Dom.find_id id (page w) with
  | Some (Static i) => (λ e, (i, e)) <$> page w !! i
  | _ => None
  end.

(** Every identifier of [ids] resolves to an element of the served page,
    not to [null] and not to a node that rendered markup brought in. *)
Definition served (ids : list string) (w : World) : bool :=
  forallb (λ id, bool_decide (is_Some (static_element id w))) ids.

(** What the form control [id] holds. *)
Definition input_value (id : string) (w : World) : string :=
  default "" ((λ ie, value (node ie.2)) <$> static_element id w).

(** The region [id] shows the text [msg]: it holds it and is active. *)
Definition displays (id msg : string) (w : World) : Prop :=
  ∃ i e, static_element id w = Some (i, e)
         ∧ content (node e) = msg ∧ "active" ∈ classList (node e).

(** Between [w] and [w'] the region [id] was not written to: same
    content, same nodes inside, same classes. *)
Definition untouched (id : string) (w w' : World) : Prop :=
  ∃ ie, static_element id w = Some ie ∧ static_element id w' = Some ie.

(** What a suspended flow does once the outcome [o] of its request
    arrives in the world [w']. *)
Definition resume {P A} (f : Flow P A) (o : FetchOutcome P) (w' : World)
  : option (Flow P A) :=
  match f with
  | Await _ _ k => Some (k o w')
  | Done _ => None
  end.

(** The request a flow is suspended on. *)
Definition request_of {P A} (f : Flow P A) : option Request :=
  match f with
  | Await _ req _ => Some req
  | Done _ => None
  end.

(** Change the classes of the served element at position [i]. *)
Definition classes_at (g : gset string → gset string) (i : nat) (w : World)
  : World :=
  set_page (alter (λ e, {| node := Dom.with_classes g (node e);
                           kids := kids e |}) i) w.

(** Set the text of the served element at position [i]. *)
Definition text_at (c : string) (i : nat) (w : World) : World :=
  set_page (alter (λ e, {| node := Dom.with_content c (node e);
                           kids := [] |}) i) w.
(** The identifiers and the prompt of a request flow. *)
Record Feature := {
  required : list string;       (** the mandatory input fields *)
  optional : list string;       (** the other input fields it reads *)
  loading : string;
  error : string;
  results : string;
  prompt : string               (** the validation message *)
}.

Definition ids_of (f : Feature) : list string :=
  required f ++ optional f ++ [loading f; error f; results f].

(** [Φ] holds of each of the six request flows that have an error region,
    taken with its identifiers. *)
Definition each_request_flow (rt : Runtime)
    (Φ : ∀ P, Async P unit → Feature → Prop) : Prop :=
  Φ _ (getUserProfile rt)
    {| required := ["profileUsername"]; optional := [];
       loading := "profileLoading"; error := "profileError";
       results := "profileResults"; prompt := "Please enter a username" |}
  ∧ Φ _ (getUserTweets rt)
    {| required := ["tweetsUsername"]; optional := ["tweetsMax"];
       loading := "tweetsLoading"; error := "tweetsError";
       results := "tweetsResults"; prompt := "Please enter a username" |}
  ∧ Φ _ (analyzeReplies rt)
    {| required := ["replyTweetId"]; optional := [];
       loading := "replyLoading"; error := "replyError";
       results := "replyResults"; prompt := "Please enter a tweet ID or URL" |}
  ∧ Φ _ (compareUsers rt)
    {| required := ["compareUser1"; "compareUser2"]; optional := [];
       loading := "compareUsersLoading"; error := "compareUsersError";
       results := "compareUsersResults";
       prompt := "Please enter both usernames" |}
  ∧ Φ _ (compareTweets rt)
    {| required := ["compareTweet1"; "compareTweet2"]; optional := [];
       loading := "compareTweetsLoading"; error := "compareTweetsError";
       results := "compareTweetsResults";
       prompt := "Please enter both tweet IDs" |}
  ∧ Φ _ (searchAndAnalyze rt)
    {| required := ["searchQuery"]; optional := ["searchMax"];
       loading := "searchLoading"; error := "searchError";
       results := "searchResults"; prompt := "Please enter a search query" |}.

Fixpoint all_space (s : string) : bool :=
  match s with
  | EmptyString => true
  | String c t => Html.is_space c && all_space t
  end.

(** A non-empty string of white space only. *)
Definition blank (s : string) : bool := negb (falsy s) && all_space s.

(** The request body carries the string [v] as one of its fields. *)
Definition carries (req : Request) (v : string) : Prop :=
  JsString v ∈ (snd <$> body req).

(** A change of one element that keeps its id and brings in no id. *)
Definition discreet (f : Element → Element) : Prop :=
  ∀ e, node_id (node (f e)) = node_id (node e)
       ∧ ∀ id, Dom.declares id (f e) = true → Dom.declares id e = true.

(** The continuation a request flow leaves with its request. *)
Definition on_outcome {P} (rt : Runtime) (loading error : string)
    (display : P → M unit) : FetchOutcome P → Async P unit := λ o,
  async_try
    (data ← (λ w', match o with
                   | Reply data => Done (Ok data w')
                   | Rejected e => Done (Throw e w')
                   end);
     sync (hideLoading rt loading);;
     match data with
     | Success payload => sync (display payload)
     | Failure err => sync (showError rt error err)
     end)
    (λ err,
       sync (hideLoading rt loading);;
       sync (showError rt error ("Error: " +:+ message err))).

(** The continuation of the sentiment test. *)
Definition on_sentiment (rt : Runtime)
  : FetchOutcome Sentiment.t → Async Sentiment.t unit := λ o,
  async_try
    (data ← (λ w', match o with
                   | Reply data => Done (Ok data w')
                   | Rejected e => Done (Throw e w')
                   end);
     match data with
     | Success data =>
         sync (render rt "testResults" (sentiment_html rt data));;
         sync (showResults rt "testResults")
     | Failure _ => mret ()
     end)
    (λ error, sync (console_error error)).

(** ** A page and an engine to run the script on *)

(** An engine: numbers outside the safe integers print as [#], dates as
    they come, lower-casing is that of ASCII. *)
Definition sample_runtime : Runtime :=
  {| number_to_string := λ _, "#";
     toLocaleString := λ _, "#";
     toLocaleDateString := λ d, d;
     toLowerCase := λ s,
       String.string_of_list_ascii
         (Html.lower <$> String.list_ascii_of_string s);
     type_error_message := λ prop,
       "Cannot read properties of null (reading '" +:+ prop +:+ "')";
     set_error_message := λ prop,
       "Cannot set properties of null (setting '" +:+ prop +:+ "')" |}.

Definition control (t id : string) (cls : list string) (v : string) : Element :=
  {| node := {| tag := t; node_id := Some id; classList := list_to_set cls;
                value := v; content := "" |};
     kids := [] |}.

(** A page with every element the script looks up, two tabs, and [v] in
    every input field. *)
Definition sample_page (v : string) : list Element :=
  [ control "button" "tab-user-tweets" ["tab"; "active"] "";
    control "button" "tab-reply-analysis" ["tab"] "";
    control "div" "user-tweets-tab" ["tab-content"; "active"] "";
    control "input" "tweetsUsername" [] v;
    control "input" "tweetsMax" [] "10";
    control "div" "tweetsLoading" ["loading"] "";
    control "div" "tweetsError" ["error"] "";
    control "div" "tweetsResults" ["results"] "";
    control "div" "reply-analysis-tab" ["tab-content"] "";
    control "input" "replyTweetId" [] v;
    control "div" "replyLoading" ["loading"] "";
    control "div" "replyError" ["error"] "";
    control "div" "replyResults" ["results"] "";
    control "input" "profileUsername" [] v;
    control "div" "profileLoading" ["loading"] "";
    control "div" "profileError" ["error"] "";
    control "div" "profileResults" ["results"] "";
    control "input" "compareUser1" [] v;
    control "input" "compareUser2" [] v;
    control "div" "compareUsersLoading" ["loading"] "";
    control "div" "compareUsersError" ["error"] "";
    control "div" "compareUsersResults" ["results"] "";
    control "input" "compareTweet1" [] v;
    control "input" "compareTweet2" [] v;
    control "div" "compareTweetsLoading" ["loading"] "";
    control "div" "compareTweetsError" ["error"] "";
    control "div" "compareTweetsResults" ["results"] "";
    control "input" "searchQuery" [] v;
    control "input" "searchMax" [] "10";
    control "div" "searchLoading" ["loading"] "";
    control "div" "searchError" ["error"] "";
    control "div" "searchResults" ["results"] "";
    control "textarea" "testText" [] v;
    control "div" "testResults" ["results"] "" ].

Definition sample_world (v : string) : World := initial (sample_page v).

(** The text [x] occurs in [s]. *)
Definition contains (x s : string) : Prop := ∃ pre post, s = pre +:+ x +:+ post.

(** ** The chart registry *)

(** Every live chart is the one registered for its canvas. *)
Definition registry_ok (w : World) : Prop :=
  ∀ h c, charts w !! h = Some c → live c = true →
         chartInstances w !! canvas c = Some h.

Definition live_on_canvas (id : string) (c : Chart) : Prop :=
  canvas c = id ∧ live c = true.

#[export] Instance live_on_canvas_dec id c : Decision (live_on_canvas id c).
Proof. unfold live_on_canvas. apply _. Defined.

(** How many live chart objects there are for the canvas [id]. *)
Definition live_on (id : string) (w : World) : nat :=
  length (filter (live_on_canvas id) (charts w)).


(** An invariant [I] of the world is kept by a synchronous computation,
    however it ends. *)
Definition keeps (I : World → Prop) {A} (m : M A) : Prop :=
  ∀ w, I w → I (world_of (m w)).

(** A flow keeps [I] when [I] holds where it suspends and where it
    settles, provided it holds again when the flow is resumed. *)
Fixpoint flow_keeps (I : World → Prop) {P A} (f : Flow P A) : Prop :=
  match f with
  | Done r => I (world_of r)
  | Await w _ k => I w ∧ ∀ o w', I w' → flow_keeps I (k o w')
  end.

Definition async_keeps (I : World → Prop) {P A} (m : Async P A) : Prop :=
  ∀ w, I w → flow_keeps I (m w).

(** Sample payloads. *)
Definition sample_chart : ChartData :=
  {| labels := ["positive"; "neutral"; "negative"];
     series := [Num.of_Z 1; Num.of_Z 0; Num.of_Z 0] |}.

Definition sample_tweet : Tweet.t :=
  {| Tweet.id := "123"; Tweet.confidence := Num.decimal 873 3;
     Tweet.created_at := "2024-05-01"; Tweet.text := "good";
     Tweet.likes := Num.of_Z 3; Tweet.retweets := Num.of_Z 0;
     Tweet.replies := Num.of_Z 1 |}.

Definition sample_tweets : UserTweets.t :=
  {| UserTweets.stats :=
       {| Stats.total := Num.of_Z 1; Stats.positive_pct := Num.of_Z 100;
          Stats.neutral_pct := Num.of_Z 0; Stats.negative_pct := Num.of_Z 0 |};
     UserTweets.categorized :=
       {| Categorized.positive := [sample_tweet]; Categorized.neutral := [];
          Categorized.negative := [] |};
     UserTweets.charts :=
       {| TweetCharts.pie_chart := sample_chart;
          TweetCharts.engagement := None |} |}.

Definition sample_sentiment : Sentiment.t :=
  {| Sentiment.sentiment := "Positive"; Sentiment.confidence := Num.of_Z 92;
     Sentiment.text := "Good!"; Sentiment.cleaned_text := "good" |}.

(** The sample page after the tweets of a user were displayed on it. *)
Definition after_user_tweets : World :=
  world_of (displayUserTweets sample_runtime sample_tweets "alice"
              (sample_world "alice")).

(** Put markup into the served element at position [i]. *)
Definition markup_at (html : string) (i : nat) (w : World) : World :=
  set_page (alter (λ e, {| node := Dom.with_content html (node e);
                           kids := parse_markup html |}) i) w.

(** A reply analysis without replies whose tweet text is itself markup
    for a canvas, and which comes with a chart series. *)
Definition canvas_in_text : TweetReplies.t :=
  {| TweetReplies.tweet :=
       {| Original.text := markup "<canvas id=`replyChart`></canvas>";
          Original.likes := Num.of_Z 0; Original.retweets := Num.of_Z 0;
          Original.replies := Num.of_Z 0 |};
     TweetReplies.reply_analysis :=
       {| ReplyAnalysis.total_replies := Num.of_Z 0;
          ReplyAnalysis.sentiment_stats := None;
          ReplyAnalysis.analyzed_replies := None |};
     TweetReplies.charts :=
       Some {| ReplyCharts.sentiment_distribution := Some sample_chart |} |}.

(** A reply analysis without replies and without a chart series. *)
Definition no_replies_at_all : TweetReplies.t :=
  {| TweetReplies.tweet :=
       {| Original.text := "anyone?"; Original.likes := Num.of_Z 2;
          Original.retweets := Num.of_Z 0; Original.replies := Num.of_Z 0 |};
     TweetReplies.reply_analysis :=
       {| ReplyAnalysis.total_replies := Num.of_Z 0;
          ReplyAnalysis.sentiment_stats := None;
          ReplyAnalysis.analyzed_replies := None |};
     TweetReplies.charts := None |}.

(** The world while a click on the node [r] is dispatched. *)
Definition clicked (r : NodeRef) (w : World) : World :=
  {| page := page w; event_target := Some r; charts := charts w;
     chartInstances := chartInstances w; console := console w |}.

(** The world a flow is suspended in. *)
Definition suspended {P A} (f : Flow P A) : option World :=
  match f with
  | Await w _ _ => Some w
  | Done _ => None
  end.

(** The tab selectors and the tab panels marked active. *)
Definition active_selectors (w : World) : nat :=
  Dom.count_with "tab" "active" (page w).
Definition active_panels (w : World) : nat :=
  Dom.count_with "tab-content" "active" (page w).

(** Whether the node [r] carries the class [c]. *)
Definition has_class (c : string) (r : NodeRef) (w : World) : bool :=
  default false ((λ n, bool_decide (c ∈ classList n)) <$> Dom.get r (page w)).

(** The [Analyze Replies] button of the first tweet card on the sample
    page: the node its markup created inside the tweets' result region. *)
Definition analyze_button : NodeRef := Dynamic 7 28.

(** The world a flow has settled in, if it has. *)
Definition settled {P A} (f : option (Flow P A)) : option World :=
  match f with
  | Some (Done r) => Some (world_of r)
  | _ => None
  end.

(** What the served element [id] holds. *)
Definition text_of (id : string) (w : World) : option string :=
  (λ ie, content (node ie.2)) <$> static_element id w.

(** A reply analysis without replies that comes with a chart series. *)
Definition series_without_replies : TweetReplies.t :=
  {| TweetReplies.tweet := TweetReplies.tweet no_replies_at_all;
     TweetReplies.reply_analysis := TweetReplies.reply_analysis no_replies_at_all;
     TweetReplies.charts :=
       Some {| ReplyCharts.sentiment_distribution := Some sample_chart |} |}.

(** The nodes of one element that carry both classes. *)
Definition marked (cls c : string) (e : Element) : nat :=
  length (filter (λ n, bool_decide (cls ∈ classList n ∧ c ∈ classList n) = true)
                 (node e :: kids e)).

(** What [querySelectorAll('.' + cls).forEach(...remove('active'))] does
    to one node, and to an element with the nodes inside it. *)
Definition unmark (cls : string) (n : Node) : Node :=
  if bool_decide (cls ∈ classList n)
  then Dom.with_classes (λ s, s ∖ {["active"]}) n else n.

Definition unmark_all (cls : string) (e : Element) : Element :=
  {| node := unmark cls (node e); kids := unmark cls <$> kids e |}.

(** [classList.add('active')] on a served element. *)
Definition activate (e : Element) : Element :=
  {| node := Dom.with_classes (λ s, s ∪ {["active"]}) (node e);
     kids := kids e |}.

(** ** Vocabulary of the further properties *)

(** The served region [id] carries the class [active], or does not. *)
Definition is_active (id : string) (w : World) : Prop :=
  ∃ i e, static_element id w = Some (i, e) ∧ "active" ∈ classList (node e).

Definition is_hidden (id : string) (w : World) : Prop :=
  ∃ i e, static_element id w = Some (i, e) ∧ "active" ∉ classList (node e).

(** The served element at position [i] does not carry [active]. *)
Definition hidden_at (i : nat) (w : World) : Prop :=
  ∃ e, page w !! i = Some e ∧ "active" ∉ classList (node e).

(** Between [w] and [w'] no chart was constructed, destroyed or
    registered. *)
Definition same_charts (w w' : World) : Prop :=
  charts w' = charts w ∧ chartInstances w' = chartInstances w.

(** Between [w] and [w'] the page changed at most in the served element
    at position [i]: every other element is as it was. *)
Definition only_at (i : nat) (w w' : World) : Prop :=
  ∀ k, k ≠ i → page w' !! k = page w !! k.

(** The world with [error] logged to the console. *)
Definition logged (error : Exn) (w : World) : World :=
  {| page := page w; event_target := event_target w; charts := charts w;
     chartInstances := chartInstances w; console := console w ++ [error] |}.

(** The served element at position [k] carries the identifier [id]. *)
Definition placed (id : string) (k : nat) (w : World) : Prop :=
  ∃ e, page w !! k = Some e ∧ node_id (node e) = Some id.

(** Every entry of the registry points at a chart object that was built
    on the canvas the entry is for. *)
Definition registry_sound (w : World) : Prop :=
  ∀ id h, chartInstances w !! id = Some h →
          ∃ c, charts w !! h = Some c ∧ canvas c = id.

(** The identifier [id] resolves to a [canvas] element. *)
Definition is_canvas (id : string) (w : World) : Prop :=
  ∃ c n, Dom.find_id id (page w) = Some c ∧ Dom.get c (page w) = Some n
         ∧ tag n = "canvas".

(** No served element other than the one at position [i] carries or
    holds the identifier [id]. *)
Definition only_in (id : string) (i : nat) (w : World) : Prop :=
  ∀ k e, page w !! k = Some e → k ≠ i → Dom.declares id e = false.

(** The state the tokenizer is in after it has read the markup [s]. *)
Fixpoint state_after (st : Html.State) (s : string) : Html.State :=
  match s with
  | EmptyString => st
  | String c t => state_after (Html.step st c).1 t
  end.

(** What the display function of the reply analysis finds missing in a
    payload that reports replies: the property whose read throws. *)
Definition missing_of (analysis : ReplyAnalysis.t) : option string :=
  match ReplyAnalysis.sentiment_stats analysis,
        ReplyAnalysis.analyzed_replies analysis with
  | None, _ => Some "positive_pct"
  | Some _, None => Some "slice"
  | Some _, Some _ => None
  end.

(** A comparison of two users whose names are themselves markup. *)
Definition sample_comparison : CompareUsers.t :=
  {| CompareUsers.user1 :=
       {| User.info := {| Info.username := "<canvas id=x>" |};
          User.stats := {| Pct.positive_pct := Num.of_Z 50;
                           Pct.neutral_pct := Num.of_Z 30;
                           Pct.negative_pct := Num.of_Z 20 |} |};
     CompareUsers.user2 :=
       {| User.info := {| Info.username := "</div" |};
          User.stats := {| Pct.positive_pct := Num.of_Z 10;
                           Pct.neutral_pct := Num.of_Z 80;
                           Pct.negative_pct := Num.of_Z 10 |} |};
     CompareUsers.charts :=
       {| UserCharts.profile_comparison := sample_chart;
          UserCharts.sentiment_comparison := sample_chart |} |}.

(** A reply analysis that reports three replies and has no statistics. *)
Definition replies_without_stats : TweetReplies.t :=
  {| TweetReplies.tweet := TweetReplies.tweet no_replies_at_all;
     TweetReplies.reply_analysis :=
       {| ReplyAnalysis.total_replies := Num.of_Z 3;
          ReplyAnalysis.sentiment_stats := None;
          ReplyAnalysis.analyzed_replies := Some [] |};
     TweetReplies.charts := None |}.

(** From [w] to [w'] every served element kept its place, its identifier
    and the value it holds. *)
Definition same_fields (w w' : World) : Prop :=
  ∀ id i e, static_element id w = Some (i, e) →
            ∃ e', static_element id w' = Some (i, e')
                  ∧ value (node e') = value (node e).

(** The first [n] characters of [s], as far as [s] goes, are no digits. *)
Fixpoint leads_without_digit (n : nat) (s : string) : bool :=
  match n, s with
  | S n, String c t => negb (Str.is_digit c) && leads_without_digit n t
  | _, _ => true
  end.

(** Text without the character that opens a tag. *)
Fixpoint plain (s : string) : bool :=
  match s with
  | EmptyString => true
  | String c t => negb (Ascii.eqb c "<") && plain t
  end.

(** Sample payloads of plain text. *)
Definition sample_search : Search.t :=
  {| Search.query := "rocq prover";
     Search.stats :=
       {| Stats.total := Num.of_Z 2; Stats.positive_pct := Num.of_Z 50;
          Stats.neutral_pct := Num.of_Z 50; Stats.negative_pct := Num.of_Z 0 |};
     Search.charts :=
       {| TweetCharts.pie_chart := sample_chart;
          TweetCharts.engagement := Some sample_chart |} |}.

Definition sample_tweet_comparison : CompareTweets.t :=
  {| CompareTweets.tweet1 :=
       {| ComparedTweet.details := {| Details.text := "first" |};
          ComparedTweet.stats := {| Pct.positive_pct := Num.of_Z 50;
                                    Pct.neutral_pct := Num.of_Z 30;
                                    Pct.negative_pct := Num.of_Z 20 |} |};
     CompareTweets.tweet2 :=
       {| ComparedTweet.details := {| Details.text := "second" |};
          ComparedTweet.stats := {| Pct.positive_pct := Num.of_Z 10;
                                    Pct.neutral_pct := Num.of_Z 80;
                                    Pct.negative_pct := Num.of_Z 10 |} |};
     CompareTweets.charts := {| ComparisonCharts.comparison := sample_chart |} |}.

Definition sample_stats : SentimentStats.t :=
  {| SentimentStats.positive_pct := Num.of_Z 100;
     SentimentStats.neutral_pct := Num.of_Z 0;
     SentimentStats.negative_pct := Num.of_Z 0;
     SentimentStats.avg_confidence := Num.decimal 873 3 |}.

(** A reply whose text is itself markup. *)
Definition sample_reply : Reply.t :=
  {| Reply.sentiment := "Positive"; Reply.confidence := Num.decimal 873 3;
     Reply.text := "<b>yes" |}.

Definition sample_replies : TweetReplies.t :=
  {| TweetReplies.tweet := TweetReplies.tweet no_replies_at_all;
     TweetReplies.reply_analysis :=
       {| ReplyAnalysis.total_replies := Num.of_Z 1;
          ReplyAnalysis.sentiment_stats := Some sample_stats;
          ReplyAnalysis.analyzed_replies := Some [sample_reply] |};
     TweetReplies.charts :=
       Some {| ReplyCharts.sentiment_distribution := Some sample_chart |} |}.
(* ================================================================== *)
(** * Properties *)

Section StringFacts.
Import Str.
#[local] Arguments String.append !_ _ / : simpl nomatch.

Lemma digits_split s : s = digits_of s +:+ after_digits s.
Proof.
  induction s as [|c t IH]; simpl; [done|].
  destruct (is_digit c); simpl; [by rewrite <- IH | done].
Qed.

Lemma digits_of_all s : all_digits (digits_of s) = true.
Proof.
  induction s as [|c t IH]; simpl; [done|].
  destruct (is_digit c) eqn:E; simpl; [by rewrite E | done].
Qed.

Lemma after_digits_head s c t :
  after_digits s = String c t → is_digit c = false.
Proof.
  induction s as [|x s IH]; simpl; [done|].
  destruct (is_digit x) eqn:E; [done|]. by intros [= -> _].
Qed.

Lemma strip_prefix_Some p s r : strip_prefix p s = Some r ↔ s = p +:+ r.
Proof.
  revert s. induction p as [|a p IH]; intros s; simpl.
  - split; [by intros [= ->] | by intros ->].
  - destruct s as [|b s]; [done|].
    destruct (Ascii.eqb_spec a b) as [->|Hne].
    + rewrite IH. split; [by intros -> | by intros [= ->]].
    + split; [done | intros [= ? _]; by subst].
Qed.

Lemma match_here_Some s g :
  Regex.match_here s = Some g →
  g ≠ EmptyString ∧ all_digits g = true ∧
  ∃ rest, s = "status/" +:+ g +:+ rest
          ∧ ∀ c t, rest = String c t → is_digit c = false.
Proof.
  unfold Regex.match_here.
  destruct (strip_prefix "status/" s) as [r|] eqn:Hp; [|done].
  apply strip_prefix_Some in Hp.
  destruct (digits_of r) as [|c d] eqn:Hd; [done|].
  intros [= <-]. split; [done|]. split.
  { rewrite <- Hd. apply digits_of_all. }
  exists (after_digits r). split.
  - rewrite Hp. f_equal. rewrite <- Hd. apply digits_split.
  - intros x t. apply after_digits_head.
Qed.

Lemma match_here_None s : Regex.match_here s = None → ¬ pattern_at s "".
Proof.
  unfold Regex.match_here. intros H (c & rest & -> & Hc).
  simpl in H. by rewrite Hc in H.
Qed.

Lemma pattern_at_tail x s pre :
  pattern_at (String x s) (String x pre) ↔ pattern_at s pre.
Proof.
  unfold pattern_at; split; intros (c & r & E & Hc); exists c, r.
  - simpl in E. by injection E as E.
  - simpl. by rewrite E.
Qed.

Lemma pattern_at_head x y s pre :
  pattern_at (String x s) (String y pre) → x = y.
Proof. intros (c & r & E & _). simpl in E. by injection E. Qed.

(** The leftmost match: its capture, and that nothing matches before it. *)
Lemma match_status_Some s g :
  Regex.match_status s = Some g →
  ∃ pre rest,
    s = pre +:+ "status/" +:+ g +:+ rest
    ∧ g ≠ EmptyString ∧ all_digits g = true
    ∧ (∀ c t, rest = String c t → is_digit c = false)
    ∧ (∀ pre', pattern_at s pre' → String.length pre ≤ String.length pre').
Proof.
  induction s as [|x s IH]; simpl.
  - done.
  - destruct (Regex.match_here (String x s)) eqn:E.
    + intros [= ->].
      apply match_here_Some in E as (? & ? & r & Hr & ?). exists "", r.
      repeat split; auto. simpl; lia.
    + intros Hs. destruct (IH Hs) as (pre & r & -> & ? & ? & ? & Hmin).
      exists (String x pre), r. repeat split; auto.
      intros [|y pre'] Hp; [by apply match_here_None in E|].
      pose proof (pattern_at_head _ _ _ _ Hp) as <-.
      apply pattern_at_tail, Hmin in Hp. simpl; lia.
Qed.

Lemma match_status_None s :
  Regex.match_status s = None → ∀ pre, ¬ pattern_at s pre.
Proof.
  induction s as [|x s IH]; simpl.
  - intros _ [|y pre] (c & r & ? & _); done.
  - destruct (Regex.match_here (String x s)) eqn:E; [done|].
    intros Hs [|y pre]; [by apply match_here_None|].
    intros Hp. pose proof (pattern_at_head _ _ _ _ Hp) as <-.
    apply pattern_at_tail in Hp. by apply (IH Hs pre).
Qed.

Lemma no_digits_app a b : no_digits (a +:+ b) = no_digits a && no_digits b.
Proof.
  induction a as [|x a IH]; simpl; [done|]. by rewrite IH, andb_assoc.
Qed.

Lemma all_digits_app a b : all_digits (a +:+ b) = all_digits a && all_digits b.
Proof.
  induction a as [|x a IH]; simpl; [done|]. by rewrite IH, andb_assoc.
Qed.

Lemma pattern_has_digit s pre : pattern_at s pre → no_digits s = false.
Proof.
  intros (c & r & -> & Hc).
  rewrite !no_digits_app. simpl. rewrite Hc. apply andb_false_r.
Qed.

Lemma pattern_not_all_digits s pre : pattern_at s pre → all_digits s = false.
Proof.
  intros (c & r & -> & _). rewrite all_digits_app. apply andb_false_r.
Qed.

End StringFacts.

(** C1.  [extractTweetId] returns the digit run that follows the first
    place where [status/] is immediately followed by a digit, when there is
    such a place, and returns its input unchanged otherwise.  The run is
    non-empty, all digits, and maximal (what follows it does not start with
    a digit); no earlier position of the input carries the pattern.  The
    three inputs of the specification are instances, and so is every input
    [status/] followed by digit-free text. *)
Theorem extractTweetId_spec (input : string) :
  ((∃ pre digits rest,
      input = pre +:+ "status/" +:+ digits +:+ rest
      ∧ digits ≠ EmptyString ∧ Str.all_digits digits = true
      ∧ (∀ c t, rest = String c t → Str.is_digit c = false)
      ∧ (∀ pre', pattern_at input pre' →
                 String.length pre ≤ String.length pre')
      ∧ extractTweetId input = digits)
   ∨ ((∀ pre, ¬ pattern_at input pre) ∧ extractTweetId input = input))
  ∧ extractTweetId "https://x.com/user/status/12345" = "12345"
  ∧ extractTweetId "12345" = "12345"
  ∧ extractTweetId "status/abc" = "status/abc"
  ∧ (∀ rest, Str.no_digits rest = true →
             extractTweetId ("status/" +:+ rest) = "status/" +:+ rest).
Proof.
  split; [|repeat split; try reflexivity].
  - unfold extractTweetId.
    destruct (Regex.match_status input) as [g|] eqn:E.
    + left. apply match_status_Some in E as (pre & r & ? & ? & ? & ? & ?).
      by exists pre, g, r.
    + right. split; [by apply match_status_None | done].
  - intros rest Hrest. unfold extractTweetId.
    destruct (Regex.match_status _) as [g|] eqn:E; [|done].
    apply match_status_Some in E as (pre & r & E & Hg & Hd & _).
    destruct g as [|c g]; [done|]. simpl in Hd. apply andb_prop in Hd as [Hc _].
    assert (pattern_at ("status/" +:+ rest) pre) as Hp.
    { exists c, (g +:+ r). by rewrite E. }
    apply pattern_has_digit in Hp. rewrite no_digits_app in Hp.
    simpl in Hp. congruence.
Qed.

(** It is the pattern that is searched for, not the bare [status/]: a
    [status/] that no digit follows is passed over. *)
Example extractTweetId_passes_over :
  extractTweetId "status/x status/12" = "12".
Proof. reflexivity. Qed.

(** C9.  [extractTweetId] is idempotent: its result is either a string of
    digits, in which the pattern cannot occur, or the input itself, in
    which the pattern did not occur. *)
Theorem extractTweetId_idempotent (s : string) :
  extractTweetId (extractTweetId s) = extractTweetId s.
Proof.
  unfold extractTweetId at 2 3.
  destruct (Regex.match_status s) as [g|] eqn:E.
  - apply match_status_Some in E as (_ & _ & _ & _ & Hd & _).
    unfold extractTweetId.
    destruct (Regex.match_status g) as [g'|] eqn:E'; [|done].
    apply match_status_Some in E' as (pre & r & E' & Hg' & Hd' & _).
    destruct g' as [|c g']; [done|].
    simpl in Hd'. apply andb_prop in Hd' as [Hc _].
    assert (pattern_at g pre) as Hp by (by exists c, (g' +:+ r)).
    apply pattern_not_all_digits in Hp. congruence.
  - unfold extractTweetId. by rewrite E.
Qed.
Section DomFacts.
Implicit Types (p : list Element) (id : string) (w : World).

Lemma has_id_true id n : Dom.has_id id n = true ↔ node_id n = Some id.
Proof. unfold Dom.has_id. by rewrite bool_decide_eq_true. Qed.

Lemma declares_own id e : node_id (node e) = Some id → Dom.declares id e = true.
Proof. intros H. unfold Dom.declares. by rewrite (proj2 (has_id_true _ _) H). Qed.

(** [id] resolves to the served element [e] at position [i] exactly when
    [e] carries it and nothing before [e] declares it. *)
Lemma static_element_Some id w i e :
  static_element id w = Some (i, e) ↔
  page w !! i = Some e ∧ node_id (node e) = Some id
  ∧ ∀ k e', page w !! k = Some e' → k < i → Dom.declares id e' = false.
Proof.
  unfold static_element, Dom.find_id.
  destruct (list_find _ (page w)) as [[j x]|] eqn:Hf.
  - apply list_find_Some in Hf as (Hj & Hd & Hlt).
    destruct (Dom.has_id id (node x)) eqn:Hx.
    + rewrite Hj. simpl. split.
      * intros [= <- <-]. split_and!; [done|by apply has_id_true|].
        intros k e' Hk Hki. specialize (Hlt k e' Hk Hki).
        by destruct (Dom.declares id e').
      * intros (Hi & Hid & Hmin).
        destruct (lt_eq_lt_dec i j) as [[Hlt'| ->]|Hgt].
        -- specialize (Hlt i e Hi Hlt'). by rewrite declares_own in Hlt.
        -- congruence.
        -- specialize (Hmin j x Hj Hgt). congruence.
    + split.
      * destruct (list_find _ (kids x)) as [[]|]; done.
      * intros (Hi & Hid & Hmin).
        destruct (lt_eq_lt_dec i j) as [[Hlt'| ->]|Hgt].
        -- specialize (Hlt i e Hi Hlt'). by rewrite declares_own in Hlt.
        -- simplify_eq. apply has_id_true in Hid. congruence.
        -- specialize (Hmin j x Hj Hgt). congruence.
  - apply list_find_None in Hf. split; [done|].
    intros (Hi & Hid & _). rewrite Forall_forall in Hf.
    destruct (Hf e); [by eapply list_elem_of_lookup_2|by apply declares_own].
Qed.

Lemma static_element_alter f j id w i e :
  discreet f →
  static_element id w = Some (i, e) →
  static_element id (set_page (alter f j) w)
  = Some (i, if decide (j = i) then f e else e).
Proof.
  intros Hf (Hi & Hid & Hmin)%static_element_Some.
  apply static_element_Some. simpl. split_and!.
  - rewrite list_lookup_alter. case_decide as Hd; [|done].
    subst. by rewrite Hi.
  - case_decide; [|done]. by rewrite (proj1 (Hf e)).
  - intros k e' Hk Hki. rewrite list_lookup_alter in Hk.
    case_decide as Hd; [|by eauto]. subst.
    destruct (page w !! k) as [x|] eqn:Hx; [|done]. simpl in Hk.
    injection Hk as <-. specialize (Hmin k x Hx Hki).
    destruct (Dom.declares id (f x)) eqn:E; [|done].
    apply (Hf x) in E. congruence.
Qed.

Lemma static_element_distinct a b w i e e' :
  static_element a w = Some (i, e) → static_element b w = Some (i, e') → a = b.
Proof.
  intros (Hi & Hid & _)%static_element_Some (Hi' & Hid' & _)%static_element_Some.
  congruence.
Qed.

Lemma discreet_classes g :
  discreet (λ e, {| node := Dom.with_classes g (node e); kids := kids e |}).
Proof. by intros e. Qed.

Lemma discreet_text c :
  discreet (λ e, {| node := Dom.with_content c (node e); kids := [] |}).
Proof.
  intros e. split; [done|]. intros id. unfold Dom.declares. simpl.
  rewrite orb_false_r. unfold Dom.has_id. simpl. by intros ->.
Qed.

(** Writing markup into an element leaves its own identifier with it. *)
Lemma static_element_render c ks id w i e :
  static_element id w = Some (i, e) →
  static_element id
    (set_page (alter (λ e, {| node := Dom.with_content c (node e);
                              kids := ks |}) i) w)
  = Some (i, {| node := Dom.with_content c (node e); kids := ks |}).
Proof.
  intros (Hi & Hid & Hmin)%static_element_Some.
  apply static_element_Some. simpl. split_and!.
  - by rewrite list_lookup_alter_eq, Hi.
  - done.
  - intros k e' Hk Hki. rewrite list_lookup_alter_ne in Hk by lia. eauto.
Qed.

Lemma static_element_find id w i e :
  static_element id w = Some (i, e) →
  Dom.find_id id (page w) = Some (Static i).
Proof.
  unfold static_element.
  destruct (Dom.find_id id (page w)) as [[j|j k]|]; [|done..].
  destruct (page w !! j); [|done]. by intros [= -> _].
Qed.

Lemma static_element_lookup id w i e :
  static_element id w = Some (i, e) → page w !! i = Some e.
Proof. by intros (Hi & _)%static_element_Some. Qed.

Lemma served_cons id ids w :
  served (id :: ids) w = true ↔
  (∃ i e, static_element id w = Some (i, e)) ∧ served ids w = true.
Proof.
  unfold served. simpl. rewrite andb_true_iff, bool_decide_eq_true.
  split; intros [H ?]; split; try done.
  - destruct H as [[i e] ?]. eauto.
  - destruct H as (i & e & ->). eauto.
Qed.

Lemma served_cons_3 a b c w :
  served [a; b; c] w = true →
  (∃ i e, static_element a w = Some (i, e))
  ∧ (∃ i e, static_element b w = Some (i, e))
  ∧ (∃ i e, static_element c w = Some (i, e)) ∧ True.
Proof. rewrite !served_cons. by intros (? & ? & ? & _). Qed.

Lemma served_cons_3_intro a b c w :
  (∃ i e, static_element a w = Some (i, e)) →
  (∃ i e, static_element b w = Some (i, e)) →
  (∃ i e, static_element c w = Some (i, e)) →
  served [a; b; c] w = true.
Proof. rewrite !served_cons. by intros ???. Qed.

End DomFacts.
Section Running.
Context (rt : Runtime).
Implicit Types (w : World) (id : string).

Lemma element_static id prop w i e :
  static_element id w = Some (i, e) → element rt id prop w = Ok (Static i) w.
Proof.
  intros H%static_element_find. unfold element, getElementById, gets.
  unfold mbind, M_bind. by rewrite H.
Qed.

Lemma assignee_static id prop w i e :
  static_element id w = Some (i, e) → assignee rt id prop w = Ok (Static i) w.
Proof.
  intros H%static_element_find. unfold assignee, getElementById, gets.
  unfold mbind, M_bind. by rewrite H.
Qed.

Lemma field_static id w i e :
  static_element id w = Some (i, e) → field rt id w = Ok (value (node e)) w.
Proof.
  intros H. unfold field, mbind, M_bind.
  rewrite (element_static _ _ _ _ _ H). unfold get_value, gets. simpl.
  by rewrite (static_element_lookup _ _ _ _ H).
Qed.

Lemma field_input_value id w i e :
  static_element id w = Some (i, e) → field rt id w = Ok (input_value id w) w.
Proof.
  intros H. rewrite (field_static _ _ _ _ H). unfold input_value. by rewrite H.
Qed.

Lemma set_classes_run g id prop w i e :
  static_element id w = Some (i, e) →
  (element rt id prop ≫= λ r, modify (set_page (Dom.update r (Dom.with_classes g)))) w
  = Ok () (classes_at g i w).
Proof.
  intros H. unfold mbind, M_bind. by rewrite (element_static _ _ _ _ _ H).
Qed.

Lemma showLoading_run id w i e :
  static_element id w = Some (i, e) →
  showLoading rt id w = Ok () (classes_at (λ s, s ∪ {["active"]}) i w).
Proof. apply set_classes_run. Qed.

Lemma hideLoading_run id w i e :
  static_element id w = Some (i, e) →
  hideLoading rt id w = Ok () (classes_at (λ s, s ∖ {["active"]}) i w).
Proof. apply set_classes_run. Qed.

Lemma hideError_run id w i e :
  static_element id w = Some (i, e) →
  hideError rt id w = Ok () (classes_at (λ s, s ∖ {["active"]}) i w).
Proof. apply set_classes_run. Qed.

Lemma showResults_run id w i e :
  static_element id w = Some (i, e) →
  showResults rt id w = Ok () (classes_at (λ s, s ∪ {["active"]}) i w).
Proof. apply set_classes_run. Qed.

Lemma hideResults_run id w i e :
  static_element id w = Some (i, e) →
  hideResults rt id w = Ok () (classes_at (λ s, s ∖ {["active"]}) i w).
Proof. apply set_classes_run. Qed.

Lemma classes_at_static g i id w j e :
  static_element id w = Some (j, e) →
  static_element id (classes_at g i w)
  = Some (j, if decide (i = j)
             then {| node := Dom.with_classes g (node e); kids := kids e |}
             else e).
Proof. apply static_element_alter, discreet_classes. Qed.

Lemma showError_run id msg w i e :
  static_element id w = Some (i, e) →
  showError rt id msg w
  = Ok () (classes_at (λ s, s ∪ {["active"]}) i (text_at msg i w)).
Proof.
  intros H. unfold showError, mbind, M_bind.
  by rewrite (assignee_static _ _ _ _ _ H).
Qed.

Lemma text_at_static c i id w j e :
  static_element id w = Some (j, e) →
  static_element id (text_at c i w)
  = Some (j, if decide (i = j)
             then {| node := Dom.with_content c (node e); kids := [] |}
             else e).
Proof. apply static_element_alter, discreet_text. Qed.

(** [showError] on a served region: the region then displays the
    message, and every other served element is as it was. *)
Lemma showError_displays id msg w i e :
  static_element id w = Some (i, e) →
  ∃ w', showError rt id msg w = Ok () w'
        ∧ displays id msg w'
        ∧ charts w' = charts w ∧ chartInstances w' = chartInstances w
        ∧ ∀ id' ie, id' ≠ id → static_element id' w = Some ie →
                    static_element id' w' = Some ie.
Proof.
  intros H. eexists. split; [by eapply showError_run|]. split_and!; [|done..|].
  - eexists i, _. split.
    + erewrite classes_at_static; [|by erewrite text_at_static].
      rewrite !decide_True by done. done.
    + simpl. split; [done|]. set_solver.
  - intros id' [j e'] Hne H'.
    erewrite classes_at_static; [|by erewrite text_at_static].
    rewrite !decide_False; [done|..];
      intros ->; by destruct Hne; eapply static_element_distinct.
Qed.

(** Changing the classes of one served element leaves the others. *)
Lemma classes_at_frame g id w i e id' ie :
  static_element id w = Some (i, e) → id' ≠ id →
  static_element id' w = Some ie →
  static_element id' (classes_at g i w) = Some ie.
Proof.
  destruct ie as [j e']. intros H Hne H'.
  erewrite classes_at_static by done.
  rewrite decide_False; [done|].
  intros ->; by destruct Hne; eapply static_element_distinct.
Qed.

Lemma classes_at_self g id w i e :
  static_element id w = Some (i, e) →
  static_element id (classes_at g i w)
  = Some (i, {| node := Dom.with_classes g (node e); kids := kids e |}).
Proof.
  intros H. erewrite classes_at_static by done. by rewrite decide_True.
Qed.

(** Whatever the other identifier is, it still resolves. *)
Lemma classes_at_served g i id w j e :
  static_element id w = Some (j, e) →
  ∃ e', static_element id (classes_at g i w) = Some (j, e').
Proof. intros H. erewrite classes_at_static by done. eauto. Qed.

End Running.
Section RequestFlow.
Context (rt : Runtime) {P : Type}.
Context (loading error results : string) (req : Request)
        (display : P → M unit).
Implicit Types (w : World).

(** A request flow settles with an exception of one of its first three
    calls, or awaits its request with [on_outcome] as continuation. *)
Lemma request_flow_unfold w :
  request_flow rt loading error results req display w
  = match showLoading rt loading w with
    | Throw e w' => Done (Throw e w')
    | Ok _ w1 =>
        match hideError rt error w1 with
        | Throw e w' => Done (Throw e w')
        | Ok _ w2 =>
            match hideResults rt results w2 with
            | Throw e w' => Done (Throw e w')
            | Ok _ w3 => Await w3 req (on_outcome rt loading error display)
            end
        end
    end.
Proof.
  unfold request_flow, mbind, Async_bind, sync. simpl.
  destruct (showLoading rt loading w) as [[] w1|e w1]; simpl; [|done].
  destruct (hideError rt error w1) as [[] w2|e w2]; simpl; [|done].
  by destruct (hideResults rt results w2) as [[] w3|e w3].
Qed.

Lemma request_flow_resume w o w' fl :
  resume (request_flow rt loading error results req display w) o w' = Some fl →
  fl = on_outcome rt loading error display o w'.
Proof.
  rewrite request_flow_unfold.
  destruct (showLoading rt loading w) as [[] w1|e w1]; [|done].
  destruct (hideError rt error w1) as [[] w2|e w2]; [|done].
  destruct (hideResults rt results w2) as [[] w3|e w3]; [|done].
  by intros [= <-].
Qed.

Lemma request_flow_request w r :
  request_of (request_flow rt loading error results req display w) = Some r →
  r = req.
Proof.
  rewrite request_flow_unfold.
  destruct (showLoading rt loading w) as [[] w1|e w1]; [|done].
  destruct (hideError rt error w1) as [[] w2|e w2]; [|done].
  destruct (hideResults rt results w2) as [[] w3|e w3]; [|done].
  by intros [= <-].
Qed.

(** On a page that serves the three regions, the flow awaits its
    request; the error region is then inactive. *)
Lemma request_flow_awaits w :
  served [loading; error; results] w = true →
  ∃ w3, request_flow rt loading error results req display w
        = Await w3 req (on_outcome rt loading error display)
        ∧ (∀ msg, ¬ displays error msg w3)
        ∧ charts w3 = charts w ∧ chartInstances w3 = chartInstances w.
Proof.
  intros (HL & HE & HR & _)%served_cons_3.
  destruct HL as (iL & eL & HL), HE as (iE & eE & HE), HR as (iR & eR & HR).
  rewrite request_flow_unfold, (showLoading_run _ _ _ _ _ HL).
  destruct (classes_at_served (λ s, s ∪ {["active"]}) iL _ _ _ _ HE) as [eE1 HE1].
  destruct (classes_at_served (λ s, s ∪ {["active"]}) iL _ _ _ _ HR) as [eR1 HR1].
  rewrite (hideError_run _ _ _ _ _ HE1).
  destruct (classes_at_served (λ s, s ∖ {["active"]}) iE _ _ _ _ HR1) as [eR2 HR2].
  rewrite (hideResults_run _ _ _ _ _ HR2).
  eexists. split; [done|]. split; [|done].
  intros msg (i & e & Hs & _ & Hact).
  erewrite classes_at_static in Hs by (by apply classes_at_self).
  injection Hs as <- <-.
  case_decide; simpl in Hact; apply elem_of_difference in Hact as [_ Hact];
    by apply Hact, elem_of_singleton.
Qed.

(** A backend failure: the error region shows the backend's message and
    the result region is left as it was. *)
Lemma request_flow_failure w X w' fl :
  resume (request_flow rt loading error results req display w)
         (Reply (Failure X)) w' = Some fl →
  served [loading; error; results] w' = true →
  loading ≠ results → error ≠ results →
  ∃ w'', fl = Done (Ok () w'') ∧ displays error X w''
         ∧ untouched results w' w''.
Proof.
  intros ->%request_flow_resume (HL & HE & HR & _)%served_cons_3 HLR HER.
  destruct HL as (iL & eL & HL), HE as (iE & eE & HE), HR as (iR & eR & HR).
  unfold on_outcome, async_try, mbind, Async_bind, sync. simpl.
  rewrite (hideLoading_run _ _ _ _ _ HL).
  destruct (classes_at_served (λ s, s ∖ {["active"]}) iL _ _ _ _ HE) as [eE1 HE1].
  destruct (showError_displays rt error X _ iE eE1 HE1)
    as (w'' & Hrun' & Hdisp & _ & _ & Hframe').
  rewrite Hrun'. simpl. exists w''. split_and!; [done..|].
  exists (iR, eR). split; [done|].
  apply Hframe'; [done|]. by eapply classes_at_frame.
Qed.

End RequestFlow.
Section Flows.
Context (rt : Runtime).
Implicit Types (w : World).

Lemma extractTweetId_empty s : extractTweetId s = "" ↔ s = "".
Proof.
  split; [|by intros ->]. unfold extractTweetId.
  destruct (Regex.match_status s) as [g|] eqn:E; [|done].
  apply match_status_Some in E as (_ & _ & _ & Hg & _). by intros ->.
Qed.

Lemma falsy_true s : falsy s = true ↔ s = "".
Proof. unfold falsy. by rewrite bool_decide_eq_true. Qed.

Lemma falsy_extractTweetId s : falsy (extractTweetId s) = falsy s.
Proof.
  apply eq_true_iff_eq. rewrite !falsy_true. apply extractTweetId_empty.
Qed.

(** Each flow is its validation followed by the shared request flow. *)

Lemma getUserProfile_unfold w :
  getUserProfile rt w
  = match field rt "profileUsername" w with
    | Throw e w' => Done (Throw e w')
    | Ok username w1 =>
        if falsy username
        then Done (showError rt "profileError" "Please enter a username" w1)
        else request_flow rt "profileLoading" "profileError" "profileResults"
               {| url := "/api/user-info";
                  body := [("username", JsString username)] |}
               (displayUserProfile rt) w1
    end.
Proof.
  unfold getUserProfile, mbind, Async_bind, sync. simpl.
  destruct (field rt "profileUsername" w) as [v w1|]; [|done].
  by destruct (falsy v).
Qed.

Lemma getUserTweets_unfold w :
  getUserTweets rt w
  = match field rt "tweetsUsername" w with
    | Throw e w' => Done (Throw e w')
    | Ok username w1 =>
        match field rt "tweetsMax" w1 with
        | Throw e w' => Done (Throw e w')
        | Ok maxResults w2 =>
            if falsy username
            then Done (showError rt "tweetsError" "Please enter a username" w2)
            else request_flow rt "tweetsLoading" "tweetsError" "tweetsResults"
                   {| url := "/api/user-tweets";
                      body := [("username", JsString username);
                               ("max_results", JsString maxResults)] |}
                   (λ data, displayUserTweets rt data username) w2
        end
    end.
Proof.
  unfold getUserTweets, mbind, Async_bind, sync. simpl.
  destruct (field rt "tweetsUsername" w) as [v w1|]; [|done]. simpl.
  destruct (field rt "tweetsMax" w1) as [v' w2|]; [|done].
  by destruct (falsy v).
Qed.

Lemma analyzeReplies_unfold w :
  analyzeReplies rt w
  = match field rt "replyTweetId" w with
    | Throw e w' => Done (Throw e w')
    | Ok input w1 =>
        if falsy (extractTweetId input)
        then Done (showError rt "replyError"
                     "Please enter a tweet ID or URL" w1)
        else request_flow rt "replyLoading" "replyError" "replyResults"
               {| url := "/api/tweet-replies";
                  body := [("tweet_id", JsString (extractTweetId input))] |}
               (displayReplyAnalysis rt) w1
    end.
Proof.
  unfold analyzeReplies, mbind, Async_bind, sync. simpl.
  destruct (field rt "replyTweetId" w) as [v w1|]; [|done].
  by destruct (falsy (extractTweetId v)).
Qed.

Lemma compareUsers_unfold w :
  compareUsers rt w
  = match field rt "compareUser1" w with
    | Throw e w' => Done (Throw e w')
    | Ok user1 w1 =>
        match field rt "compareUser2" w1 with
        | Throw e w' => Done (Throw e w')
        | Ok user2 w2 =>
            if falsy user1 || falsy user2
            then Done (showError rt "compareUsersError"
                         "Please enter both usernames" w2)
            else request_flow rt "compareUsersLoading" "compareUsersError"
                   "compareUsersResults"
                   {| url := "/api/compare-users";
                      body := [("username1", JsString user1);
                               ("username2", JsString user2);
                               ("max_tweets", JsNumber (Num.of_Z 50))] |}
                   (displayUserComparison rt) w2
        end
    end.
Proof.
  unfold compareUsers, mbind, Async_bind, sync. simpl.
  destruct (field rt "compareUser1" w) as [v w1|]; [|done]. simpl.
  destruct (field rt "compareUser2" w1) as [v' w2|]; [|done].
  by destruct (falsy v || falsy v').
Qed.

Lemma compareTweets_unfold w :
  compareTweets rt w
  = match field rt "compareTweet1" w with
    | Throw e w' => Done (Throw e w')
    | Ok input1 w1 =>
        match field rt "compareTweet2" w1 with
        | Throw e w' => Done (Throw e w')
        | Ok input2 w2 =>
            if falsy (extractTweetId input1) || falsy (extractTweetId input2)
            then Done (showError rt "compareTweetsError"
                         "Please enter both tweet IDs" w2)
            else request_flow rt "compareTweetsLoading" "compareTweetsError"
                   "compareTweetsResults"
                   {| url := "/api/compare-tweets";
                      body := [("tweet_id1", JsString (extractTweetId input1));
                               ("tweet_id2", JsString (extractTweetId input2))] |}
                   (displayTweetComparison rt) w2
        end
    end.
Proof.
  unfold compareTweets, mbind, Async_bind, sync. simpl.
  destruct (field rt "compareTweet1" w) as [v w1|]; [|done]. simpl.
  destruct (field rt "compareTweet2" w1) as [v' w2|]; [|done].
  by destruct (falsy (extractTweetId v) || falsy (extractTweetId v')).
Qed.

Lemma searchAndAnalyze_unfold w :
  searchAndAnalyze rt w
  = match field rt "searchQuery" w with
    | Throw e w' => Done (Throw e w')
    | Ok query w1 =>
        match field rt "searchMax" w1 with
        | Throw e w' => Done (Throw e w')
        | Ok maxResults w2 =>
            if falsy query
            then Done (showError rt "searchError"
                         "Please enter a search query" w2)
            else request_flow rt "searchLoading" "searchError" "searchResults"
                   {| url := "/api/search-analyze";
                      body := [("query", JsString query);
                               ("max_results", JsString maxResults)] |}
                   (displaySearchResults rt) w2
        end
    end.
Proof.
  unfold searchAndAnalyze, mbind, Async_bind, sync. simpl.
  destruct (field rt "searchQuery" w) as [v w1|]; [|done]. simpl.
  destruct (field rt "searchMax" w1) as [v' w2|]; [|done].
  by destruct (falsy v).
Qed.

Lemma testSentiment_unfold w :
  testSentiment rt w
  = match field rt "testText" w with
    | Throw e w' => Done (Throw e w')
    | Ok text w1 =>
        if falsy text then Done (Ok () w1)
        else Await w1 {| url := "/api/test-sentiment";
                         body := [("text", JsString text)] |}
               (on_sentiment rt)
    end.
Proof.
  unfold testSentiment, mbind, Async_bind, sync. simpl.
  destruct (field rt "testText" w) as [v w1|]; [|done].
  by destruct (falsy v).
Qed.

End Flows.
Section Validation.
Context (rt : Runtime).
Implicit Types (w : World).

Lemma abort_with_prompt {P} id msg w :
  (∃ i e, static_element id w = Some (i, e)) →
  ∃ w', Done (P:=P) (showError rt id msg w) = Done (Ok () w')
        ∧ displays id msg w'.
Proof.
  intros (i & e & H).
  destruct (showError_displays rt id msg w i e H) as (w' & -> & ? & _).
  by exists w'.
Qed.

Lemma field_served id w :
  (∃ i e, static_element id w = Some (i, e)) →
  field rt id w = Ok (input_value id w) w.
Proof. intros (i & e & H). by eapply field_input_value. Qed.

End Validation.

(** Unpack [served] of an explicit list into its members. *)
Ltac served_all H :=
  unfold ids_of in H;
  cbn [required optional loading error results app] in H;
  repeat (apply served_cons in H as [? H]); clear H.

(** C2, as the code has it.  For the six flows with an error region: when
    a required input field is empty, no request is issued, the flow ends,
    and the feature's error region displays its validation message.  The
    sentiment test with an empty text also issues no request and ends, and
    it changes nothing on the page. *)
Theorem empty_input_aborts (rt : Runtime) :
  each_request_flow rt (λ P flow f,
    ∀ w id, served (ids_of f) w = true →
            id ∈ required f → input_value id w = "" →
            ∃ w', flow w = Done (Ok () w')
                  ∧ displays (error f) (prompt f) w')
  ∧ ∀ w, served ["testText"] w = true → input_value "testText" w = "" →
         testSentiment rt w = Done (Ok () w).
Proof.
  unfold each_request_flow. split_and!;
    cbn [required optional loading error results prompt].
  - intros w id Hs ->%list_elem_of_singleton Hv. served_all Hs.
    rewrite getUserProfile_unfold, field_served, Hv by done.
    by apply abort_with_prompt.
  - intros w id Hs ->%list_elem_of_singleton Hv. served_all Hs.
    rewrite getUserTweets_unfold, !field_served, Hv by done.
    by apply abort_with_prompt.
  - intros w id Hs ->%list_elem_of_singleton Hv. served_all Hs.
    rewrite analyzeReplies_unfold, field_served, Hv by done.
    by apply abort_with_prompt.
  - intros w id Hs Hin Hv. served_all Hs.
    rewrite compareUsers_unfold, !field_served by done.
    assert (falsy (input_value "compareUser1" w)
            || falsy (input_value "compareUser2" w) = true) as ->.
    { apply orb_true_iff. rewrite !falsy_true.
      apply elem_of_cons in Hin as [->| ->%list_elem_of_singleton]; auto. }
    by apply abort_with_prompt.
  - intros w id Hs Hin Hv. served_all Hs.
    rewrite compareTweets_unfold, !field_served by done.
    assert (falsy (extractTweetId (input_value "compareTweet1" w))
            || falsy (extractTweetId (input_value "compareTweet2" w)) = true)
      as ->.
    { apply orb_true_iff. rewrite !falsy_extractTweetId, !falsy_true.
      apply elem_of_cons in Hin as [->| ->%list_elem_of_singleton]; auto. }
    by apply abort_with_prompt.
  - intros w id Hs ->%list_elem_of_singleton Hv. served_all Hs.
    rewrite searchAndAnalyze_unfold, !field_served, Hv by done.
    by apply abort_with_prompt.
  - intros w Hs Hv. served_all Hs.
    by rewrite testSentiment_unfold, field_served, Hv.
Qed.

Lemma static_element_elem_of id w i e :
  static_element id w = Some (i, e) → e ∈ page w.
Proof. intros H%static_element_lookup. by eapply list_elem_of_lookup_2. Qed.

Lemma sample_page_no_text v :
  Forall (λ e, content (node e) = "") (sample_page v).
Proof. repeat constructor. Qed.

Lemma sample_world_shows_no_text v id msg :
  msg ≠ "" → ¬ displays id msg (sample_world v).
Proof.
  intros Hmsg (i & e & He%static_element_elem_of & Hc & _).
  pose proof (sample_page_no_text v) as Hall.
  rewrite Forall_forall in Hall. specialize (Hall e He). congruence.
Qed.

(** C2 fails as stated: the sentiment test is one of the flows, and with
    an empty text it ends without a request and without any validation
    message: the page is exactly as it was, and shows no text at all. *)
Lemma testSentiment_empty_shows_nothing :
  input_value "testText" (sample_world "") = ""
  ∧ testSentiment sample_runtime (sample_world "")
    = Done (Ok () (sample_world ""))
  ∧ ∀ id msg, msg ≠ "" → ¬ displays id msg (sample_world "").
Proof.
  split_and!; [reflexivity|by vm_compute|].
  apply sample_world_shows_no_text.
Qed.

(** Membership in an explicit list of identifiers, case by case. *)
Ltac each_member Hin :=
  repeat (apply elem_of_cons in Hin as [->|Hin]; [vm_compute; reflexivity|]);
  by apply elem_of_nil in Hin.

Lemma empty_input_aborts_witness :
  each_request_flow sample_runtime (λ P flow f,
    served (ids_of f) (sample_world "") = true
    ∧ (∀ id, id ∈ required f → input_value id (sample_world "") = "")
    ∧ ∃ w', flow (sample_world "") = Done (Ok () w')
            ∧ displays (error f) (prompt f) w')
  ∧ testSentiment sample_runtime (sample_world "")
    = Done (Ok () (sample_world "")).
Proof.
  destruct (empty_input_aborts sample_runtime)
    as ((H1 & H2 & H3 & H4 & H5 & H6) & H7).
  unfold each_request_flow.
  split_and!; cbn [required error prompt];
    lazymatch goal with
    | |- served _ _ = true => vm_compute; reflexivity
    | |- ∀ id, id ∈ _ → _ =>
        let Hin := fresh in intros id Hin; each_member Hin
    | |- _ => idtac
    end.
  - apply (H1 _ "profileUsername");
      [vm_compute; reflexivity|apply list_elem_of_here|reflexivity].
  - apply (H2 _ "tweetsUsername");
      [vm_compute; reflexivity|apply list_elem_of_here|reflexivity].
  - apply (H3 _ "replyTweetId");
      [vm_compute; reflexivity|apply list_elem_of_here|reflexivity].
  - apply (H4 _ "compareUser1");
      [vm_compute; reflexivity|apply list_elem_of_here|reflexivity].
  - apply (H5 _ "compareTweet1");
      [vm_compute; reflexivity|apply list_elem_of_here|reflexivity].
  - apply (H6 _ "searchQuery");
      [vm_compute; reflexivity|apply list_elem_of_here|reflexivity].
  - apply H7; [vm_compute; reflexivity|reflexivity].
Defined.

(** C3, as the code has it.  For the six flows with an error region: when
    the response to the flow's request has the success flag false and the
    error string [X], the flow ends with the error region displaying
    exactly [X] and the result region as it was, whatever the page has
    become in the meantime, as long as it still serves the feature's
    regions.  The sentiment test has no error region: on such a response
    it ends at once and changes nothing. *)
Theorem backend_failure_shown (rt : Runtime) :
  each_request_flow rt (λ P flow f,
    ∀ w X w' fl,
      resume (flow w) (Reply (Failure X)) w' = Some fl →
      served [loading f; error f; results f] w' = true →
      ∃ w'', fl = Done (Ok () w'') ∧ displays (error f) X w''
             ∧ untouched (results f) w' w'')
  ∧ ∀ w X w' fl,
      resume (testSentiment rt w) (Reply (Failure X)) w' = Some fl →
      fl = Done (Ok () w').
Proof.
  unfold each_request_flow. split_and!;
    cbn [required optional loading error results prompt];
    intros w X w' fl.
  - rewrite getUserProfile_unfold.
    destruct (field _ _ _) as [v w1|]; [|done]. destruct (falsy v); [done|].
    intros H Hs. by eapply request_flow_failure.
  - rewrite getUserTweets_unfold.
    destruct (field _ _ _) as [v w1|]; [|done].
    destruct (field _ _ _) as [v' w2|]; [|done]. destruct (falsy v); [done|].
    intros H Hs. by eapply request_flow_failure.
  - rewrite analyzeReplies_unfold.
    destruct (field _ _ _) as [v w1|]; [|done]. destruct (falsy _); [done|].
    intros H Hs. by eapply request_flow_failure.
  - rewrite compareUsers_unfold.
    destruct (field _ _ _) as [v w1|]; [|done].
    destruct (field _ _ _) as [v' w2|]; [|done]. destruct (_ || _); [done|].
    intros H Hs. by eapply request_flow_failure.
  - rewrite compareTweets_unfold.
    destruct (field _ _ _) as [v w1|]; [|done].
    destruct (field _ _ _) as [v' w2|]; [|done]. destruct (_ || _); [done|].
    intros H Hs. by eapply request_flow_failure.
  - rewrite searchAndAnalyze_unfold.
    destruct (field _ _ _) as [v w1|]; [|done].
    destruct (field _ _ _) as [v' w2|]; [|done]. destruct (falsy v); [done|].
    intros H Hs. by eapply request_flow_failure.
  - rewrite testSentiment_unfold.
    destruct (field _ _ _) as [v w1|]; [|done]. destruct (falsy v); [done|].
    by intros [= <-].
Qed.

(** C3 fails as stated: on a response with success false and error [X]
    the sentiment test shows [X] nowhere; it leaves the page as it was. *)
Lemma testSentiment_failure_shows_nothing :
  resume (testSentiment sample_runtime (sample_world "great"))
         (Reply (Failure "X")) (sample_world "great")
  = Some (Done (Ok () (sample_world "great")))
  ∧ ∀ id, ¬ displays id "X" (sample_world "great").
Proof.
  split; [vm_compute; reflexivity|]. intros id.
  by apply sample_world_shows_no_text.
Qed.

Lemma backend_failure_shown_witness :
  each_request_flow sample_runtime (λ P flow f,
    served [loading f; error f; results f] (sample_world "7") = true
    ∧ ∃ fl w'',
        resume (flow (sample_world "7")) (Reply (Failure "X"))
               (sample_world "7") = Some fl
        ∧ fl = Done (Ok () w'') ∧ displays (error f) "X" w''
        ∧ untouched (results f) (sample_world "7") w'').
Proof.
  destruct (backend_failure_shown sample_runtime)
    as ((H1 & H2 & H3 & H4 & H5 & H6) & _).
  unfold each_request_flow.
  split_and!; cbn [loading error results];
    lazymatch goal with
    | |- served _ _ = true => vm_compute; reflexivity
    | |- _ => idtac
    end.
  - destruct (H1 (sample_world "7") "X" (sample_world "7") _ eq_refl)
      as (w'' & ? & ? & ?); [vm_compute; reflexivity|]. by eexists _, w''.
  - destruct (H2 (sample_world "7") "X" (sample_world "7") _ eq_refl)
      as (w'' & ? & ? & ?); [vm_compute; reflexivity|]. by eexists _, w''.
  - destruct (H3 (sample_world "7") "X" (sample_world "7") _ eq_refl)
      as (w'' & ? & ? & ?); [vm_compute; reflexivity|]. by eexists _, w''.
  - destruct (H4 (sample_world "7") "X" (sample_world "7") _ eq_refl)
      as (w'' & ? & ? & ?); [vm_compute; reflexivity|]. by eexists _, w''.
  - destruct (H5 (sample_world "7") "X" (sample_world "7") _ eq_refl)
      as (w'' & ? & ? & ?); [vm_compute; reflexivity|]. by eexists _, w''.
  - destruct (H6 (sample_world "7") "X" (sample_world "7") _ eq_refl)
      as (w'' & ? & ? & ?); [vm_compute; reflexivity|]. by eexists _, w''.
Defined.

(** C8.  Whenever the user comparison issues a request, whatever the page
    holds, the request goes to the comparison endpoint with a body of
    exactly the two usernames and [max_tweets], and [max_tweets] is the
    number 50. *)
Theorem compareUsers_depth_50 (rt : Runtime) (w : World) (req : Request) :
  request_of (compareUsers rt w) = Some req →
  url req = "/api/compare-users"
  ∧ (∃ user1 user2,
       body req = [("username1", JsString user1); ("username2", JsString user2);
                   ("max_tweets", JsNumber (Num.of_Z 50))])
  ∧ Num.of_Z 50 = S754_finite false (50 * 2 ^ 47) (-47).
Proof.
  rewrite compareUsers_unfold.
  destruct (field _ _ _) as [v w1|]; [|done].
  destruct (field _ _ _) as [v' w2|]; [|done]. destruct (_ || _); [done|].
  intros ->%request_flow_request. split_and!; [done|by eauto|reflexivity].
Qed.

Lemma compareUsers_depth_50_witness :
  ∃ req,
    request_of (compareUsers sample_runtime (sample_world "alice")) = Some req
    ∧ body req = [("username1", JsString "alice");
                  ("username2", JsString "alice");
                  ("max_tweets", JsNumber (Num.of_Z 50))].
Proof.
  eexists. split; [reflexivity|].
  destruct (compareUsers_depth_50 sample_runtime (sample_world "alice") _ eq_refl)
    as (_ & (u1 & u2 & H) & _).
  reflexivity.
Defined.

Section Blank.
Import Str.

Lemma all_space_app a b : all_space (a +:+ b) = all_space a && all_space b.
Proof.
  induction a as [|x a IH]; [done|].
  change (String x a +:+ b) with (String x (a +:+ b)). simpl.
  by rewrite IH, andb_assoc.
Qed.

(** White space holds no [status/]: blank input is its own identifier. *)
Lemma extractTweetId_blank s : all_space s = true → extractTweetId s = s.
Proof.
  intros Hs. unfold extractTweetId.
  destruct (Regex.match_status s) as [g|] eqn:E; [|done].
  apply match_status_Some in E as (pre & r & -> & _).
  rewrite all_space_app in Hs. apply andb_prop in Hs as [_ Hs].
  by rewrite all_space_app in Hs.
Qed.

Lemma falsy_false s : s ≠ "" → falsy s = false.
Proof. intros H. unfold falsy. by rewrite bool_decide_eq_false. Qed.

Lemma blank_not_falsy s : blank s = true → falsy s = false.
Proof. unfold blank. by destruct (falsy s). Qed.

Lemma blank_extractTweetId s : blank s = true → extractTweetId s = s.
Proof.
  unfold blank. intros [_ ?]%andb_prop. by apply extractTweetId_blank.
Qed.

End Blank.

(** Membership in an explicit list of identifiers whose fields are filled. *)
Ltac each_nonempty Hin :=
  repeat (apply elem_of_cons in Hin as [->|Hin]; [by vm_compute|]);
  by apply elem_of_nil in Hin.

(** C10.  Validation tests for the empty string only.  In each of the six
    flows with an error region, when no required field is empty, the flow
    issues its request and the error region is not shown; a required field
    that holds a non-empty string of white space counts as filled in, and
    the request carries its value as it is.  The sentiment test likewise
    sends its blank text. *)
Theorem blank_input_passes (rt : Runtime) :
  each_request_flow rt (λ P flow f,
    ∀ w, served (ids_of f) w = true →
         (∀ id, id ∈ required f → input_value id w ≠ "") →
         ∃ w1 req k,
           flow w = Await w1 req k
           ∧ (∀ id, id ∈ required f → blank (input_value id w) = true →
                    carries req (input_value id w))
           ∧ ∀ msg, ¬ displays (error f) msg w1)
  ∧ ∀ w, served ["testText"] w = true →
         blank (input_value "testText" w) = true →
         ∃ k, testSentiment rt w
              = Await w {| url := "/api/test-sentiment";
                           body := [("text",
                                     JsString (input_value "testText" w))] |} k.
Proof.
  unfold each_request_flow. split_and!;
    cbn [required optional loading error results prompt]; intros w Hs Hb.
  - pose proof (Hb _ (list_elem_of_here _ _)) as Hv.
    rewrite getUserProfile_unfold.
    pose proof Hs as Hs'. served_all Hs'.
    rewrite field_served, (falsy_false _ Hv) by done.
    edestruct (request_flow_awaits rt (P:=UserInfo.t)) as (w3 & -> & Hno & _);
      [by apply served_cons_3_intro|].
    eexists _, _, _. split_and!; [done| |done].
    intros id ->%list_elem_of_singleton _. apply list_elem_of_here.
  - pose proof (Hb _ (list_elem_of_here _ _)) as Hv.
    rewrite getUserTweets_unfold.
    pose proof Hs as Hs'. served_all Hs'.
    rewrite !field_served, (falsy_false _ Hv) by done.
    edestruct (request_flow_awaits rt (P:=UserTweets.t)) as (w3 & -> & Hno & _);
      [by apply served_cons_3_intro|].
    eexists _, _, _. split_and!; [done| |done].
    intros id ->%list_elem_of_singleton _. apply list_elem_of_here.
  - pose proof (Hb _ (list_elem_of_here _ _)) as Hv.
    rewrite analyzeReplies_unfold.
    pose proof Hs as Hs'. served_all Hs'.
    rewrite field_served, falsy_extractTweetId, (falsy_false _ Hv) by done.
    edestruct (request_flow_awaits rt (P:=TweetReplies.t)) as (w3 & -> & Hno & _);
      [by apply served_cons_3_intro|].
    eexists _, _, _. split_and!; [done| |done].
    intros id ->%list_elem_of_singleton Hblank. unfold carries. cbn [body fmap list_fmap snd].
    rewrite (blank_extractTweetId _ Hblank). apply list_elem_of_here.
  - pose proof (Hb _ (list_elem_of_here _ _)) as Hv1.
    pose proof (Hb _ (list_elem_of_further _ _ _ (list_elem_of_here _ _))) as Hv2.
    rewrite compareUsers_unfold.
    pose proof Hs as Hs'. served_all Hs'.
    rewrite !field_served, (falsy_false _ Hv1), (falsy_false _ Hv2) by done.
    edestruct (request_flow_awaits rt (P:=CompareUsers.t)) as (w3 & -> & Hno & _);
      [by apply served_cons_3_intro|].
    eexists _, _, _. split_and!; [done| |done].
    intros id [->| ->%list_elem_of_singleton]%elem_of_cons _;
      [apply list_elem_of_here|apply list_elem_of_further, list_elem_of_here].
  - pose proof (Hb _ (list_elem_of_here _ _)) as Hv1.
    pose proof (Hb _ (list_elem_of_further _ _ _ (list_elem_of_here _ _))) as Hv2.
    rewrite compareTweets_unfold.
    pose proof Hs as Hs'. served_all Hs'.
    rewrite !field_served, !falsy_extractTweetId, (falsy_false _ Hv1),
      (falsy_false _ Hv2) by done.
    edestruct (request_flow_awaits rt (P:=CompareTweets.t)) as (w3 & -> & Hno & _);
      [by apply served_cons_3_intro|].
    eexists _, _, _. split_and!; [done| |done].
    unfold carries. cbn [body fmap list_fmap snd].
    intros id [->| ->%list_elem_of_singleton]%elem_of_cons Hblank;
      rewrite (blank_extractTweetId _ Hblank);
      [apply list_elem_of_here|apply list_elem_of_further, list_elem_of_here].
  - pose proof (Hb _ (list_elem_of_here _ _)) as Hv.
    rewrite searchAndAnalyze_unfold.
    pose proof Hs as Hs'. served_all Hs'.
    rewrite !field_served, (falsy_false _ Hv) by done.
    edestruct (request_flow_awaits rt (P:=Search.t)) as (w3 & -> & Hno & _);
      [by apply served_cons_3_intro|].
    eexists _, _, _. split_and!; [done| |done].
    intros id ->%list_elem_of_singleton _. apply list_elem_of_here.
  - rewrite testSentiment_unfold. served_all Hs.
    rewrite field_served, (blank_not_falsy _ Hb) by done. by eexists.
Qed.

(** Two spaces in every input field of the sample page. *)
Lemma blank_input_passes_witness :
  each_request_flow sample_runtime (λ P flow f,
    served (ids_of f) (sample_world "  ") = true
    ∧ (∀ id, id ∈ required f → input_value id (sample_world "  ") ≠ "")
    ∧ ∃ w1 req k,
        flow (sample_world "  ") = Await w1 req k
        ∧ (∀ id, id ∈ required f →
                 blank (input_value id (sample_world "  ")) = true →
                 carries req (input_value id (sample_world "  ")))
        ∧ ∀ msg, ¬ displays (error f) msg w1).
Proof.
  destruct (blank_input_passes sample_runtime)
    as ((H1 & H2 & H3 & H4 & H5 & H6) & _).
  unfold each_request_flow.
  split_and!; cbn [required error];
    lazymatch goal with
    | |- served _ _ = true => vm_compute; reflexivity
    | |- ∀ id, id ∈ _ → _ =>
        let Hin := fresh in intros id Hin; each_nonempty Hin
    | |- _ => idtac
    end.
  - apply H1; [vm_compute; reflexivity|]. intros id Hin. each_nonempty Hin.
  - apply H2; [vm_compute; reflexivity|]. intros id Hin. each_nonempty Hin.
  - apply H3; [vm_compute; reflexivity|]. intros id Hin. each_nonempty Hin.
  - apply H4; [vm_compute; reflexivity|]. intros id Hin. each_nonempty Hin.
  - apply H5; [vm_compute; reflexivity|]. intros id Hin. each_nonempty Hin.
  - apply H6; [vm_compute; reflexivity|]. intros id Hin. each_nonempty Hin.
Defined.

Section Rendering.
#[local] Arguments String.append !_ _ / : simpl nomatch.

Lemma append_assoc (a b c : string) : (a +:+ b) +:+ c = a +:+ (b +:+ c).
Proof. induction a as [|x a IH]; simpl; [done | by f_equal]. Qed.

Lemma contains_later a x s : contains x s → contains x (a +:+ s).
Proof.
  intros (pre & post & ->). exists (a +:+ pre), post.
  by rewrite append_assoc.
Qed.

(** A string that starts as [b] does is [b] followed by something. *)
Lemma contains_split a b s post :
  b +:+ post = s → contains (a +:+ b) (a +:+ s).
Proof. intros <-. exists "", post. by rewrite append_assoc. Qed.

End Rendering.

(** Evaluate the markup literals of the goal. *)
Ltac eval_markup :=
  repeat match goal with
         | |- context [markup ?s] =>
             let v := eval vm_compute in (markup s) in
             change (markup s) with v
         end.



Section Registry.
Context (rt : Runtime).
Implicit Types (w : World) (id : string).

Lemma registry_ok_initial p : registry_ok (initial p).
Proof. by intros h c H. Qed.

(** Only the charts and the registry matter to the invariant. *)
Lemma registry_ok_same w w' :
  charts w' = charts w → chartInstances w' = chartInstances w →
  registry_ok w → registry_ok w'.
Proof. unfold registry_ok. by intros -> ->. Qed.

Lemma destroy_ok h w : registry_ok w → registry_ok (world_of (destroy h w)).
Proof.
  intros Hok h' c. simpl. rewrite list_lookup_alter.
  case_decide as Hh; [|by apply Hok]. subst.
  destruct (charts w !! h') as [c0|]; [|done]. simpl.
  by intros [= <-].
Qed.

(** The chart that was registered for [id], if any, is dead after
    [destroy]: no live chart is left on the canvas. *)
Lemma destroy_none_live id h w :
  registry_ok w → chartInstances w !! id = Some h →
  ∀ h' c, charts (world_of (destroy h w)) !! h' = Some c →
          canvas c = id → live c = false.
Proof.
  intros Hok Hreg h' c. simpl. rewrite list_lookup_alter.
  case_decide as Hh.
  - subst. destruct (charts w !! h') as [c0|]; [|done]. simpl.
    by intros [= <-].
  - intros Hc Hid. destruct (live c) eqn:Hl; [|done].
    specialize (Hok h' c Hc Hl). rewrite Hid in Hok. congruence.
Qed.

Lemma register_new_Chart_ok id ty d w :
  registry_ok w →
  (∀ h c, charts w !! h = Some c → canvas c = id → live c = false) →
  registry_ok (world_of (register_new_Chart id ty d w)).
Proof.
  intros Hok Hdead h c. simpl. intros Hc Hl.
  destruct (decide (h < length (charts w))) as [Hlt|Hge].
  - rewrite lookup_app_l in Hc by done.
    destruct (decide (canvas c = id)) as [Hid|Hne].
    + rewrite (Hdead h c Hc Hid) in Hl. done.
    + rewrite lookup_insert_ne by done. by apply Hok.
  - rewrite lookup_app_r in Hc by lia.
    destruct (h - length (charts w)) as [|n] eqn:Hn; [|done].
    injection Hc as <-. simpl.
    rewrite lookup_insert_eq. f_equal. lia.
Qed.

(** [createChart] keeps the invariant, whether it returns or throws. *)
Lemma createChart_ok id ty d : keeps registry_ok (createChart rt id ty d).
Proof.
  intros w Hok. unfold createChart, mbind, M_bind, gets. simpl.
  assert (∃ w1, registry_ok w1
                ∧ (∀ h c, charts w1 !! h = Some c → canvas c = id →
                          live c = false)
                ∧ ((match chartInstances w !! id with
                    | Some h => destroy h
                    | None =>
                        if bool_decide (id ∈ Object_prototype)
                        then throw (Error (type_error_message rt "destroy"))
                        else mret ()
                    end) w = Ok () w1
                   ∨ ∃ e, (match chartInstances w !! id with
                           | Some h => destroy h
                           | None =>
                               if bool_decide (id ∈ Object_prototype)
                               then throw (Error (type_error_message rt "destroy"))
                               else mret ()
                           end) w = Throw e w1))
    as (w1 & Hok1 & Hdead & [-> | [e ->]]); [|..|done].
  { destruct (chartInstances w !! id) as [h|] eqn:Hreg.
    - exists (world_of (destroy h w)). split_and!.
      + by apply destroy_ok.
      + by eapply destroy_none_live.
      + by left.
    - exists w. split_and!; [done| |].
      + intros h c Hc Hid. destruct (live c) eqn:Hl; [|done].
        specialize (Hok h c Hc Hl). rewrite Hid in Hok. congruence.
      + case_bool_decide; [right; by eexists|by left]. }
  destruct (element rt id "getContext" w1) as [c w2|e w2] eqn:Hel.
  - assert (w2 = w1) as ->.
    { revert Hel. unfold element, getElementById, gets, mbind, M_bind. simpl.
      destruct (Dom.find_id id (page w1)); simpl; [by intros [= _ <-]|done]. }
    simpl. case_bool_decide; simpl; [|done].
    by apply register_new_Chart_ok.
  - assert (w2 = w1) as ->; [|done].
    revert Hel. unfold element, getElementById, gets, mbind, M_bind. simpl.
    destruct (Dom.find_id id (page w1)); simpl; [done|by intros [= _ <-]].
Qed.

(** Indices tell chart objects apart: when any two live charts on a
    canvas sit at the same index, at most one is counted. *)
Lemma at_most_one (P : Chart → Prop) `{!∀ c, Decision (P c)} (l : list Chart) :
  (∀ i j a b, l !! i = Some a → l !! j = Some b → P a → P b → i = j) →
  length (filter P l) ≤ 1.
Proof.
  induction l as [|x l IH]; intros Huniq; [simpl; lia|].
  rewrite filter_cons. case_decide as Hx.
  - simpl. destruct (filter P l) as [|y ys] eqn:Hf; [simpl; lia|].
    assert (y ∈ filter P l) as [Py Hy]%list_elem_of_filter
      by (rewrite Hf; apply list_elem_of_here).
    apply list_elem_of_lookup_1 in Hy as [j Hj].
    by specialize (Huniq 0 (S j) x y eq_refl Hj Hx Py).
  - apply IH. intros i j a b Hi Hj Pa Pb.
    by specialize (Huniq (S i) (S j) a b Hi Hj Pa Pb) as [= ->].
Qed.

Lemma registry_ok_one_live id w : registry_ok w → live_on id w ≤ 1.
Proof.
  intros Hok. apply at_most_one.
  intros i j a b Hi Hj [Ha La] [Hb Lb].
  pose proof (Hok i a Hi La) as Hri. pose proof (Hok j b Hj Lb) as Hrj.
  rewrite Ha in Hri. rewrite Hb in Hrj. congruence.
Qed.

(** What a call does to the chart already registered for the canvas. *)
Lemma createChart_replaces id ty d w h c :
  chartInstances w !! id = Some h → charts w !! h = Some c →
  charts (world_of (createChart rt id ty d w)) !! h
  = Some {| canvas := canvas c; kind := kind c; data := data c;
            live := false |}
  ∧ (∀ w', createChart rt id ty d w = Ok () w' →
           charts w' = charts (world_of (destroy h w))
                       ++ [ {| canvas := id; kind := ty; data := d;
                               live := true |} ]
           ∧ chartInstances w' !! id = Some (length (charts w))).
Proof.
  intros Hreg Hc. unfold createChart, mbind, M_bind, gets. simpl.
  rewrite Hreg. simpl.
  destruct (element rt id "getContext" _) as [r w2|e w2] eqn:Hel.
  - assert (w2 = world_of (destroy h w)) as ->.
    { revert Hel. unfold element, getElementById, gets, mbind, M_bind. simpl.
      destruct (Dom.find_id id (page w)); simpl; [by intros [= _ <-]|done]. }
    simpl. case_bool_decide; simpl.
    + split.
      * rewrite lookup_app_l.
        -- by rewrite list_lookup_alter_eq, Hc.
        -- rewrite length_alter. by eapply lookup_lt_Some.
      * intros w' [= <-]. simpl. split; [done|].
        by rewrite lookup_insert_eq, length_alter.
    + split; [|done]. by rewrite list_lookup_alter_eq, Hc.
  - assert (w2 = world_of (destroy h w)) as ->.
    { revert Hel. unfold element, getElementById, gets, mbind, M_bind. simpl.
      destruct (Dom.find_id id (page w)); simpl; [done|by intros [= _ <-]]. }
    simpl. split; [|done]. by rewrite list_lookup_alter_eq, Hc.
Qed.

End Registry.

(** ** Invariants along the code *)

Section Keeps.
Context (I : World → Prop).

Lemma keeps_ret {A} (a : A) : keeps I (mret a).
Proof. by intros w. Qed.

Lemma keeps_throw {A} e : keeps I (throw (A:=A) e).
Proof. by intros w. Qed.

Lemma keeps_gets {A} (f : World → A) : keeps I (gets f).
Proof. by intros w. Qed.

Lemma keeps_modify f : (∀ w, I w → I (f w)) → keeps I (modify f).
Proof. intros Hf w. apply Hf. Qed.

Lemma keeps_bind {A B} (m : M A) (k : A → M B) :
  keeps I m → (∀ a, keeps I (k a)) → keeps I (m ≫= k).
Proof.
  intros Hm Hk w Hw. unfold mbind, M_bind. specialize (Hm w Hw).
  destruct (m w) as [a w'|e w']; simpl in *; [by apply Hk|done].
Qed.

Lemma keeps_deref rt {A} prop (r : option A) : keeps I (deref rt prop r).
Proof. destruct r; [apply keeps_ret|apply keeps_throw]. Qed.

Lemma flow_keeps_bind {P A B} (f : Flow P A) (g : A → Async P B) :
  flow_keeps I f → (∀ a, async_keeps I (g a)) → flow_keeps I (flow_bind g f).
Proof.
  intros Hf Hg. revert Hf.
  induction f as [[a w|e w]|w req k IH]; simpl; intros Hf.
  - by apply Hg.
  - done.
  - destruct Hf as [Hw Hk]. split; [done|]. intros o w' Hw'.
    apply IH. by apply Hk.
Qed.

Lemma flow_keeps_catch {P A} (f : Flow P A) (h : Exn → Async P A) :
  flow_keeps I f → (∀ e, async_keeps I (h e)) → flow_keeps I (flow_catch h f).
Proof.
  intros Hf Hh. revert Hf.
  induction f as [[a w|e w]|w req k IH]; simpl; intros Hf.
  - done.
  - by apply Hh.
  - destruct Hf as [Hw Hk]. split; [done|]. intros o w' Hw'.
    apply IH. by apply Hk.
Qed.

Lemma async_keeps_ret {P A} (a : A) : async_keeps I (mret (M:=Async P) a).
Proof. by intros w. Qed.

Lemma async_keeps_bind {P A B} (m : Async P A) (k : A → Async P B) :
  async_keeps I m → (∀ a, async_keeps I (k a)) → async_keeps I (m ≫= k).
Proof.
  intros Hm Hk w Hw. unfold mbind, Async_bind.
  apply flow_keeps_bind; [by apply Hm|done].
Qed.

Lemma async_keeps_sync {P A} (m : M A) :
  keeps I m → async_keeps I (sync (P:=P) m).
Proof. intros Hm w Hw. by apply Hm. Qed.

Lemma async_keeps_fetch {P} req : async_keeps I (fetch (P:=P) req).
Proof. intros w Hw. split; [done|]. by intros [d|e] w' Hw'. Qed.

Lemma async_keeps_try {P A} (body : Async P A) (h : Exn → Async P A) :
  async_keeps I body → (∀ e, async_keeps I (h e)) →
  async_keeps I (async_try body h).
Proof.
  intros Hb Hh w Hw. unfold async_try.
  apply flow_keeps_catch; [by apply Hb|done].
Qed.

End Keeps.

(** Break a computation into its calls, by the shape of the code. *)
Ltac keeps_step :=
  lazymatch goal with
  | |- keeps _ (mret _) => apply keeps_ret
  | |- keeps _ (throw _) => apply keeps_throw
  | |- keeps _ (gets _) => apply keeps_gets
  | |- keeps _ (deref _ _ _) => apply keeps_deref
  | |- keeps _ (mbind _ _) => apply keeps_bind; [|intros ?]
  | |- keeps _ (match ?x with _ => _ end) => destruct x
  | |- async_keeps _ (mret _) => apply async_keeps_ret
  | |- async_keeps _ (fetch _) => apply async_keeps_fetch
  | |- async_keeps _ (sync _) => apply async_keeps_sync
  | |- async_keeps _ (mbind _ _) => apply async_keeps_bind; [|intros ?]
  | |- async_keeps _ (async_try _ _) => apply async_keeps_try; [|intros ?]
  | |- async_keeps _ (match ?x with _ => _ end) => destruct x
  end.

Section RegistryKept.
Context (rt : Runtime).

Lemma set_page_ok f : keeps registry_ok (modify (set_page f)).
Proof. apply keeps_modify. intros w. by apply registry_ok_same. Qed.

Lemma console_error_ok e : keeps registry_ok (console_error e).
Proof. apply keeps_modify. intros w. by apply registry_ok_same. Qed.

Lemma element_ok id prop : keeps registry_ok (element rt id prop).
Proof. unfold element, getElementById. repeat keeps_step. Qed.

Lemma assignee_ok id prop : keeps registry_ok (assignee rt id prop).
Proof. unfold assignee, getElementById. repeat keeps_step. Qed.

Lemma showError_ok id msg : keeps registry_ok (showError rt id msg).
Proof.
  unfold showError. keeps_step; [apply assignee_ok|].
  keeps_step; [apply set_page_ok|apply set_page_ok].
Qed.

Lemma field_ok id : keeps registry_ok (field rt id).
Proof. unfold field. keeps_step; [apply element_ok|apply keeps_gets]. Qed.

Lemma render_ok id html : keeps registry_ok (render rt id html).
Proof. unfold render. keeps_step; [apply assignee_ok|apply set_page_ok]. Qed.

Lemma switchTab_ok tab : keeps registry_ok (switchTab rt tab).
Proof.
  unfold switchTab.
  repeat lazymatch goal with
    | |- keeps _ (modify (set_page _)) => apply set_page_ok
    | |- keeps _ (classList_add _ _) => apply set_page_ok
    | |- keeps _ (element _ _ _) => apply element_ok
    | |- _ => keeps_step
    end.
Qed.

End RegistryKept.

(** Close a goal about the registry through the calls of the script. *)
Ltac registry_kept :=
  repeat lazymatch goal with
    | |- keeps _ (createChart _ _ _ _) => apply createChart_ok
    | |- keeps _ (modify (set_page _)) => apply set_page_ok
    | |- keeps _ (classList_add _ _) => apply set_page_ok
    | |- keeps _ (classList_remove _ _) => apply set_page_ok
    | |- keeps _ (set_value _ _) => apply set_page_ok
    | |- keeps _ (set_innerHTML _ _) => apply set_page_ok
    | |- keeps _ (set_textContent _ _) => apply set_page_ok
    | |- keeps _ (console_error _) => apply console_error_ok
    | |- keeps _ (element _ _ _) => apply element_ok
    | |- keeps _ (assignee _ _ _) => apply assignee_ok
    | |- keeps _ (showError _ _ _) => apply showError_ok
    | |- keeps _ (field _ _) => apply field_ok
    | |- keeps _ (render _ _ _) => apply render_ok
    | |- keeps _ (switchTab _ _) => apply switchTab_ok
    | |- _ => keeps_step
    end.

Section EntryPoints.
Context (rt : Runtime).

Lemma displayUserProfile_ok user : keeps registry_ok (displayUserProfile rt user).
Proof. unfold displayUserProfile, showResults. registry_kept. Qed.

Lemma displayUserTweets_ok data u :
  keeps registry_ok (displayUserTweets rt data u).
Proof. unfold displayUserTweets, showResults. registry_kept. Qed.

Lemma displayReplyAnalysis_ok data :
  keeps registry_ok (displayReplyAnalysis rt data).
Proof.
  unfold displayReplyAnalysis, reply_html, showResults. registry_kept.
Qed.

Lemma displayUserComparison_ok data :
  keeps registry_ok (displayUserComparison rt data).
Proof. unfold displayUserComparison, showResults. registry_kept. Qed.

Lemma displayTweetComparison_ok data :
  keeps registry_ok (displayTweetComparison rt data).
Proof. unfold displayTweetComparison, showResults. registry_kept. Qed.

Lemma displaySearchResults_ok data :
  keeps registry_ok (displaySearchResults rt data).
Proof. unfold displaySearchResults, showResults. registry_kept. Qed.

Lemma getUserProfile_ok : async_keeps registry_ok (getUserProfile rt).
Proof.
  unfold getUserProfile, showLoading, hideLoading, hideError, hideResults.
  registry_kept; apply displayUserProfile_ok.
Qed.

Lemma getUserTweets_ok : async_keeps registry_ok (getUserTweets rt).
Proof.
  unfold getUserTweets, showLoading, hideLoading, hideError, hideResults.
  registry_kept; apply displayUserTweets_ok.
Qed.

Lemma analyzeReplies_ok : async_keeps registry_ok (analyzeReplies rt).
Proof.
  unfold analyzeReplies, showLoading, hideLoading, hideError, hideResults.
  registry_kept; apply displayReplyAnalysis_ok.
Qed.

Lemma analyzeSpecificTweet_ok t :
  async_keeps registry_ok (analyzeSpecificTweet rt t).
Proof.
  unfold analyzeSpecificTweet. registry_kept; apply analyzeReplies_ok.
Qed.

Lemma compareUsers_ok : async_keeps registry_ok (compareUsers rt).
Proof.
  unfold compareUsers, showLoading, hideLoading, hideError, hideResults.
  registry_kept; apply displayUserComparison_ok.
Qed.

Lemma compareTweets_ok : async_keeps registry_ok (compareTweets rt).
Proof.
  unfold compareTweets, showLoading, hideLoading, hideError, hideResults.
  registry_kept; apply displayTweetComparison_ok.
Qed.

Lemma searchAndAnalyze_ok : async_keeps registry_ok (searchAndAnalyze rt).
Proof.
  unfold searchAndAnalyze, showLoading, hideLoading, hideError, hideResults.
  registry_kept; apply displaySearchResults_ok.
Qed.

Lemma testSentiment_ok : async_keeps registry_ok (testSentiment rt).
Proof. unfold testSentiment, showResults. registry_kept. Qed.

End EntryPoints.

(** C4.  Every live chart object is the one the registry holds for its
    canvas, so a canvas identifier never has two live chart objects.
    This holds before the script has run and is kept by [createChart],
    whether it returns or throws, and by every entry point of the
    script, where it suspends and where it ends.  A call of [createChart]
    for an identifier that holds a chart destroys that chart; when the
    call returns, the new chart stands behind the old, dead one and is the
    registered one.  In particular two calls in a row leave at most one
    live chart for the identifier. *)
Theorem one_live_chart_per_canvas (rt : Runtime) :
  (∀ p, registry_ok (initial p))
  ∧ (∀ w id, registry_ok w → live_on id w ≤ 1)
  ∧ (∀ id type chartData, keeps registry_ok (createChart rt id type chartData))
  ∧ (∀ w id type chartData h c,
       chartInstances w !! id = Some h → charts w !! h = Some c →
       charts (world_of (createChart rt id type chartData w)) !! h
       = Some {| canvas := canvas c; kind := kind c; data := data c;
                 live := false |}
       ∧ ∀ w', createChart rt id type chartData w = Ok () w' →
               charts w' = charts (world_of (destroy h w))
                           ++ [ {| canvas := id; kind := type;
                                   data := chartData; live := true |} ]
               ∧ chartInstances w' !! id = Some (length (charts w)))
  ∧ (∀ w id type1 data1 type2 data2,
       registry_ok w →
       live_on id (world_of (createChart rt id type2 data2
                               (world_of (createChart rt id type1 data1 w))))
       ≤ 1)
  ∧ (async_keeps registry_ok (getUserProfile rt)
     ∧ async_keeps registry_ok (getUserTweets rt)
     ∧ async_keeps registry_ok (analyzeReplies rt)
     ∧ (∀ tweetId, async_keeps registry_ok (analyzeSpecificTweet rt tweetId))
     ∧ async_keeps registry_ok (compareUsers rt)
     ∧ async_keeps registry_ok (compareTweets rt)
     ∧ async_keeps registry_ok (searchAndAnalyze rt)
     ∧ async_keeps registry_ok (testSentiment rt)
     ∧ ∀ tabName, keeps registry_ok (switchTab rt tabName)).
Proof.
  split_and!.
  - apply registry_ok_initial.
  - intros w id. apply registry_ok_one_live.
  - apply createChart_ok.
  - intros w id type chartData h c. apply createChart_replaces.
  - intros w id type1 data1 type2 data2 Hok.
    by apply registry_ok_one_live, createChart_ok, createChart_ok.
  - apply getUserProfile_ok.
  - apply getUserTweets_ok.
  - apply analyzeReplies_ok.
  - apply analyzeSpecificTweet_ok.
  - apply compareUsers_ok.
  - apply compareTweets_ok.
  - apply searchAndAnalyze_ok.
  - apply testSentiment_ok.
  - apply switchTab_ok.
Qed.

Lemma after_user_tweets_ok : registry_ok after_user_tweets.
Proof. apply displayUserTweets_ok, registry_ok_initial. Qed.

(** On the sample page with the tweets of a user displayed, a second chart
    for [tweetsChart] takes the place of the first. *)
Lemma one_live_chart_per_canvas_witness :
  registry_ok after_user_tweets
  ∧ live <$> charts after_user_tweets = [true]
  ∧ live <$> charts (world_of (createChart sample_runtime "tweetsChart" "bar"
                                 sample_chart after_user_tweets))
    = [false; true]
  ∧ live_on "tweetsChart"
      (world_of (createChart sample_runtime "tweetsChart" "bar" sample_chart
                   after_user_tweets)) ≤ 1.
Proof.
  destruct (one_live_chart_per_canvas sample_runtime) as (_ & Hone & Hkeep & _).
  split_and!.
  - exact after_user_tweets_ok.
  - vm_compute. reflexivity.
  - vm_compute. reflexivity.
  - apply Hone, Hkeep. exact after_user_tweets_ok.
Defined.

Section NoReplies.
Context (rt : Runtime).
Implicit Types (w : World).

Lemma bind_ok {A B} (m : M A) (k : A → M B) w a w' :
  m w = Ok a w' → (m ≫= k) w = k a w'.
Proof. intros H. unfold mbind, M_bind. by rewrite H. Qed.

Lemma render_run id html w i e :
  static_element id w = Some (i, e) →
  render rt id html w = Ok () (markup_at html i w).
Proof.
  intros H. unfold render, mbind, M_bind.
  by rewrite (assignee_static _ _ _ _ _ _ H).
Qed.

Lemma element_world id prop w r w' :
  element rt id prop w = Ok r w' →
  w' = w ∧ Dom.find_id id (page w) = Some r.
Proof.
  unfold element, getElementById, gets, mbind, M_bind. simpl.
  destruct (Dom.find_id id (page w)); simpl; [by intros [= <- <-]|done].
Qed.

Lemma element_throws id prop w e w' :
  element rt id prop w = Throw e w' → w' = w.
Proof.
  unfold element, getElementById, gets, mbind, M_bind. simpl.
  destruct (Dom.find_id id (page w)); simpl; [done|by intros [= _ <-]].
Qed.

(** [createChart] never touches the page. *)
Lemma createChart_page id ty d w :
  page (world_of (createChart rt id ty d w)) = page w.
Proof.
  unfold createChart, mbind, M_bind, gets. simpl.
  destruct (chartInstances w !! id) as [h|]; simpl.
  - destruct (element rt id "getContext" _) as [r w2|e w2] eqn:Hel.
    + apply element_world in Hel as [-> _]. simpl.
      by case_bool_decide.
    + by apply element_throws in Hel as ->.
  - case_bool_decide; simpl; [done|].
    destruct (element rt id "getContext" _) as [r w2|e w2] eqn:Hel.
    + apply element_world in Hel as [-> _]. simpl.
      by case_bool_decide.
    + by apply element_throws in Hel as ->.
Qed.


End NoReplies.


(** ** Tabs *)

Section Tabs.
Implicit Types (p : list Element) (e : Element) (n : Node) (cls : string).

Lemma count_with_marked cls c p :
  Dom.count_with cls c p = sum_list (marked cls c <$> p).
Proof. done. Qed.

Lemma remove_from_all_unmark cls p :
  Dom.remove_from_all cls "active" p = unmark_all cls <$> p.
Proof. done. Qed.

Lemma unmark_id cls n : node_id (unmark cls n) = node_id n.
Proof. unfold unmark. by case_bool_decide. Qed.

(** Unmarking only ever takes [active] away. *)
Lemma unmark_classes cls n c :
  c ∈ classList (unmark cls n) ↔
  c ∈ classList n ∧ ¬ (c = "active" ∧ cls ∈ classList n).
Proof.
  unfold unmark. case_bool_decide; simpl.
  - rewrite elem_of_difference, elem_of_singleton. naive_solver.
  - naive_solver.
Qed.

Lemma filter_length_0 {A} (P : A → Prop) `{!∀ x, Decision (P x)} (l : list A) :
  (∀ x, x ∈ l → ¬ P x) → length (filter P l) = 0.
Proof.
  intros Hno. destruct (filter P l) as [|y ys] eqn:Hf; [done|].
  assert (y ∈ filter P l) as [Py Hy]%list_elem_of_filter
    by (rewrite Hf; apply list_elem_of_here).
  by destruct (Hno y Hy).
Qed.

Lemma filter_length_mono {A} (P Q : A → Prop)
    `{!∀ x, Decision (P x)} `{!∀ x, Decision (Q x)} (f : A → A) (l : list A) :
  (∀ x, P (f x) → Q x) → length (filter P (f <$> l)) ≤ length (filter Q l).
Proof.
  intros HPQ. induction l as [|x l IH]; [done|]. csimpl.
  rewrite !filter_cons. destruct (decide (P (f x))) as [HP|HP].
  - rewrite decide_True by auto. simpl. lia.
  - destruct (decide (Q x)); simpl; lia.
Qed.

(** After the sweep over [cls] no node of that class is active. *)
Lemma marked_unmark_same cls e : marked cls "active" (unmark_all cls e) = 0.
Proof.
  unfold marked. apply filter_length_0. intros n Hn.
  rewrite bool_decide_eq_true. intros [Hcls Hact].
  assert (∃ n0, n = unmark cls n0) as [n0 ->].
  { simpl in Hn. apply elem_of_cons in Hn as [->|Hn]; [by eexists|].
    apply list_elem_of_fmap in Hn as (n0 & -> & _). by eexists. }
  apply unmark_classes in Hcls as [Hcls _].
  apply unmark_classes in Hact as [_ Hact]. by apply Hact.
Qed.

(** A sweep over another class marks nothing. *)
Lemma marked_unmark_le cls cls' c e :
  marked cls c (unmark_all cls' e) ≤ marked cls c e.
Proof.
  unfold marked.
  change (node (unmark_all cls' e) :: kids (unmark_all cls' e))
    with (unmark cls' <$> (node e :: kids e)).
  apply filter_length_mono. intros n.
  rewrite !bool_decide_eq_true.
  intros [H1%unmark_classes H2%unmark_classes]. naive_solver.
Qed.

Lemma count_unmark_same cls p :
  Dom.count_with cls "active" (Dom.remove_from_all cls "active" p) = 0.
Proof.
  rewrite count_with_marked, remove_from_all_unmark.
  induction p as [|e p IH]; [done|]. csimpl.
  by rewrite marked_unmark_same, IH.
Qed.

Lemma count_unmark_le cls cls' c p :
  Dom.count_with cls c (Dom.remove_from_all cls' "active" p)
  ≤ Dom.count_with cls c p.
Proof.
  rewrite !count_with_marked, remove_from_all_unmark.
  induction p as [|e p IH]; [done|]. csimpl.
  pose proof (marked_unmark_le cls cls' c e). lia.
Qed.

(** Changing one element changes the count by what that element
    contributes. *)
Lemma count_alter cls c (h : Element → Element) i p e :
  p !! i = Some e →
  Dom.count_with cls c (alter h i p) + marked cls c e
  = Dom.count_with cls c p + marked cls c (h e).
Proof.
  rewrite !count_with_marked. revert i.
  induction p as [|x p IH]; intros [|i] Hi; simplify_eq/=; [lia|].
  specialize (IH i Hi). change (list_alter h i p) with (alter h i p). lia.
Qed.

Lemma marked_cons cls c e :
  marked cls c e
  = (if bool_decide (cls ∈ classList (node e) ∧ c ∈ classList (node e))
     then 1 else 0)
    + length (filter (λ n, bool_decide (cls ∈ classList n ∧ c ∈ classList n)
                           = true) (kids e)).
Proof.
  unfold marked. rewrite filter_cons.
  destruct (bool_decide _) eqn:Hb.
  - by rewrite decide_True.
  - by rewrite decide_False by (by intros ?).
Qed.

Lemma activate_classes e c :
  c ∈ classList (node (activate e)) ↔ c ∈ classList (node e) ∨ c = "active".
Proof.
  change (classList (node (activate e)))
    with (classList (node e) ∪ {["active"]}).
  by rewrite elem_of_union, elem_of_singleton.
Qed.

(** Activating an element of class [cls] that nothing of that class
    shares the page with as active: one active node of the class. *)
Lemma marked_activate_in cls e :
  cls ∈ classList (node e) → marked cls "active" e = 0 →
  marked cls "active" (activate e) = 1.
Proof.
  intros Hcls. rewrite !marked_cons.
  change (kids (activate e)) with (kids e).
  rewrite (bool_decide_eq_true_2 (_ ∧ _ ∈ classList (node (activate e))))
    by (rewrite !activate_classes; auto).
  destruct (bool_decide _); lia.
Qed.

Lemma marked_activate_out cls e :
  cls ∉ classList (node e) → cls ≠ "active" →
  marked cls "active" (activate e) = marked cls "active" e.
Proof.
  intros Hcls Hne. rewrite !marked_cons.
  change (kids (activate e)) with (kids e).
  rewrite !bool_decide_eq_false_2; [done|..].
  - by intros [? _].
  - rewrite !activate_classes. by intros [[?|?] _].
Qed.

Lemma marked_le_count cls c p i e :
  p !! i = Some e → marked cls c e ≤ Dom.count_with cls c p.
Proof.
  rewrite count_with_marked. revert i.
  induction p as [|x p IH]; intros [|i] Hi; simplify_eq/=; [lia|].
  specialize (IH i Hi). lia.
Qed.

Lemma classes_at_activate i w :
  page (classes_at (λ s, s ∪ {["active"]}) i w) = alter activate i (page w).
Proof. done. Qed.

Lemma discreet_unmark_all cls : ∀ id e,
  Dom.declares id (unmark_all cls e) = Dom.declares id e.
Proof.
  intros id e. unfold Dom.declares, Dom.has_id. simpl.
  rewrite unmark_id. f_equal.
  induction (kids e) as [|n ks IH]; [done|]. csimpl.
  by rewrite unmark_id, IH.
Qed.

(** The sweep neither moves nor renames anything. *)
Lemma static_element_unmark cls id w i e :
  static_element id w = Some (i, e) →
  static_element id (set_page (Dom.remove_from_all cls "active") w)
  = Some (i, unmark_all cls e).
Proof.
  intros (Hi & Hid & Hmin)%static_element_Some.
  apply static_element_Some. simpl. rewrite remove_from_all_unmark.
  split_and!.
  - by rewrite list_lookup_fmap, Hi.
  - simpl. by rewrite unmark_id.
  - intros k e' Hk Hki. rewrite list_lookup_fmap in Hk.
    destruct (page w !! k) as [x|] eqn:Hx; [|done]. simpl in Hk.
    injection Hk as <-. rewrite discreet_unmark_all. eauto.
Qed.

End Tabs.

(** On the path the tabs themselves take, [switchTab] does what the
    specification says: when the named panel is a served tab panel and
    the click landed on a served tab selector, exactly one panel and
    exactly one selector are active afterwards. *)
Lemma switchTab_on_selector (rt : Runtime) (tabName : string) (w : World)
    (i j : nat) (panel selector : Element) :
  static_element (tabName +:+ "-tab") w = Some (i, panel) →
  "tab-content" ∈ classList (node panel) → "tab" ∉ classList (node panel) →
  event_target w = Some (Static j) → page w !! j = Some selector →
  "tab" ∈ classList (node selector) →
  "tab-content" ∉ classList (node selector) →
  ∃ w', switchTab rt tabName w = Ok () w'
        ∧ active_panels w' = 1 ∧ active_selectors w' = 1.
Proof.
  intros Hpanel Hp1 Hp2 Hev Hsel Hs1 Hs2.
  set (w1 := set_page (Dom.remove_from_all "tab-content" "active") w).
  set (w2 := set_page (Dom.remove_from_all "tab" "active") w1).
  set (e2 := unmark_all "tab" (unmark_all "tab-content" panel)).
  set (s2 := unmark_all "tab" (unmark_all "tab-content" selector)).
  assert (static_element (tabName +:+ "-tab") w2 = Some (i, e2)) as Hpanel2
    by (by apply static_element_unmark, static_element_unmark).
  assert (page w2 !! i = Some e2) as Hi2 by (by eapply static_element_lookup).
  assert (page w2 !! j = Some s2) as Hj2.
  { subst w2 w1 s2. simpl. rewrite !remove_from_all_unmark.
    by rewrite !list_lookup_fmap, Hsel. }
  assert (i ≠ j) as Hij.
  { intros ->. apply static_element_lookup in Hpanel. congruence. }
  assert (∀ c, c ≠ "active" → c ∈ classList (node e2) ↔ c ∈ classList (node panel))
    as He2.
  { intros c Hc. subst e2. simpl. rewrite !unmark_classes. naive_solver. }
  assert (∀ c, c ≠ "active" → c ∈ classList (node s2) ↔ c ∈ classList (node selector))
    as Hs2'.
  { intros c Hc. subst s2. simpl. rewrite !unmark_classes. naive_solver. }
  set (w3 := classes_at (λ s, s ∪ {["active"]}) i w2).
  set (w4 := classes_at (λ s, s ∪ {["active"]}) j w3).
  exists w4. split_and!.
  - unfold switchTab.
    erewrite bind_ok by reflexivity. erewrite bind_ok by reflexivity.
    erewrite bind_ok by (by eapply element_static).
    erewrite bind_ok by reflexivity.
    erewrite bind_ok by reflexivity.
    change (event_target _) with (event_target w). rewrite Hev.
    by erewrite bind_ok by reflexivity.
  - unfold active_panels.
    assert (Dom.count_with "tab-content" "active" (page w2) = 0) as H0.
    { pose proof (count_unmark_same "tab-content" (page w)) as H.
      pose proof (count_unmark_le "tab-content" "tab" "active" (page w1)) as H'.
      subst w2 w1. cbn [page set_page] in *. lia. }
    assert (Dom.count_with "tab-content" "active" (page w3) = 1) as H1.
    { pose proof (count_alter "tab-content" "active" activate i _ _ Hi2) as H.
      pose proof (marked_le_count "tab-content" "active" _ _ _ Hi2) as Hm.
      rewrite marked_activate_in in H; [|by apply He2|lia].
      subst w3. rewrite classes_at_activate. lia. }
    assert (page w3 !! j = Some s2) as Hj3.
    { subst w3. rewrite classes_at_activate. by rewrite list_lookup_alter_ne. }
    pose proof (count_alter "tab-content" "active" activate j _ _ Hj3) as H.
    rewrite marked_activate_out in H by (by rewrite ?Hs2').
    subst w4. rewrite classes_at_activate. lia.
  - unfold active_selectors.
    assert (Dom.count_with "tab" "active" (page w2) = 0) as H0
      by apply count_unmark_same.
    assert (Dom.count_with "tab" "active" (page w3) = 0) as H1.
    { pose proof (count_alter "tab" "active" activate i _ _ Hi2) as H.
      rewrite marked_activate_out in H by (by rewrite ?He2).
      subst w3. rewrite classes_at_activate. lia. }
    assert (page w3 !! j = Some s2) as Hj3.
    { subst w3. rewrite classes_at_activate. by rewrite list_lookup_alter_ne. }
    pose proof (count_alter "tab" "active" activate j _ _ Hj3) as H.
    pose proof (marked_le_count "tab" "active" _ _ _ Hj3) as Hm.
    rewrite marked_activate_in in H; [|by apply Hs2'|lia].
    subst w4. rewrite classes_at_activate. lia.
Qed.

(** C5 at the input where the code departs from it.  A click on the
    selector of the reply-analysis tab leaves one panel and one selector
    active.  A click on the [Analyze Replies] button of a tweet card runs
    [analyzeSpecificTweet], whose [switchTab] finds the button as
    [event.target]: the reply-analysis panel becomes the one active
    panel, the [active] class goes to the button, and no tab selector is
    active any more. *)
Theorem pivot_to_replies_selects_no_tab :
  (tag <$> Dom.get analyze_button (page after_user_tweets) = Some "button"
   ∧ has_class "btn" analyze_button after_user_tweets = true
   ∧ has_class "tab" analyze_button after_user_tweets = false)
  ∧ (active_panels after_user_tweets = 1
     ∧ active_selectors after_user_tweets = 1)
  ∧ (let w' := world_of (switchTab sample_runtime "reply-analysis"
                           (clicked (Static 1) after_user_tweets)) in
     active_panels w' = 1 ∧ active_selectors w' = 1
     ∧ has_class "active" (Static 8) w' = true
     ∧ has_class "active" (Static 1) w' = true)
  ∧ (let f := analyzeSpecificTweet sample_runtime "123"
                (clicked analyze_button after_user_tweets) in
     active_panels <$> suspended f = Some 1
     ∧ active_selectors <$> suspended f = Some 0
     ∧ has_class "active" (Static 8) <$> suspended f = Some true
     ∧ has_class "active" analyze_button <$> suspended f = Some true).
Proof. cbv zeta. split_and!; vm_compute; reflexivity. Qed.

(** ** The show and hide helpers *)

Section Classes.
Implicit Types (s : gset string) (a : string).

Lemma add_remove s a : (s ∪ {[a]}) ∖ {[a]} = s ∖ {[a]}.
Proof. set_solver. Qed.

Lemma remove_add s a : (s ∖ {[a]}) ∪ {[a]} = s ∪ {[a]}.
Proof. apply set_eq. intros x. destruct (decide (x = a)); set_solver. Qed.

Lemma add_add s a : (s ∪ {[a]}) ∪ {[a]} = s ∪ {[a]}.
Proof. set_solver. Qed.

Lemma remove_remove s a : (s ∖ {[a]}) ∖ {[a]} = s ∖ {[a]}.
Proof. set_solver. Qed.

Lemma add_remove_id s a : a ∉ s → (s ∪ {[a]}) ∖ {[a]} = s.
Proof. set_solver. Qed.

End Classes.

Section Helpers.
Context (rt : Runtime).
Implicit Types (w : World) (id : string).

Lemma element_missing id prop w :
  Dom.find_id id (page w) = None →
  element rt id prop w = Throw (Error (type_error_message rt prop)) w.
Proof.
  intros H. unfold element, getElementById, gets, mbind, M_bind. by rewrite H.
Qed.

Lemma assignee_missing id prop w :
  Dom.find_id id (page w) = None →
  assignee rt id prop w = Throw (Error (set_error_message rt prop)) w.
Proof.
  intros H. unfold assignee, getElementById, gets, mbind, M_bind.
  by rewrite H.
Qed.

Lemma set_page_twice f g w :
  set_page f (set_page g w) = set_page (f ∘ g) w.
Proof. done. Qed.

(** Two changes of the element at [i] are one change. *)
Lemma set_page_alter_ext (f g : Element → Element) i w e :
  page w !! i = Some e → f e = g e →
  set_page (alter f i) w = set_page (alter g i) w.
Proof.
  intros Hi Hfg. unfold set_page. f_equal.
  apply list_alter_ext; [|done]. intros x Hx. congruence.
Qed.

Lemma set_page_alter_id (f : Element → Element) i w e :
  page w !! i = Some e → f e = e → set_page (alter f i) w = w.
Proof.
  intros Hi Hf. destruct w as [p t c r l]. unfold set_page. simpl in *.
  f_equal. apply list_eq. intros j. rewrite list_lookup_alter.
  case_decide; [|done]. subst. rewrite Hi. simpl. by rewrite Hf.
Qed.

Lemma classes_at_twice g f i w :
  classes_at g i (classes_at f i w) = classes_at (g ∘ f) i w.
Proof.
  unfold classes_at. rewrite set_page_twice. unfold set_page. f_equal.
  simpl. by rewrite list_alter_alter_eq.
Qed.

Lemma classes_at_ext g h i w e :
  page w !! i = Some e → g (classList (node e)) = h (classList (node e)) →
  classes_at g i w = classes_at h i w.
Proof.
  intros Hi Hgh. unfold classes_at. eapply set_page_alter_ext; [done|].
  unfold Dom.with_classes. by rewrite Hgh.
Qed.

Lemma classes_at_id g i w e :
  page w !! i = Some e → g (classList (node e)) = classList (node e) →
  classes_at g i w = w.
Proof.
  intros Hi Hg. unfold classes_at. eapply set_page_alter_id; [done|].
  destruct e as [[] ?]. unfold Dom.with_classes. simpl in *. by rewrite Hg.
Qed.

(** Two class changes in a row on a served element. *)
Lemma set_classes_twice g h id prop prop' w i e :
  static_element id w = Some (i, e) →
  ((element rt id prop
      ≫= λ r, modify (set_page (Dom.update r (Dom.with_classes g))))
     ≫= λ _, element rt id prop'
      ≫= λ r, modify (set_page (Dom.update r (Dom.with_classes h)))) w
  = Ok () (classes_at (h ∘ g) i w).
Proof.
  intros H. erewrite bind_ok by (by eapply set_classes_run).
  erewrite set_classes_run by (by apply classes_at_self).
  by rewrite classes_at_twice.
Qed.

Lemma showError_twice id m1 m2 w i e :
  static_element id w = Some (i, e) →
  (showError rt id m1 ≫= λ _, showError rt id m2) w = showError rt id m2 w.
Proof.
  intros H. erewrite bind_ok by (by eapply showError_run).
  erewrite !showError_run; [|done|].
  2:{ erewrite classes_at_static by (by erewrite text_at_static).
      by rewrite !decide_True. }
  f_equal. unfold classes_at, text_at, set_page. simpl. f_equal.
  rewrite !list_alter_alter_eq. apply list_alter_ext; [|done].
  intros x _. simpl. unfold Dom.with_classes, Dom.with_content. simpl.
  do 2 f_equal. apply add_add.
Qed.

End Helpers.

(** X1.  The show and hide helpers.  On an element the page serves,
    [showLoading] and [showResults] return with the class [active] added
    to the element, and [hideLoading], [hideError] and [hideResults]
    return with it removed: the region is active after the one and not
    active after the other.  The other classes of the element, every
    other element of the page and the charts are as they were.  Hence
    hiding after showing is hiding, showing after hiding is showing,
    each of the two done twice is itself done once, and on a region that
    was not active showing and then hiding gives back the world as it
    was. *)
Theorem show_then_hide (rt : Runtime) (id : string) (w : World) (i : nat)
    (e : Element) :
  static_element id w = Some (i, e) →
  ∃ shown hidden,
    (∀ show, show ∈ [showLoading rt; showResults rt] → show id w = Ok () shown)
    ∧ (∀ hide, hide ∈ [hideLoading rt; hideError rt; hideResults rt] →
               hide id w = Ok () hidden)
    ∧ is_active id shown ∧ is_hidden id hidden
    ∧ (∀ c, c ≠ "active" →
            has_class c (Static i) shown = has_class c (Static i) w
            ∧ has_class c (Static i) hidden = has_class c (Static i) w)
    ∧ only_at i w shown ∧ only_at i w hidden
    ∧ same_charts w shown ∧ same_charts w hidden
    ∧ (showLoading rt id ≫= λ _, hideLoading rt id) w = Ok () hidden
    ∧ (hideLoading rt id ≫= λ _, showLoading rt id) w = Ok () shown
    ∧ (showLoading rt id ≫= λ _, showLoading rt id) w = Ok () shown
    ∧ (hideLoading rt id ≫= λ _, hideLoading rt id) w = Ok () hidden
    ∧ ("active" ∉ classList (node e) → hidden = w).
Proof.
  intros H. pose proof (static_element_lookup _ _ _ _ H) as Hi.
  pose proof (showLoading_run rt _ _ _ _ H) as Hs.
  pose proof (hideLoading_run rt _ _ _ _ H) as Hh.
  pose proof (classes_at_self (λ s, s ∪ {["active"]}) _ _ _ _ H) as H1.
  pose proof (classes_at_self (λ s, s ∖ {["active"]}) _ _ _ _ H) as H2.
  exists (classes_at (λ s, s ∪ {["active"]}) i w),
         (classes_at (λ s, s ∖ {["active"]}) i w).
  split; [|split; [|split; [|split; [|split; [|split; [|split; [|split;
    [|split; [|split; [|split; [|split; [|split]]]]]]]]]]]].
  - intros show Hin.
    repeat (apply elem_of_cons in Hin as [->|Hin]; [exact Hs|]).
    by apply elem_of_nil in Hin.
  - intros hide Hin.
    repeat (apply elem_of_cons in Hin as [->|Hin]; [exact Hh|]).
    by apply elem_of_nil in Hin.
  - eexists _, _. split; [exact H1|]. simpl. set_solver.
  - eexists _, _. split; [exact H2|]. simpl. set_solver.
  - intros c Hc. unfold has_class, Dom.get. cbn [page classes_at set_page].
    rewrite !list_lookup_alter_eq, Hi. simpl.
    split; apply bool_decide_ext; set_solver.
  - intros k Hk. cbn [page classes_at set_page].
    by rewrite list_lookup_alter_ne.
  - intros k Hk. cbn [page classes_at set_page].
    by rewrite list_lookup_alter_ne.
  - done.
  - done.
  - erewrite bind_ok by exact Hs. erewrite hideLoading_run by exact H1.
    rewrite classes_at_twice. f_equal.
    eapply classes_at_ext; [done|]. apply add_remove.
  - erewrite bind_ok by exact Hh. erewrite showLoading_run by exact H2.
    rewrite classes_at_twice. f_equal.
    eapply classes_at_ext; [done|]. apply remove_add.
  - erewrite bind_ok by exact Hs. erewrite showLoading_run by exact H1.
    rewrite classes_at_twice. f_equal.
    eapply classes_at_ext; [done|]. apply add_add.
  - erewrite bind_ok by exact Hh. erewrite hideLoading_run by exact H2.
    rewrite classes_at_twice. f_equal.
    eapply classes_at_ext; [done|]. apply remove_remove.
  - intros Hno. eapply classes_at_id; [done|]. set_solver.
Qed.

(** The loading indicator of the tweets tab, shown, and shown and hidden
    again. *)
Lemma show_then_hide_witness :
  ∃ shown,
    showLoading sample_runtime "tweetsLoading" (sample_world "a") = Ok () shown
    ∧ is_active "tweetsLoading" shown
    ∧ has_class "loading" (Static 5) shown = true
    ∧ (showLoading sample_runtime "tweetsLoading"
         ≫= λ _, hideLoading sample_runtime "tweetsLoading") (sample_world "a")
      = Ok () (sample_world "a").
Proof.
  destruct (show_then_hide sample_runtime "tweetsLoading" (sample_world "a") 5
              (control "div" "tweetsLoading" ["loading"] ""))
    as (shown & hidden & Hshow & _ & Hact & _ & Hcls & _ & _ & _ & _ & Hsh
        & _ & _ & _ & Hback).
  - vm_compute. reflexivity.
  - exists shown. split; [|split; [exact Hact|split]].
    + apply Hshow. apply list_elem_of_here.
    + rewrite (proj1 (Hcls "loading" ltac:(intros Hc; discriminate Hc))).
      vm_compute. reflexivity.
    + rewrite Hsh. f_equal. apply Hback.
      vm_compute. intros Hin. discriminate Hin.
Defined.

(** X2.  Called with an identifier that no element of the document
    carries, every helper throws a [TypeError] and changes nothing.  The
    five helpers that only change the class throw that of reading
    [classList] of [null]; [showError] throws that of assigning to
    [textContent] of [null], before any class is touched. *)
Theorem helpers_need_their_element (rt : Runtime) (id : string) (w : World) :
  Dom.find_id id (page w) = None →
  (∀ helper, helper ∈ [showLoading rt; hideLoading rt; hideError rt;
                        showResults rt; hideResults rt] →
     helper id w = Throw (Error (type_error_message rt "classList")) w)
  ∧ ∀ msg, showError rt id msg w
           = Throw (Error (set_error_message rt "textContent")) w.
Proof.
  intros H. split.
  - intros helper Hin.
    assert (helper = showLoading rt ∨ helper = hideLoading rt) as [-> | ->].
    { repeat (apply elem_of_cons in Hin as [->|Hin]; [auto|]).
      by apply elem_of_nil in Hin. }
    + unfold showLoading. unfold mbind, M_bind.
      by rewrite (element_missing rt _ _ _ H).
    + unfold hideLoading. unfold mbind, M_bind.
      by rewrite (element_missing rt _ _ _ H).
  - intros msg. unfold showError, mbind, M_bind.
    by rewrite (assignee_missing rt _ _ _ H).
Qed.

Lemma helpers_need_their_element_witness :
  showError sample_runtime "nowhere" "oops" (sample_world "a")
  = Throw (Error "Cannot set properties of null (setting 'textContent')")
          (sample_world "a").
Proof.
  refine (proj2 (helpers_need_their_element sample_runtime "nowhere"
                   (sample_world "a") _) "oops").
  vm_compute. reflexivity.
Defined.

(** X3.  [showError] replaces what the region held: of two messages in a
    row the second alone stands, exactly as if the first had never been
    shown.  [hideError] takes the region out of view and leaves its text:
    the message stays in the element, with nothing displayed. *)
Theorem showError_last_wins (rt : Runtime) (id m1 m2 : string) (w : World)
    (i : nat) (e : Element) :
  static_element id w = Some (i, e) →
  (showError rt id m1 ≫= λ _, showError rt id m2) w = showError rt id m2 w
  ∧ (∃ w', showError rt id m2 w = Ok () w' ∧ displays id m2 w'
           ∧ (m1 ≠ m2 → ¬ displays id m1 w'))
  ∧ ∃ w', (showError rt id m1 ≫= λ _, hideError rt id) w = Ok () w'
          ∧ text_of id w' = Some m1 ∧ ∀ msg, ¬ displays id msg w'.
Proof.
  intros H. split_and!.
  - by eapply showError_twice.
  - destruct (showError_displays rt id m2 w i e H) as (w' & Hr & Hd & _).
    exists w'. split_and!; [done..|].
    intros Hne (j & x & Hx & Hc & _). destruct Hd as (j' & x' & Hx' & Hc' & _).
    congruence.
  - erewrite bind_ok by (by eapply showError_run).
    assert (static_element id
              (classes_at (λ s, s ∪ {["active"]}) i (text_at m1 i w))
            = Some (i, {| node := Dom.with_classes (λ s, s ∪ {["active"]})
                                    (Dom.with_content m1 (node e));
                          kids := [] |})) as H1.
    { erewrite classes_at_static by (by erewrite text_at_static).
      by rewrite !decide_True. }
    erewrite hideError_run by done. eexists. split; [done|].
    unfold text_of, displays. erewrite !classes_at_self by done.
    split; [done|]. intros msg (j & x & [= <- <-] & _ & Hact).
    simpl in Hact. set_solver.
Qed.

Lemma showError_last_wins_witness :
  (showError sample_runtime "tweetsError" "first"
     ≫= λ _, showError sample_runtime "tweetsError" "second") (sample_world "a")
  = showError sample_runtime "tweetsError" "second" (sample_world "a").
Proof.
  refine (proj1 (showError_last_wins sample_runtime "tweetsError" "first"
                   "second" (sample_world "a") 6
                   (control "div" "tweetsError" ["error"] "") _)).
  vm_compute. reflexivity.
Defined.

(** ** More on [switchTab] *)

Section SwitchTab.
Context (rt : Runtime).
Implicit Types (w : World) (id : string) (p : list Element).

(** The page after the two sweeps of [switchTab]. *)
Local Notation swept w :=
  (set_page (Dom.remove_from_all "tab" "active")
     (set_page (Dom.remove_from_all "tab-content" "active") w)).

Lemma find_id_None id p :
  Dom.find_id id p = None ↔ ∀ e, e ∈ p → Dom.declares id e = false.
Proof.
  unfold Dom.find_id.
  destruct (list_find _ p) as [[i e]|] eqn:Hf.
  - apply list_find_Some in Hf as (Hi & Hd & _).
    split.
    + destruct (Dom.has_id id (node e)) eqn:Hn; [done|].
      unfold Dom.declares in Hd. rewrite Hn in Hd. simpl in Hd.
      destruct (list_find _ (kids e)) as [[j n]|] eqn:Hk; [done|].
      apply list_find_None in Hk. rewrite Forall_forall in Hk.
      apply existsb_exists in Hd as (n & Hin & Hn').
      destruct (Hk n); [by apply list_elem_of_In|done].
    + intros Hall. rewrite (Hall e) in Hd; [done|].
      by eapply list_elem_of_lookup_2.
  - apply list_find_None in Hf. rewrite Forall_forall in Hf.
    split; [|done]. intros _ e He. specialize (Hf e He).
    by destruct (Dom.declares id e).
Qed.

Lemma find_id_swept_None id w :
  Dom.find_id id (page w) = None → Dom.find_id id (page (swept w)) = None.
Proof.
  rewrite !find_id_None. intros Hall e. simpl.
  rewrite !remove_from_all_unmark.
  intros (e1 & -> & (e0 & -> & He0)%list_elem_of_fmap)%list_elem_of_fmap.
  rewrite !discreet_unmark_all. by apply Hall.
Qed.

Lemma static_element_swept id w i e :
  static_element id w = Some (i, e) →
  static_element id (swept w)
  = Some (i, unmark_all "tab" (unmark_all "tab-content" e)).
Proof. intros H. by apply static_element_unmark, static_element_unmark. Qed.

(** After the sweeps nothing is active, neither panel nor selector. *)
Lemma swept_counts w :
  active_panels (swept w) = 0 ∧ active_selectors (swept w) = 0.
Proof.
  unfold active_panels, active_selectors. split.
  - pose proof (count_unmark_same "tab-content" (page w)) as H.
    pose proof (count_unmark_le "tab-content" "tab" "active"
                  (Dom.remove_from_all "tab-content" "active" (page w))) as H'.
    cbn [page set_page] in *. lia.
  - apply count_unmark_same.
Qed.

Lemma swept_classes (e : Element) c :
  c ≠ "active" →
  c ∈ classList (node (unmark_all "tab" (unmark_all "tab-content" e)))
  ↔ c ∈ classList (node e).
Proof. intros Hc. simpl. rewrite !unmark_classes. naive_solver. Qed.

(** A panel made active on the swept page: one active panel, and no
    active selector. *)
Lemma panel_counts w i panel :
  page (swept w) !! i
  = Some (unmark_all "tab" (unmark_all "tab-content" panel)) →
  "tab-content" ∈ classList (node panel) → "tab" ∉ classList (node panel) →
  active_panels (classes_at (λ s, s ∪ {["active"]}) i (swept w)) = 1
  ∧ active_selectors (classes_at (λ s, s ∪ {["active"]}) i (swept w)) = 0.
Proof.
  intros Hi Hp1 Hp2. destruct (swept_counts w) as [H0 H0'].
  unfold active_panels, active_selectors in *.
  rewrite classes_at_activate. split.
  - pose proof (count_alter "tab-content" "active" activate i _ _ Hi) as H.
    pose proof (marked_le_count "tab-content" "active" _ _ _ Hi) as Hm.
    rewrite marked_activate_in in H; [lia|by apply swept_classes|lia].
  - pose proof (count_alter "tab" "active" activate i _ _ Hi) as H.
    rewrite marked_activate_out in H; [lia| |done].
    by rewrite swept_classes.
Qed.

(** The run of [switchTab] when the panel is served and an event is
    being dispatched. *)
Lemma switchTab_run tabName w i panel r :
  static_element (tabName +:+ "-tab") w = Some (i, panel) →
  event_target w = Some r →
  switchTab rt tabName w
  = Ok () (set_page (Dom.update r (Dom.with_classes (λ s, s ∪ {["active"]})))
             (classes_at (λ s, s ∪ {["active"]}) i (swept w))).
Proof.
  intros Hpanel Hev. unfold switchTab.
  erewrite bind_ok by reflexivity. erewrite bind_ok by reflexivity.
  erewrite bind_ok by (by eapply element_static, static_element_swept).
  erewrite bind_ok by reflexivity.
  erewrite bind_ok by reflexivity.
  change (event_target _) with (event_target w). rewrite Hev.
  by erewrite bind_ok by reflexivity.
Qed.

End SwitchTab.

(** X4.  A click on a tab selector.  When the named panel is a served tab
    panel and [event.target] is a served tab selector, [switchTab]
    returns, the panel and the selector carry [active], they are the only
    active panel and the only active selector of the page, and the charts
    are as they were. *)
Theorem tab_click_selects (rt : Runtime) (tabName : string) (w : World)
    (i j : nat) (panel selector : Element) :
  static_element (tabName +:+ "-tab") w = Some (i, panel) →
  "tab-content" ∈ classList (node panel) → "tab" ∉ classList (node panel) →
  event_target w = Some (Static j) → page w !! j = Some selector →
  "tab" ∈ classList (node selector) →
  "tab-content" ∉ classList (node selector) →
  ∃ w', switchTab rt tabName w = Ok () w'
        ∧ active_panels w' = 1 ∧ active_selectors w' = 1
        ∧ has_class "active" (Static i) w' = true
        ∧ has_class "active" (Static j) w' = true
        ∧ charts w' = charts w ∧ chartInstances w' = chartInstances w.
Proof.
  intros Hpanel Hp1 Hp2 Hev Hsel Hs1 Hs2.
  destruct (switchTab_on_selector rt tabName w i j panel selector)
    as (w' & Hrun & Hpanels & Hselectors); [done..|].
  pose proof Hrun as Hrun'.
  rewrite (switchTab_run rt _ _ _ _ _ Hpanel Hev) in Hrun'.
  injection Hrun' as Hw'.
  assert (i ≠ j) as Hij
    by (intros ->; apply static_element_lookup in Hpanel; congruence).
  apply static_element_lookup in Hpanel.
  exists w'. split_and!; [done..| | | |]; rewrite <- Hw'; [| |done..].
  - unfold has_class, Dom.get, Dom.update. cbn [page set_page classes_at].
    rewrite !remove_from_all_unmark.
    rewrite list_lookup_alter_ne, list_lookup_alter_eq, !list_lookup_fmap, Hpanel
      by done.
    simpl. apply bool_decide_eq_true. set_solver.
  - unfold has_class, Dom.get, Dom.update. cbn [page set_page classes_at].
    rewrite !remove_from_all_unmark.
    rewrite list_lookup_alter_eq, list_lookup_alter_ne, !list_lookup_fmap, Hsel
      by done.
    simpl. apply bool_decide_eq_true. set_solver.
Qed.

(** A click on the selector of the reply-analysis tab of the sample page. *)
Lemma tab_click_selects_witness :
  ∃ w', switchTab sample_runtime "reply-analysis"
          (clicked (Static 1) (sample_world "a")) = Ok () w'
        ∧ active_panels w' = 1 ∧ active_selectors w' = 1
        ∧ has_class "active" (Static 8) w' = true
        ∧ has_class "active" (Static 1) w' = true
        ∧ charts w' = [] ∧ chartInstances w' = ∅.
Proof.
  refine (tab_click_selects sample_runtime "reply-analysis"
            (clicked (Static 1) (sample_world "a")) 8 1
            (control "div" "reply-analysis-tab" ["tab-content"] "")
            (control "button" "tab-reply-analysis" ["tab"] "")
            _ _ _ _ _ _ _); vm_compute; try reflexivity;
    intros H; discriminate H.
Defined.

(** X5.  The two ways [switchTab] fails.  Called with a name whose panel
    the document does not have, it throws at the panel, after both
    sweeps: no panel and no selector is active any more.  Called while no
    event is being dispatched, with a served tab panel, it throws at
    [event.target], after the panel was made active: that panel is the
    one active panel and no selector is active. *)
Theorem switchTab_failures (rt : Runtime) (tabName : string) (w : World) :
  (Dom.find_id (tabName +:+ "-tab") (page w) = None →
   ∃ w', switchTab rt tabName w
         = Throw (Error (type_error_message rt "classList")) w'
         ∧ active_panels w' = 0 ∧ active_selectors w' = 0)
  ∧ (∀ i panel,
       static_element (tabName +:+ "-tab") w = Some (i, panel) →
       "tab-content" ∈ classList (node panel) →
       "tab" ∉ classList (node panel) →
       event_target w = None →
       ∃ w', switchTab rt tabName w
             = Throw (Error (type_error_message rt "target")) w'
             ∧ active_panels w' = 1 ∧ active_selectors w' = 0
             ∧ has_class "active" (Static i) w' = true).
Proof.
  split.
  - intros Hnone. eexists. split.
    + unfold switchTab.
      erewrite bind_ok by reflexivity. erewrite bind_ok by reflexivity.
      unfold mbind, M_bind.
      by rewrite (element_missing rt _ _ _ (find_id_swept_None _ _ Hnone)).
    + apply swept_counts.
  - intros i panel Hpanel Hp1 Hp2 Hev.
    exists (classes_at (λ s, s ∪ {["active"]}) i
              (set_page (Dom.remove_from_all "tab" "active")
                 (set_page (Dom.remove_from_all "tab-content" "active") w))).
    split.
    + unfold switchTab.
      erewrite bind_ok by reflexivity. erewrite bind_ok by reflexivity.
      erewrite bind_ok by (by eapply element_static, static_element_swept).
      erewrite bind_ok by reflexivity.
      erewrite bind_ok by reflexivity.
      change (event_target _) with (event_target w). by rewrite Hev.
    + pose proof (static_element_swept _ _ _ _ Hpanel) as H2.
      apply static_element_lookup in H2.
      destruct (panel_counts w i panel H2 Hp1 Hp2) as [? ?].
      split_and!; [done..|].
      unfold has_class, Dom.get. rewrite classes_at_activate.
      rewrite list_lookup_alter_eq, H2. simpl.
      apply bool_decide_eq_true. set_solver.
Qed.

(** On the sample page: a tab that does not exist, and a call outside
    any event. *)
Lemma switchTab_failures_witness :
  (∃ w', switchTab sample_runtime "settings" (sample_world "a")
         = Throw (Error "Cannot read properties of null (reading 'classList')") w'
         ∧ active_panels w' = 0 ∧ active_selectors w' = 0)
  ∧ ∃ w', switchTab sample_runtime "reply-analysis" (sample_world "a")
          = Throw (Error "Cannot read properties of null (reading 'target')") w'
          ∧ active_panels w' = 1 ∧ active_selectors w' = 0
          ∧ has_class "active" (Static 8) w' = true.
Proof.
  split.
  - refine (proj1 (switchTab_failures sample_runtime "settings"
                     (sample_world "a")) _).
    vm_compute. reflexivity.
  - refine (proj2 (switchTab_failures sample_runtime "reply-analysis"
                     (sample_world "a")) 8
              (control "div" "reply-analysis-tab" ["tab-content"] "")
              _ _ _ _); vm_compute; try reflexivity.
    intros H. discriminate H.
Defined.

(** ** The outcomes of a request *)

Section Outcomes.
Context (rt : Runtime) {P : Type}.
Context (loading error results : string) (req : Request)
        (display : P → M unit).
Implicit Types (w : World).

Lemma showError_effect id msg w i e :
  static_element id w = Some (i, e) →
  ∃ w', showError rt id msg w = Ok () w'
        ∧ displays id msg w'
        ∧ same_charts w w' ∧ console w' = console w
        ∧ event_target w' = event_target w
        ∧ ∀ id' ie, id' ≠ id → static_element id' w = Some ie →
                    static_element id' w' = Some ie.
Proof.
  intros H.
  destruct (showError_displays rt id msg w i e H)
    as (w' & Hrun & Hd & Hc & Hr & Hf).
  exists w'. split_and!; try done.
  all: rewrite (showError_run rt _ _ _ _ _ H) in Hrun.
  all: by injection Hrun as <-.
Qed.

(** The world after the three calls that precede the request. *)
Lemma request_flow_pending w :
  loading ≠ error → loading ≠ results → error ≠ results →
  served [loading; error; results] w = true →
  ∃ w3, request_flow rt loading error results req display w
        = Await w3 req (on_outcome rt loading error display)
        ∧ is_active loading w3 ∧ is_hidden error w3 ∧ is_hidden results w3
        ∧ text_of error w3 = text_of error w
        ∧ text_of results w3 = text_of results w
        ∧ (∀ id ie, id ∉ [loading; error; results] →
                    static_element id w = Some ie →
                    static_element id w3 = Some ie)
        ∧ same_charts w w3 ∧ console w3 = console w.
Proof.
  intros HLE HLR HER (HL & HE & HR & _)%served_cons_3.
  destruct HL as (iL & eL & HL), HE as (iE & eE & HE), HR as (iR & eR & HR).
  rewrite request_flow_unfold, (showLoading_run _ _ _ _ _ HL).
  pose proof (classes_at_self (λ s, s ∪ {["active"]}) _ _ _ _ HL) as HL1.
  pose proof (classes_at_frame (λ s, s ∪ {["active"]}) _ _ _ _ _ _
                HL (not_eq_sym HLE) HE) as HE1.
  pose proof (classes_at_frame (λ s, s ∪ {["active"]}) _ _ _ _ _ _
                HL (not_eq_sym HLR) HR) as HR1.
  rewrite (hideError_run _ _ _ _ _ HE1).
  pose proof (classes_at_frame (λ s, s ∖ {["active"]}) _ _ _ _ _ _
                HE1 HLE HL1) as HL2.
  pose proof (classes_at_self (λ s, s ∖ {["active"]}) _ _ _ _ HE1) as HE2.
  pose proof (classes_at_frame (λ s, s ∖ {["active"]}) _ _ _ _ _ _
                HE1 (not_eq_sym HER) HR1) as HR2.
  rewrite (hideResults_run _ _ _ _ _ HR2).
  pose proof (classes_at_frame (λ s, s ∖ {["active"]}) _ _ _ _ _ _
                HR2 HLR HL2) as HL3.
  pose proof (classes_at_frame (λ s, s ∖ {["active"]}) _ _ _ _ _ _
                HR2 HER HE2) as HE3.
  pose proof (classes_at_self (λ s, s ∖ {["active"]}) _ _ _ _ HR2) as HR3.
  eexists. split; [done|]. split_and!.
  - eexists _, _. split; [exact HL3|]. simpl. set_solver.
  - eexists _, _. split; [exact HE3|]. simpl. set_solver.
  - eexists _, _. split; [exact HR3|]. simpl. set_solver.
  - unfold text_of. by rewrite HE3, HE.
  - unfold text_of. by rewrite HR3, HR.
  - intros id ie Hid Hie.
    apply (classes_at_frame _ _ _ _ _ _ _ HR2);
      [intros ->; apply Hid; set_solver|].
    apply (classes_at_frame _ _ _ _ _ _ _ HE1);
      [intros ->; apply Hid; set_solver|].
    apply (classes_at_frame _ _ _ _ _ _ _ HL);
      [intros ->; apply Hid; set_solver|done].
  - done.
  - done.
Qed.

(** The request was rejected, or the body of the response did not
    parse: the [catch] branch. *)
Lemma on_outcome_rejected e w' :
  loading ≠ error → loading ≠ results → error ≠ results →
  served [loading; error; results] w' = true →
  ∃ w'', on_outcome rt loading error display (Rejected e) w'
         = Done (Ok () w'')
         ∧ displays error ("Error: " +:+ message e) w''
         ∧ untouched results w' w''
         ∧ is_hidden loading w''
         ∧ same_charts w' w'' ∧ console w'' = console w'.
Proof.
  intros HLE HLR HER (HL & HE & HR & _)%served_cons_3.
  destruct HL as (iL & eL & HL), HE as (iE & eE & HE), HR as (iR & eR & HR).
  unfold on_outcome, async_try, mbind, Async_bind, sync. simpl.
  rewrite (hideLoading_run _ _ _ _ _ HL).
  pose proof (classes_at_self (λ s, s ∖ {["active"]}) _ _ _ _ HL) as HL1.
  pose proof (classes_at_frame (λ s, s ∖ {["active"]}) _ _ _ _ _ _
                HL (not_eq_sym HLE) HE) as HE1.
  pose proof (classes_at_frame (λ s, s ∖ {["active"]}) _ _ _ _ _ _
                HL (not_eq_sym HLR) HR) as HR1.
  destruct (showError_effect error ("Error: " +:+ message e) _ _ _ HE1)
    as (w'' & Hrun & Hdisp & [Hc Hr] & Hcon & _ & Hframe).
  simpl. rewrite Hrun. exists w''. split_and!; [done..| | | |done].
  - exists (iR, eR). split; [done|]. apply Hframe; [by apply not_eq_sym|done].
  - eexists _, _. split; [by apply Hframe|]. simpl. set_solver.
  - done.
Qed.

(** A failure reply, with what it leaves alone. *)
Lemma on_outcome_failure X w' :
  loading ≠ error → loading ≠ results → error ≠ results →
  served [loading; error; results] w' = true →
  ∃ w'', on_outcome rt loading error display (Reply (Failure X)) w'
         = Done (Ok () w'')
         ∧ displays error X w''
         ∧ untouched results w' w''
         ∧ is_hidden loading w''
         ∧ same_charts w' w'' ∧ console w'' = console w'.
Proof.
  intros HLE HLR HER (HL & HE & HR & _)%served_cons_3.
  destruct HL as (iL & eL & HL), HE as (iE & eE & HE), HR as (iR & eR & HR).
  unfold on_outcome, async_try, mbind, Async_bind, sync. simpl.
  rewrite (hideLoading_run _ _ _ _ _ HL).
  pose proof (classes_at_self (λ s, s ∖ {["active"]}) _ _ _ _ HL) as HL1.
  pose proof (classes_at_frame (λ s, s ∖ {["active"]}) _ _ _ _ _ _
                HL (not_eq_sym HLE) HE) as HE1.
  pose proof (classes_at_frame (λ s, s ∖ {["active"]}) _ _ _ _ _ _
                HL (not_eq_sym HLR) HR) as HR1.
  destruct (showError_effect error X _ _ _ HE1)
    as (w'' & Hrun & Hdisp & [Hc Hr] & Hcon & _ & Hframe).
  simpl. rewrite Hrun. exists w''. split_and!; [done..| | | |done].
  - exists (iR, eR). split; [done|]. apply Hframe; [by apply not_eq_sym|done].
  - eexists _, _. split; [by apply Hframe|]. simpl. set_solver.
  - done.
Qed.

(** A success reply: the display function runs once the loading
    indicator is hidden, and what it throws goes to the [catch]
    branch. *)
Lemma on_outcome_success p w' iL eL :
  static_element loading w' = Some (iL, eL) →
  on_outcome rt loading error display (Reply (Success p)) w'
  = match display p (classes_at (λ s, s ∖ {["active"]}) iL w') with
    | Ok a w2 => Done (Ok a w2)
    | Throw e w2 =>
        Done ((hideLoading rt loading
                 ≫= λ _, showError rt error ("Error: " +:+ message e)) w2)
    end.
Proof.
  intros HL.
  unfold on_outcome, async_try, mbind, Async_bind, sync. simpl.
  rewrite (hideLoading_run _ _ _ _ _ HL). simpl.
  destruct (display p _) as [[] w2|e w2]; simpl; [done|].
  unfold M_bind. by destruct (hideLoading rt loading w2).
Qed.

End Outcomes.

(** Take a flow apart into its validation and the shared request flow. *)
Ltac to_request_flow :=
  first [ rewrite getUserProfile_unfold | rewrite getUserTweets_unfold
        | rewrite analyzeReplies_unfold | rewrite compareUsers_unfold
        | rewrite compareTweets_unfold | rewrite searchAndAnalyze_unfold ];
  repeat (destruct (field _ _ _) as [? ?|]; [|done]);
  lazymatch goal with
  | |- context [if falsy _ || falsy _ then _ else _] =>
      destruct (falsy _ || falsy _); [done|]
  | |- context [if falsy _ then _ else _] => destruct (falsy _); [done|]
  end.

(** X6.  The [catch] branch.  When the request of one of the six flows
    with an error region is rejected, or the body of the response does
    not parse, with the error [e], the flow ends normally: the error
    region displays [Error: ] followed by the message of [e], the
    loading indicator is hidden, the result region is as it was, and no
    chart is constructed, destroyed or registered.  The sentiment test
    logs [e] to the console and changes nothing else. *)
Theorem request_rejected_shown (rt : Runtime) :
  each_request_flow rt (λ P flow f,
    ∀ w e w' fl,
      resume (flow w) (Rejected e) w' = Some fl →
      served [loading f; error f; results f] w' = true →
      ∃ w'', fl = Done (Ok () w'')
             ∧ displays (error f) ("Error: " +:+ message e) w''
             ∧ untouched (results f) w' w''
             ∧ is_hidden (loading f) w''
             ∧ same_charts w' w'' ∧ console w'' = console w')
  ∧ ∀ w e w' fl,
      resume (testSentiment rt w) (Rejected e) w' = Some fl →
      fl = Done (Ok () (logged e w')).
Proof.
  unfold each_request_flow. split_and!;
    cbn [required optional loading error results prompt];
    intros w e w' fl.
  1-6: to_request_flow; intros ->%request_flow_resume Hs;
       by apply on_outcome_rejected.
  rewrite testSentiment_unfold.
  destruct (field _ _ _) as [v w1|]; [|done]. destruct (falsy v); [done|].
  by intros [= <-].
Qed.

Lemma request_rejected_shown_witness :
  each_request_flow sample_runtime (λ P flow f,
    served [loading f; error f; results f] (sample_world "7") = true
    ∧ ∃ fl w'',
        resume (flow (sample_world "7")) (Rejected (Error "Failed to fetch"))
               (sample_world "7") = Some fl
        ∧ fl = Done (Ok () w'')
        ∧ displays (error f) "Error: Failed to fetch" w''
        ∧ is_hidden (loading f) w'').
Proof.
  destruct (request_rejected_shown sample_runtime)
    as ((H1 & H2 & H3 & H4 & H5 & H6) & _).
  unfold each_request_flow.
  split_and!; cbn [loading error results];
    lazymatch goal with
    | |- served _ _ = true => vm_compute; reflexivity
    | |- _ => idtac
    end.
  - destruct (H1 (sample_world "7") (Error "Failed to fetch") (sample_world "7")
                _ eq_refl) as (w'' & ? & ? & ? & ? & ?);
      [vm_compute; reflexivity|]. by eexists _, w''.
  - destruct (H2 (sample_world "7") (Error "Failed to fetch") (sample_world "7")
                _ eq_refl) as (w'' & ? & ? & ? & ? & ?);
      [vm_compute; reflexivity|]. by eexists _, w''.
  - destruct (H3 (sample_world "7") (Error "Failed to fetch") (sample_world "7")
                _ eq_refl) as (w'' & ? & ? & ? & ? & ?);
      [vm_compute; reflexivity|]. by eexists _, w''.
  - destruct (H4 (sample_world "7") (Error "Failed to fetch") (sample_world "7")
                _ eq_refl) as (w'' & ? & ? & ? & ? & ?);
      [vm_compute; reflexivity|]. by eexists _, w''.
  - destruct (H5 (sample_world "7") (Error "Failed to fetch") (sample_world "7")
                _ eq_refl) as (w'' & ? & ? & ? & ? & ?);
      [vm_compute; reflexivity|]. by eexists _, w''.
  - destruct (H6 (sample_world "7") (Error "Failed to fetch") (sample_world "7")
                _ eq_refl) as (w'' & ? & ? & ? & ? & ?);
      [vm_compute; reflexivity|]. by eexists _, w''.
Defined.

(** ** Before the request *)

Section BeforeRequest.
Context (rt : Runtime).
Implicit Types (w : World) (id : string).

Lemma input_value_frame id w w' :
  (∃ i e, static_element id w = Some (i, e)) →
  (∀ ie, static_element id w = Some ie → static_element id w' = Some ie) →
  input_value id w' = input_value id w.
Proof.
  intros (i & e & H) Hf. unfold input_value. by rewrite (Hf _ H), H.
Qed.

(** [field] reads and changes nothing. *)
Lemma field_cases id w :
  (∃ v, field rt id w = Ok v w)
  ∨ (Dom.find_id id (page w) = None
     ∧ field rt id w = Throw (Error (type_error_message rt "value")) w).
Proof.
  unfold field, mbind, M_bind.
  destruct (Dom.find_id id (page w)) as [r|] eqn:Hr.
  - left. unfold element, getElementById, gets, mbind, M_bind. rewrite Hr.
    simpl. by eexists.
  - right. split; [done|]. by rewrite (element_missing rt _ _ _ Hr).
Qed.

Lemma field_missing id w :
  Dom.find_id id (page w) = None →
  field rt id w = Throw (Error (type_error_message rt "value")) w.
Proof.
  intros H. destruct (field_cases id w) as [[v Hv]|[_ ?]]; [|done].
  revert Hv. unfold field, mbind, M_bind.
  by rewrite (element_missing rt _ _ _ H).
Qed.

(** The validation message goes up and nothing else changes. *)
Lemma abort_only_error {P} id msg w :
  (∃ i e, static_element id w = Some (i, e)) →
  ∃ w', Done (P:=P) (showError rt id msg w) = Done (Ok () w')
        ∧ (∀ id' ie, id' ≠ id → static_element id' w = Some ie →
                     static_element id' w' = Some ie)
        ∧ same_charts w w' ∧ console w' = console w.
Proof.
  intros (i & e & H).
  destruct (showError_effect rt id msg w i e H)
    as (w' & -> & ? & ? & ? & _ & ?).
  by exists w'.
Qed.

Lemma request_flow_no_loading {P} loading error results req
    (display : P → M unit) w :
  Dom.find_id loading (page w) = None →
  request_flow rt loading error results req display w
  = Done (Throw (Error (type_error_message rt "classList")) w).
Proof.
  intros H. rewrite request_flow_unfold. unfold showLoading, mbind, M_bind.
  by rewrite (element_missing rt _ _ _ H).
Qed.

End BeforeRequest.

(** Rewrite a flow into its validation followed by the request flow. *)
Ltac unfold_flow :=
  first [ rewrite getUserProfile_unfold | rewrite getUserTweets_unfold
        | rewrite analyzeReplies_unfold | rewrite compareUsers_unfold
        | rewrite compareTweets_unfold | rewrite searchAndAnalyze_unfold ].

(** Run the validation of a flow all of whose fields are served and whose
    required fields are filled in ([Hb]). *)
Ltac pass_validation Hs Hb :=
  unfold_flow;
  let Hs' := fresh "Hs" in
  pose proof Hs as Hs'; served_all Hs';
  rewrite !field_served by done;
  rewrite ?falsy_extractTweetId;
  rewrite !falsy_false by (apply Hb; repeat constructor);
  cbn [orb].

(** An identifier is none of the three listed. *)
Ltac not_a_region :=
  rewrite !elem_of_cons, elem_of_nil; intros [?|[?|[?|[]]]]; done.

(** X7.  While the request is pending.  In each of the six flows with an
    error region, once every required field is filled in, the flow
    suspends at its request with the loading indicator active and the
    error and result regions hidden.  The result region keeps what it
    held (only its class is taken away), the input fields hold what they
    held, and no chart is constructed, destroyed or registered. *)
Theorem request_pending_state (rt : Runtime) :
  each_request_flow rt (λ P flow f,
    ∀ w, served (ids_of f) w = true →
         (∀ id, id ∈ required f → input_value id w ≠ "") →
         ∃ w1 req k,
           flow w = Await w1 req k
           ∧ is_active (loading f) w1
           ∧ is_hidden (error f) w1 ∧ is_hidden (results f) w1
           ∧ text_of (results f) w1 = text_of (results f) w
           ∧ (∀ id, id ∈ required f ++ optional f →
                    input_value id w1 = input_value id w)
           ∧ same_charts w w1).
Proof.
  unfold each_request_flow. split_and!;
    cbn [required optional loading error results prompt app];
    intros w Hs Hb; pass_validation Hs Hb;
    lazymatch goal with
    | |- context [request_flow rt ?l ?e ?r ?q ?d w] =>
        destruct (request_flow_pending rt l e r q d w)
          as (w3 & -> & HL & HE & HR & _ & HT & Hframe & Hc & _);
        [done|done|done|by apply served_cons_3_intro|]
    end;
    eexists _, _, _; split_and!; try done;
    intros id Hin;
    repeat (apply elem_of_cons in Hin as [->|Hin];
            [apply input_value_frame;
             [done|intros ie; apply Hframe; not_a_region]|]);
    by apply elem_of_nil in Hin.
Qed.

Lemma request_pending_state_witness :
  each_request_flow sample_runtime (λ P flow f,
    served (ids_of f) (sample_world "nasa") = true
    ∧ (∀ id, id ∈ required f → input_value id (sample_world "nasa") ≠ "")
    ∧ ∃ w1 req k,
        flow (sample_world "nasa") = Await w1 req k
        ∧ is_active (loading f) w1
        ∧ is_hidden (error f) w1 ∧ is_hidden (results f) w1).
Proof.
  destruct (request_pending_state sample_runtime)
    as (H1 & H2 & H3 & H4 & H5 & H6).
  unfold each_request_flow.
  split_and!; cbn [required error];
    lazymatch goal with
    | |- served _ _ = true => vm_compute; reflexivity
    | |- ∀ id, id ∈ _ → _ =>
        let Hin := fresh in intros id Hin; each_nonempty Hin
    | |- _ => idtac
    end.
  - destruct (H1 (sample_world "nasa")) as (w1 & req & k & ? & ? & ? & ? & _);
      [vm_compute; reflexivity|intros id Hin; each_nonempty Hin|].
    by exists w1, req, k.
  - destruct (H2 (sample_world "nasa")) as (w1 & req & k & ? & ? & ? & ? & _);
      [vm_compute; reflexivity|intros id Hin; each_nonempty Hin|].
    by exists w1, req, k.
  - destruct (H3 (sample_world "nasa")) as (w1 & req & k & ? & ? & ? & ? & _);
      [vm_compute; reflexivity|intros id Hin; each_nonempty Hin|].
    by exists w1, req, k.
  - destruct (H4 (sample_world "nasa")) as (w1 & req & k & ? & ? & ? & ? & _);
      [vm_compute; reflexivity|intros id Hin; each_nonempty Hin|].
    by exists w1, req, k.
  - destruct (H5 (sample_world "nasa")) as (w1 & req & k & ? & ? & ? & ? & _);
      [vm_compute; reflexivity|intros id Hin; each_nonempty Hin|].
    by exists w1, req, k.
  - destruct (H6 (sample_world "nasa")) as (w1 & req & k & ? & ? & ? & ? & _);
      [vm_compute; reflexivity|intros id Hin; each_nonempty Hin|].
    by exists w1, req, k.
Defined.

(** X8.  A validation failure touches the error region only.  In each of
    the six flows with an error region, when a required field is empty,
    every served element other than the error region is exactly as it
    was: a result region that showed an earlier analysis still shows it,
    the loading indicator is not touched, and no chart is constructed,
    destroyed or registered. *)
Theorem empty_input_touches_error_only (rt : Runtime) :
  each_request_flow rt (λ P flow f,
    ∀ w id, served (ids_of f) w = true →
            id ∈ required f → input_value id w = "" →
            ∃ w', flow w = Done (Ok () w')
                  ∧ (∀ id' ie, id' ≠ error f →
                               static_element id' w = Some ie →
                               static_element id' w' = Some ie)
                  ∧ same_charts w w' ∧ console w' = console w).
Proof.
  unfold each_request_flow. split_and!;
    cbn [required optional loading error results prompt];
    intros w id Hs Hin Hv; served_all Hs; unfold_flow;
    rewrite !field_served by done; rewrite ?falsy_extractTweetId.
  1-3,6: apply list_elem_of_singleton in Hin as ->; rewrite Hv;
         change (falsy "") with true; cbv iota;
         by apply abort_only_error.
  all: apply elem_of_cons in Hin as [->|Hin%list_elem_of_singleton];
       subst; rewrite Hv; change (falsy "") with true;
       rewrite ?orb_true_r; cbn [orb]; cbv iota;
       by apply abort_only_error.
Qed.

(** The tweets of a user are on the page; the user then clears the field
    and asks again: the analysis stays in view and its chart stays. *)
Lemma empty_input_touches_error_only_witness :
  ∃ w', getUserTweets sample_runtime
          (set_page (Dom.update (Static 3) (Dom.with_value "")) after_user_tweets)
        = Done (Ok () w')
        ∧ is_active "tweetsResults" w'
        ∧ same_charts
            (set_page (Dom.update (Static 3) (Dom.with_value ""))
               after_user_tweets) w'.
Proof.
  destruct (empty_input_touches_error_only sample_runtime)
    as (_ & H & _).
  destruct (H (set_page (Dom.update (Static 3) (Dom.with_value ""))
                 after_user_tweets) "tweetsUsername")
    as (w' & Hrun & Hframe & Hc & _).
  - vm_compute. reflexivity.
  - apply list_elem_of_here.
  - vm_compute. reflexivity.
  - exists w'. split; [exact Hrun|]. split; [|exact Hc].
    eexists _, _. split.
    + apply Hframe; [done|]. vm_compute. reflexivity.
    + vm_compute. reflexivity.
Defined.

(** Read the fields of a flow on a page that lacks one of them ([Hnone]). *)
Ltac missing_field rt w Hnone :=
  repeat lazymatch goal with
    | |- context [field rt ?x w] =>
        let Hv := fresh "Hv" in
        destruct (field_cases rt x w) as [[? Hv]|[_ Hv]]; rewrite Hv; [|done]
    end;
  pose proof (field_missing rt _ _ Hnone); congruence.

(** X9.  An element of the page that is missing.  A flow whose input
    field is not in the document ends at once in the [TypeError] of
    reading [value] of [null]: nothing is changed and no request is
    issued.  When the fields are there and filled in and the loading
    indicator is missing, the flow ends in the [TypeError] of reading
    [classList] of [null], outside the [try]: no request is issued and
    no message is shown. *)
Theorem missing_element_rejects (rt : Runtime) :
  each_request_flow rt (λ P flow f,
    (∀ w id, id ∈ required f ++ optional f →
             Dom.find_id id (page w) = None →
             flow w = Done (Throw (Error (type_error_message rt "value")) w))
    ∧ ∀ w, served (required f ++ optional f) w = true →
           (∀ id, id ∈ required f → input_value id w ≠ "") →
           Dom.find_id (loading f) (page w) = None →
           flow w = Done (Throw (Error (type_error_message rt "classList")) w))
  ∧ ∀ w, Dom.find_id "testText" (page w) = None →
         testSentiment rt w
         = Done (Throw (Error (type_error_message rt "value")) w).
Proof.
  unfold each_request_flow. split_and!;
    cbn [required optional loading error results prompt app].
  all: lazymatch goal with
       | |- ∀ w id, id ∈ _ → _ =>
           intros w id Hin Hnone; unfold_flow;
           repeat (apply elem_of_cons in Hin as [->|Hin];
                   [missing_field rt w Hnone|]);
           by apply elem_of_nil in Hin
       | |- ∀ w, served _ _ = true → _ =>
           intros w Hs Hb Hnone; unfold_flow;
           repeat (apply served_cons in Hs as [? Hs]); clear Hs;
           rewrite !field_served by done;
           rewrite ?falsy_extractTweetId;
           rewrite !falsy_false by (apply Hb; repeat constructor);
           cbn [orb]; by apply request_flow_no_loading
       | |- _ =>
           intros w Hnone; rewrite testSentiment_unfold;
           by rewrite (field_missing rt _ _ Hnone)
       end.
Qed.

Lemma missing_element_rejects_witness :
  getUserProfile sample_runtime (initial [])
  = Done (Throw (Error "Cannot read properties of null (reading 'value')")
                (initial []))
  ∧ compareUsers sample_runtime
      (initial [control "input" "compareUser1" [] "a";
                control "input" "compareUser2" [] "b"])
    = Done (Throw (Error "Cannot read properties of null (reading 'classList')")
                  (initial [control "input" "compareUser1" [] "a";
                            control "input" "compareUser2" [] "b"])).
Proof.
  destruct (missing_element_rejects sample_runtime)
    as (([H1 _] & _ & _ & [_ H4] & _) & _).
  split.
  - apply (H1 (initial []) "profileUsername"); [apply list_elem_of_here|].
    reflexivity.
  - apply H4.
    + vm_compute. reflexivity.
    + intros id Hin. each_nonempty Hin.
    + vm_compute. reflexivity.
Defined.

(** ** After the response *)

Section Frames.
Implicit Types (w : World) (id : string) (p : list Element) (r : NodeRef).

Lemma only_at_refl i w : only_at i w w.
Proof. by intros k _. Qed.

Lemma only_at_trans i w1 w2 w3 :
  only_at i w1 w2 → only_at i w2 w3 → only_at i w1 w3.
Proof. intros H12 H23 k Hk. by rewrite H23, H12. Qed.

Lemma only_at_page i w w' : page w' = page w → only_at i w w'.
Proof. intros H k _. by rewrite H. Qed.

Lemma only_at_alter i f w : only_at i w (set_page (alter f i) w).
Proof. intros k Hk. simpl. by rewrite list_lookup_alter_ne. Qed.

Lemma only_at_hidden i k w w' :
  only_at i w w' → k ≠ i → hidden_at k w → hidden_at k w'.
Proof. intros H Hk (e & He & Ha). exists e. by rewrite H. Qed.

Lemma only_at_placed i k id w w' :
  only_at i w w' → k ≠ i → placed id k w → placed id k w'.
Proof. intros H Hk (e & He & Ha). exists e. by rewrite H. Qed.

Lemma static_placed id w i e : static_element id w = Some (i, e) → placed id i w.
Proof. intros (Hi & Hid & _)%static_element_Some. by exists e. Qed.

Lemma placed_distinct a b k w : placed a k w → placed b k w → a = b.
Proof. intros (e & He & Ha) (e' & He' & Hb). congruence. Qed.

(** An identifier that a served element carries is found. *)
Lemma placed_find id k w :
  placed id k w → ∃ r, Dom.find_id id (page w) = Some r.
Proof.
  intros (e & He & Hid).
  destruct (Dom.find_id id (page w)) as [r|] eqn:Hf; [by eexists|].
  rewrite find_id_None in Hf.
  specialize (Hf e (list_elem_of_lookup_2 _ _ _ He)).
  by rewrite (declares_own _ _ Hid) in Hf.
Qed.

Lemma find_Static_placed id k w :
  Dom.find_id id (page w) = Some (Static k) → placed id k w.
Proof.
  unfold Dom.find_id.
  destruct (list_find _ (page w)) as [[i e]|] eqn:Hf; [|done].
  apply list_find_Some in Hf as (Hi & _ & _).
  destruct (Dom.has_id id (node e)) eqn:Hn.
  - intros [= <-]. exists e. split; [done|]. by apply has_id_true.
  - by destruct (list_find _ (kids e)) as [[]|].
Qed.

(** What a change through a node reference does to the served
    elements' own nodes. *)
Lemma update_other r f p k :
  r ≠ Static k → node <$> (Dom.update r f p !! k) = node <$> (p !! k).
Proof.
  intros Hr. destruct r as [i|i j]; simpl.
  - rewrite list_lookup_alter_ne; [done|]. by intros ->.
  - rewrite list_lookup_alter. case_decide; [|done].
    subst. by destruct (p !! k).
Qed.

Lemma update_static f p k :
  node <$> (Dom.update (Static k) f p !! k) = f <$> (node <$> p !! k).
Proof. simpl. rewrite list_lookup_alter_eq. by destruct (p !! k). Qed.

Lemma replace_other r c ks p k :
  r ≠ Static k → node <$> (Dom.replace r c ks p !! k) = node <$> (p !! k).
Proof.
  intros Hr. destruct r as [i|i j]; simpl.
  - rewrite list_lookup_alter_ne; [done|]. by intros ->.
  - rewrite list_lookup_alter. case_decide; [|done].
    subst. by destruct (p !! k).
Qed.

Lemma node_lookup p p' k e :
  node <$> (p' !! k) = node <$> (p !! k) → p !! k = Some e →
  ∃ e', p' !! k = Some e' ∧ node e' = node e.
Proof.
  intros H He. rewrite He in H. destruct (p' !! k) as [e'|]; [|done].
  exists e'. split; [done|]. by injection H.
Qed.

Lemma hidden_at_nodes k w w' :
  node <$> (page w' !! k) = node <$> (page w !! k) →
  hidden_at k w → hidden_at k w'.
Proof.
  intros H (e & He & Ha).
  destruct (node_lookup _ _ _ _ H He) as (e' & He' & Hn).
  exists e'. by rewrite Hn.
Qed.

Lemma placed_nodes id k w w' :
  node <$> (page w' !! k) = node <$> (page w !! k) →
  placed id k w → placed id k w'.
Proof.
  intros H (e & He & Ha).
  destruct (node_lookup _ _ _ _ H He) as (e' & He' & Hn).
  exists e'. by rewrite Hn.
Qed.

(** Taking [active] away, wherever, hides nothing less. *)
Lemma remove_keeps_hidden r k w :
  hidden_at k w →
  hidden_at k (set_page (Dom.update r (Dom.with_classes
                                         (λ s, s ∖ {["active"]}))) w).
Proof.
  intros (e & He & Ha). destruct r as [i|i j]; simpl.
  - unfold hidden_at. simpl. rewrite list_lookup_alter.
    case_decide; [|by exists e]. subst. rewrite He. simpl.
    eexists. split; [done|]. simpl. set_solver.
  - unfold hidden_at. simpl. rewrite list_lookup_alter.
    case_decide; [|by exists e]. subst. rewrite He. simpl.
    eexists. split; [done|]. done.
Qed.

Lemma classes_keep_placed r g id k w :
  placed id k w →
  placed id k (set_page (Dom.update r (Dom.with_classes g)) w).
Proof.
  intros (e & He & Ha). destruct r as [i|i j]; unfold placed; simpl.
  - rewrite list_lookup_alter. case_decide; [|by exists e].
    subst. rewrite He. simpl. by eexists.
  - rewrite list_lookup_alter. case_decide; [|by exists e].
    subst. rewrite He. simpl. by eexists.
Qed.

End Frames.

Section Settling.
Context (rt : Runtime).
Implicit Types (w : World) (id : string).

(** Rendering into a served region and showing it. *)
Lemma render_show_run id html w i e :
  static_element id w = Some (i, e) →
  (render rt id html ≫= λ _, showResults rt id) w
  = Ok () (classes_at (λ s, s ∪ {["active"]}) i (markup_at html i w))
  ∧ static_element id
      (classes_at (λ s, s ∪ {["active"]}) i (markup_at html i w))
    = Some (i, {| node := Dom.with_classes (λ s, s ∪ {["active"]})
                            (Dom.with_content html (node e));
                  kids := parse_markup html |}).
Proof.
  intros H.
  pose proof (static_element_render html (parse_markup html) _ _ _ _ H) as H1.
  change (set_page _ w) with (markup_at html i w) in H1.
  split.
  - erewrite bind_ok by (by eapply render_run).
    by erewrite showResults_run by exact H1.
  - exact (classes_at_self (λ s, s ∪ {["active"]}) _ _ _ _ H1).
Qed.

Lemma render_show_displays id html w i e :
  static_element id w = Some (i, e) →
  displays id html
    (classes_at (λ s, s ∪ {["active"]}) i (markup_at html i w)).
Proof.
  intros H. destruct (render_show_run id html w i e H) as [_ H2].
  eexists _, _. split; [exact H2|]. split; [done|]. simpl. set_solver.
Qed.

Lemma render_show_only_at html w i :
  only_at i w (classes_at (λ s, s ∪ {["active"]}) i (markup_at html i w)).
Proof.
  eapply only_at_trans; [apply only_at_alter|].
  unfold classes_at. apply only_at_alter.
Qed.

(** A computation that leaves the page alone, after another one. *)
Lemma page_kept_bind {A B} (m : M A) (k : A → M B) :
  (∀ w, page (world_of (m w)) = page w) →
  (∀ a w, page (world_of (k a w)) = page w) →
  ∀ w, page (world_of ((m ≫= k) w)) = page w.
Proof.
  intros Hm Hk w. unfold mbind, M_bind. specialize (Hm w).
  destruct (m w) as [a w1|e w1]; simpl in *; [|done]. by rewrite Hk.
Qed.

Lemma charts_page id ty d (rest : M unit) :
  (∀ w, page (world_of (rest w)) = page w) →
  ∀ w, page (world_of ((createChart rt id ty d ≫= λ _, rest) w)) = page w.
Proof.
  intros Hrest. apply page_kept_bind; [apply createChart_page|done].
Qed.

Lemma optional_chart_page id ty (d : option ChartData) w :
  page (world_of (match d with
                  | Some d => createChart rt id ty d
                  | None => mret ()
                  end w)) = page w.
Proof. destruct d; [apply createChart_page|done]. Qed.

(** The display functions with charts change the page in the result
    region only. *)
Lemma rendered_only_at id html (rest : M unit) w i e :
  static_element id w = Some (i, e) →
  (∀ w0, page (world_of (rest w0)) = page w0) →
  only_at i w
    (world_of ((render rt id html
                  ≫= λ _, showResults rt id ≫= λ _, rest) w)).
Proof.
  intros H Hrest.
  destruct (render_show_run id html w i e H) as [Hrun _].
  assert ((render rt id html ≫= λ _, showResults rt id ≫= λ _, rest) w
          = rest (classes_at (λ s, s ∪ {["active"]}) i (markup_at html i w)))
    as ->.
  { revert Hrun. unfold mbind, M_bind.
    destruct (render rt id html w) as [[] w1|]; [|done].
    destruct (showResults rt id w1) as [[] w2|]; [|done].
    by intros [= ->]. }
  eapply only_at_trans; [by apply render_show_only_at|].
  by apply only_at_page.
Qed.

Lemma displayUserProfile_only_at user w i e :
  static_element "profileResults" w = Some (i, e) →
  only_at i w (world_of (displayUserProfile rt user w)).
Proof.
  intros H. unfold displayUserProfile.
  destruct (render_show_run "profileResults" (profile_html rt user) w i e H)
    as [-> _].
  by apply render_show_only_at.
Qed.

Lemma displayUserTweets_only_at data u w i e :
  static_element "tweetsResults" w = Some (i, e) →
  only_at i w (world_of (displayUserTweets rt data u w)).
Proof.
  intros H. unfold displayUserTweets.
  eapply rendered_only_at; [done|].
  apply charts_page, optional_chart_page.
Qed.

Lemma reply_html_pure data w :
  (∃ html, reply_html rt data w = Ok html w)
  ∨ (∃ e, reply_html rt data w = Throw e w).
Proof.
  unfold reply_html.
  destruct (Num.gt _ _); [|left; by eexists].
  destruct (ReplyAnalysis.sentiment_stats _) as [stats|];
    [|right; by eexists].
  destruct (ReplyAnalysis.analyzed_replies _) as [replies|];
    [left|right]; by eexists.
Qed.

Lemma displayReplyAnalysis_only_at data w i e :
  static_element "replyResults" w = Some (i, e) →
  only_at i w (world_of (displayReplyAnalysis rt data w)).
Proof.
  intros H. unfold displayReplyAnalysis.
  destruct (reply_html_pure data w) as [[html Hh]|[x Hx]].
  - erewrite bind_ok by exact Hh.
    eapply rendered_only_at; [done|]. apply optional_chart_page.
  - unfold mbind, M_bind. rewrite Hx. apply only_at_refl.
Qed.

Lemma displayUserComparison_only_at data w i e :
  static_element "compareUsersResults" w = Some (i, e) →
  only_at i w (world_of (displayUserComparison rt data w)).
Proof.
  intros H. unfold displayUserComparison.
  eapply rendered_only_at; [done|].
  apply charts_page, createChart_page.
Qed.

Lemma displayTweetComparison_only_at data w i e :
  static_element "compareTweetsResults" w = Some (i, e) →
  only_at i w (world_of (displayTweetComparison rt data w)).
Proof.
  intros H. unfold displayTweetComparison.
  eapply rendered_only_at; [done|]. apply createChart_page.
Qed.

Lemma displaySearchResults_only_at data w i e :
  static_element "searchResults" w = Some (i, e) →
  only_at i w (world_of (displaySearchResults rt data w)).
Proof.
  intros H. unfold displaySearchResults.
  eapply rendered_only_at; [done|].
  apply charts_page, optional_chart_page.
Qed.

(** The [catch] branch wherever its two regions are found: it returns,
    and a loading indicator that was hidden stays hidden. *)
Lemma handler_settles loading error msg w iL iE :
  loading ≠ error →
  placed loading iL w → placed error iE w → hidden_at iL w →
  ∃ w', (hideLoading rt loading ≫= λ _, showError rt error msg) w = Ok () w'
        ∧ hidden_at iL w'.
Proof.
  intros Hne HL HE Hh.
  destruct (placed_find _ _ _ HL) as [r Hr].
  set (w1 := set_page (Dom.update r (Dom.with_classes
                                      (λ s, s ∖ {["active"]}))) w).
  assert (hideLoading rt loading w = Ok () w1) as Hrun1.
  { unfold hideLoading, element, getElementById, gets, mbind, M_bind.
    by rewrite Hr. }
  assert (placed error iE w1) as HE1 by (by apply classes_keep_placed).
  assert (placed loading iL w1) as HL1 by (by apply classes_keep_placed).
  assert (hidden_at iL w1) as Hh1 by (by apply remove_keeps_hidden).
  destruct (placed_find _ _ _ HE1) as [r' Hr'].
  assert (r' ≠ Static iL) as Hr'L.
  { intros ->. apply find_Static_placed in Hr'.
    apply Hne. by eapply placed_distinct. }
  eexists. split.
  - erewrite bind_ok by exact Hrun1.
    unfold showError, assignee, getElementById, gets, mbind, M_bind.
    rewrite Hr'. simpl. reflexivity.
  - eapply hidden_at_nodes; [|exact Hh1]. simpl.
    by rewrite update_other, replace_other.
Qed.

End Settling.

Section Settled.
Context (rt : Runtime) {P : Type}.
Context (loading error results : string) (display : P → M unit).
Implicit Types (w : World).

(** A failure reply or a rejection, on a page that serves the regions:
    the served loading indicator ends hidden. *)
Lemma error_path_hidden msg w' iL eL :
  loading ≠ error →
  served [loading; error; results] w' = true →
  static_element loading w' = Some (iL, eL) →
  ∃ w'', (hideLoading rt loading ≫= λ _, showError rt error msg) w'
         = Ok () w''
         ∧ hidden_at iL w''.
Proof.
  intros HLE (_ & HE & _)%served_cons_3 HL.
  destruct HE as (iE & eE & HE).
  erewrite bind_ok by (by eapply hideLoading_run).
  pose proof (classes_at_self (λ s, s ∖ {["active"]}) _ _ _ _ HL) as HL1.
  pose proof (classes_at_frame (λ s, s ∖ {["active"]}) _ _ _ _ _ _
                HL (not_eq_sym HLE) HE) as HE1.
  erewrite showError_run by exact HE1.
  eexists. split; [done|].
  assert (iL ≠ iE) as Hne.
  { intros ->. apply HLE. by eapply static_element_distinct. }
  apply static_element_lookup in HL1. unfold hidden_at.
  unfold text_at at 1, classes_at at 1. cbn [page set_page].
  rewrite !list_lookup_alter_ne by done. rewrite HL1.
  eexists. split; [done|]. simpl. set_solver.
Qed.

Lemma on_outcome_error_hidden o w' iL eL :
  (∀ p, o ≠ Reply (Success p)) →
  loading ≠ error →
  served [loading; error; results] w' = true →
  static_element loading w' = Some (iL, eL) →
  ∃ w'', on_outcome rt loading error display o w' = Done (Ok () w'')
         ∧ hidden_at iL w''.
Proof.
  intros Ho HLE Hs HL.
  destruct o as [[p|X]|e]; [by destruct (Ho p)|..].
  - destruct (error_path_hidden X w' iL eL HLE Hs HL) as (w'' & Hrun & Hh).
    exists w''. split; [|done]. revert Hrun.
    unfold on_outcome, async_try, mbind, Async_bind, sync, M_bind. simpl.
    destruct (hideLoading rt loading w') as [[] w1|]; [|done]. simpl.
    by intros ->.
  - destruct (error_path_hidden ("Error: " +:+ message e) w' iL eL HLE Hs HL)
      as (w'' & Hrun & Hh).
    exists w''. split; [|done]. revert Hrun.
    unfold on_outcome, async_try, mbind, Async_bind, sync, M_bind. simpl.
    destruct (hideLoading rt loading w') as [[] w1|]; [|done]. simpl.
    by intros ->.
Qed.

(** Whatever the outcome, the continuation of a request flow returns
    and the served loading indicator ends hidden, provided the display
    function writes to the result region only. *)
Lemma on_outcome_settles o w' iL eL :
  loading ≠ error → loading ≠ results → error ≠ results →
  (∀ p w i e, static_element results w = Some (i, e) →
              only_at i w (world_of (display p w))) →
  served [loading; error; results] w' = true →
  static_element loading w' = Some (iL, eL) →
  ∃ w'', on_outcome rt loading error display o w' = Done (Ok () w'')
         ∧ hidden_at iL w''.
Proof.
  intros HLE HLR HER Honly Hs HL.
  destruct o as [[p|X]|e];
    [|by eapply on_outcome_error_hidden..].
  apply served_cons_3 in Hs as (_ & HE & HR & _).
  destruct HE as (iE & eE & HE), HR as (iR & eR & HR).
  rewrite (on_outcome_success rt _ _ _ _ _ _ _ HL).
  pose proof (classes_at_self (λ s, s ∖ {["active"]}) _ _ _ _ HL) as HL1.
  pose proof (classes_at_frame (λ s, s ∖ {["active"]}) _ _ _ _ _ _
                HL (not_eq_sym HLE) HE) as HE1.
  pose proof (classes_at_frame (λ s, s ∖ {["active"]}) _ _ _ _ _ _
                HL (not_eq_sym HLR) HR) as HR1.
  assert (iL ≠ iR) as HiLR.
  { intros ->. apply HLR. by eapply static_element_distinct. }
  assert (iE ≠ iR) as HiER.
  { intros ->. apply HER. by eapply static_element_distinct. }
  assert (hidden_at iL (classes_at (λ s, s ∖ {["active"]}) iL w')) as Hh1.
  { eexists. split; [by eapply static_element_lookup|]. simpl. set_solver. }
  pose proof (Honly p _ _ _ HR1) as Hd.
  destruct (display p _) as [[] w2|x w2]; simpl in Hd.
  - exists w2. split; [done|]. by eapply only_at_hidden.
  - destruct (handler_settles rt loading error ("Error: " +:+ message x)
                w2 iL iE HLE) as (w3 & -> & Hh3).
    + eapply only_at_placed; [done..|]. by eapply static_placed.
    + eapply only_at_placed; [done..|]. by eapply static_placed.
    + by eapply only_at_hidden.
    + by exists w3.
Qed.

End Settled.

(** Apply [on_outcome_settles] to the continuation in the goal; what is
    left is that the display function writes to the result region only. *)
Ltac settle rt Hs HL :=
  lazymatch goal with
  | |- context [on_outcome rt ?l ?er ?d ?o ?w'] =>
      lazymatch type of Hs with
      | served [_; _; ?r] _ = _ =>
          lazymatch type of HL with
          | _ = Some (?iL, ?eL) =>
              let w'' := fresh "w''" in
              let Hrun := fresh "Hrun" in
              let Hh := fresh "Hh" in
              destruct (on_outcome_settles rt l er r d o w' iL eL)
                as (w'' & Hrun & Hh);
              [done|done|done| |exact Hs|exact HL
              |exists w'', iL, eL; split_and!; [exact Hrun|done..]]
          end
      end
  end.

(** X10.  No exception escapes a flow once its request is out, and the
    loading indicator always goes off.  In each of the six flows with an
    error region, whatever arrives (a success reply with any payload, a
    failure reply, a rejection) and whatever the display function does
    with it, the flow ends normally and the served loading indicator is
    hidden, as long as the page still serves the three regions of the
    feature when the outcome arrives.  The sentiment test ends normally
    on every outcome and every page. *)
Theorem flows_always_settle (rt : Runtime) :
  each_request_flow rt (λ P flow f,
    ∀ w o w' fl,
      resume (flow w) o w' = Some fl →
      served [loading f; error f; results f] w' = true →
      ∃ w'' i e, fl = Done (Ok () w'')
                 ∧ static_element (loading f) w' = Some (i, e)
                 ∧ hidden_at i w'')
  ∧ ∀ w o w' fl,
      resume (testSentiment rt w) o w' = Some fl → ∃ w'', fl = Done (Ok () w'').
Proof.
  unfold each_request_flow. split_and!;
    cbn [required optional loading error results prompt];
    intros w o w' fl.
  1-6: to_request_flow; intros ->%request_flow_resume Hs;
       pose proof Hs as ((iL & eL & HL) & _)%served_cons;
       settle rt Hs HL; intros ? ? ? ? ?.
  - by eapply displayUserProfile_only_at.
  - by eapply displayUserTweets_only_at.
  - by eapply displayReplyAnalysis_only_at.
  - by eapply displayUserComparison_only_at.
  - by eapply displayTweetComparison_only_at.
  - by eapply displaySearchResults_only_at.
  - rewrite testSentiment_unfold.
    destruct (field _ _ _) as [v w1|]; [|done]. destruct (falsy v); [done|].
    intros [= <-]. destruct o as [[data|X]|e]; [|by eexists..].
    unfold on_sentiment, async_try, mbind, Async_bind, sync. simpl.
    destruct (render rt "testResults" _ w') as [[] w2|x w2]; simpl;
      [|by eexists].
    destruct (showResults rt "testResults" w2) as [[] w3|x w3]; by eexists.
Qed.

(** The reply analysis gets a series and no canvas to draw it on: the
    chart helper throws inside the display function, and the flow still
    ends normally with the loading indicator hidden. *)
Lemma flows_always_settle_witness :
  ∃ fl w'' i e,
    resume (analyzeReplies sample_runtime (sample_world "1"))
           (Reply (Success series_without_replies)) (sample_world "1") = Some fl
    ∧ fl = Done (Ok () w'')
    ∧ static_element "replyLoading" (sample_world "1") = Some (i, e)
    ∧ hidden_at i w''.
Proof.
  destruct (flows_always_settle sample_runtime) as ((_ & _ & H & _) & _).
  destruct (H (sample_world "1") (Reply (Success series_without_replies))
              (sample_world "1") _ eq_refl) as (w'' & i & e & ? & ? & ?).
  - vm_compute. reflexivity.
  - by eexists _, w'', i, e.
Defined.

(** X11.  The two flows that draw no chart.  A success reply to the
    profile lookup ends with the result region displaying the profile
    markup of the payload and the served loading indicator hidden; a
    success reply to the sentiment test ends with its result region
    displaying the markup of the badge.  Neither constructs, destroys or
    registers a chart. *)
Theorem chartless_success_rendered (rt : Runtime) :
  (∀ w user w' fl,
     resume (getUserProfile rt w) (Reply (Success user)) w' = Some fl →
     served ["profileLoading"; "profileResults"] w' = true →
     ∃ w'' i e, fl = Done (Ok () w'')
                ∧ displays "profileResults" (profile_html rt user) w''
                ∧ static_element "profileLoading" w' = Some (i, e)
                ∧ hidden_at i w''
                ∧ same_charts w' w'')
  ∧ ∀ w data w' fl,
      resume (testSentiment rt w) (Reply (Success data)) w' = Some fl →
      served ["testResults"] w' = true →
      ∃ w'', fl = Done (Ok () w'')
             ∧ displays "testResults" (sentiment_html rt data) w''
             ∧ same_charts w' w''.
Proof.
  split.
  - intros w user w' fl. to_request_flow.
    intros ->%request_flow_resume Hs.
    apply served_cons in Hs as ((iL & eL & HL) & Hs).
    apply served_cons in Hs as ((iR & eR & HR) & _).
    rewrite (on_outcome_success rt _ _ _ _ _ _ _ HL).
    pose proof (classes_at_self (λ s, s ∖ {["active"]}) _ _ _ _ HL) as HL1.
    assert ("profileResults" ≠ "profileLoading") as Hne by done.
    pose proof (classes_at_frame (λ s, s ∖ {["active"]}) _ _ _ _ _ _
                  HL Hne HR) as HR1.
    unfold displayUserProfile.
    destruct (render_show_run rt "profileResults" (profile_html rt user)
                _ _ _ HR1) as [-> _].
    eexists _, iL, eL. split_and!; [done| |done| |done].
    + by eapply render_show_displays.
    + eapply only_at_hidden; [apply render_show_only_at| |].
      * intros ->. apply Hne. symmetry. by eapply static_element_distinct.
      * eexists. split; [by eapply static_element_lookup|]. simpl. set_solver.
  - intros w data w' fl. rewrite testSentiment_unfold.
    destruct (field _ _ _) as [v w1|]; [|done]. destruct (falsy v); [done|].
    intros [= <-] ((iR & eR & HR) & _)%served_cons.
    unfold on_sentiment, async_try, mbind, Async_bind, sync. simpl.
    destruct (render_show_run rt "testResults" (sentiment_html rt data)
                _ _ _ HR) as [Hrun _].
    revert Hrun. unfold mbind, M_bind.
    destruct (render rt "testResults" _ w') as [[] w2|]; [|done]. simpl.
    intros ->. simpl. eexists. split_and!; [done| |done].
    by eapply render_show_displays.
Qed.

Lemma chartless_success_rendered_witness :
  ∃ fl w'',
    resume (testSentiment sample_runtime (sample_world "Good!"))
           (Reply (Success sample_sentiment)) (sample_world "Good!") = Some fl
    ∧ fl = Done (Ok () w'')
    ∧ displays "testResults" (sentiment_html sample_runtime sample_sentiment) w''.
Proof.
  destruct (chartless_success_rendered sample_runtime) as [_ H].
  destruct (H (sample_world "Good!") sample_sentiment (sample_world "Good!")
              _ eq_refl) as (w'' & ? & ? & _).
  - vm_compute. reflexivity.
  - by eexists _, w''.
Defined.

(** ** More on [createChart] *)

Section Charts.
Context (rt : Runtime).
Implicit Types (w : World) (id : string).

(** The part of [createChart] after the old chart is out of the way. *)
Local Notation draw id ty d w1 :=
  (match Dom.find_id id (page w1) with
   | Some c =>
       if bool_decide (tag <$> Dom.get c (page w1) = Some "canvas")
       then register_new_Chart id ty d w1
       else Throw (Error (type_error_message rt "getContext")) w1
   | None => Throw (Error (type_error_message rt "getContext")) w1
   end).

Lemma createChart_unfold id ty d w :
  createChart rt id ty d w
  = match chartInstances w !! id with
    | Some h => draw id ty d (world_of (destroy h w))
    | None =>
        if bool_decide (id ∈ Object_prototype)
        then Throw (Error (type_error_message rt "destroy")) w
        else draw id ty d w
    end.
Proof.
  unfold createChart, element, getElementById, gets, mbind, M_bind. simpl.
  destruct (chartInstances w !! id) as [h|]; simpl.
  - destruct (Dom.find_id id (page w)) as [c|]; simpl; [|done].
    by case_bool_decide.
  - case_bool_decide; simpl; [done|].
    destruct (Dom.find_id id (page w)) as [c|]; simpl; [|done].
    by case_bool_decide.
Qed.

Lemma is_canvas_draw id w :
  is_canvas id w ↔
  ∃ c, Dom.find_id id (page w) = Some c
       ∧ tag <$> Dom.get c (page w) = Some "canvas".
Proof.
  split.
  - intros (c & n & Hc & Hn & Ht). exists c. by rewrite Hn, <- Ht.
  - intros (c & Hc & Ht).
    destruct (Dom.get c (page w)) as [n|] eqn:Hn; [|done].
    exists c, n. by simplify_eq/=.
Qed.

Lemma draw_canvas id ty d w :
  is_canvas id w → draw id ty d w = register_new_Chart id ty d w.
Proof.
  intros (c & Hc & Ht)%is_canvas_draw. rewrite Hc.
  by rewrite bool_decide_eq_true_2.
Qed.

Lemma draw_no_canvas id ty d w :
  ¬ is_canvas id w →
  draw id ty d w = Throw (Error (type_error_message rt "getContext")) w.
Proof.
  intros Hno. destruct (Dom.find_id id (page w)) as [c|] eqn:Hc; [|done].
  case_bool_decide as Ht; [|done].
  destruct Hno. apply is_canvas_draw. by exists c.
Qed.

Lemma is_canvas_page id w w' : page w' = page w → is_canvas id w → is_canvas id w'.
Proof. unfold is_canvas. by intros ->. Qed.

Lemma filter_length_pos {A} (Q : A → Prop) `{!∀ x, Decision (Q x)}
    (l : list A) x :
  x ∈ l → Q x → 1 ≤ length (filter Q l).
Proof.
  intros Hx HQ.
  assert (x ∈ filter Q l) as Hin by (by apply list_elem_of_filter).
  destruct (filter Q l); [by apply elem_of_nil in Hin|simpl; lia].
Qed.

(** Killing a chart that is not on the canvas leaves the charts of the
    canvas. *)
Lemma filter_alter_out {A} (Q : A → Prop) `{!∀ x, Decision (Q x)}
    (f : A → A) (l : list A) h :
  (∀ x, l !! h = Some x → ¬ Q x ∧ ¬ Q (f x)) →
  filter Q (alter f h l) = filter Q l.
Proof.
  revert h. induction l as [|x l IH]; intros [|h] Hh; simpl; [done..| |].
  - destruct (Hh x eq_refl) as [H1 H2].
    rewrite !filter_cons. by rewrite !decide_False.
  - change (list_alter f h l) with (alter f h l).
    rewrite !filter_cons. rewrite IH; [done|]. intros y Hy. by apply Hh.
Qed.

Lemma registry_sound_initial p : registry_sound (initial p).
Proof. intros id h H. simpl in H. by rewrite lookup_empty in H. Qed.

Lemma registry_sound_same w w' :
  charts w' = charts w → chartInstances w' = chartInstances w →
  registry_sound w → registry_sound w'.
Proof. unfold registry_sound. by intros -> ->. Qed.

Lemma destroy_sound h w :
  registry_sound w → registry_sound (world_of (destroy h w)).
Proof.
  intros Hs id h' Hreg. destruct (Hs id h' Hreg) as (c & Hc & Hid).
  simpl. rewrite list_lookup_alter. case_decide.
  - subst. rewrite Hc. simpl. by eexists.
  - by exists c.
Qed.

Lemma register_sound id ty d w :
  registry_sound w → registry_sound (world_of (register_new_Chart id ty d w)).
Proof.
  intros Hs id' h' Hreg. simpl in *.
  destruct (decide (id' = id)) as [->|Hne].
  - rewrite lookup_insert_eq in Hreg. injection Hreg as <-.
    rewrite lookup_app_r by done. rewrite Nat.sub_diag. by eexists.
  - rewrite lookup_insert_ne in Hreg by done.
    destruct (Hs id' h' Hreg) as (c & Hc & Hid). exists c.
    rewrite lookup_app_l; [done|]. by eapply lookup_lt_Some.
Qed.

Lemma createChart_sound id ty d : keeps registry_sound (createChart rt id ty d).
Proof.
  intros w Hs. rewrite createChart_unfold.
  destruct (chartInstances w !! id) as [h|].
  - pose proof (destroy_sound h w Hs) as Hs1.
    destruct (Dom.find_id id _); [|done].
    case_bool_decide; [|done]. by apply register_sound.
  - case_bool_decide; [done|].
    destruct (Dom.find_id id _); [|done].
    case_bool_decide; [|done]. by apply register_sound.
Qed.

End Charts.

(** A property of the world that only the charts and the registry bear
    on, and that [createChart] keeps, is kept by the whole script. *)
Section ChartsOnly.
Context (rt : Runtime) (I : World → Prop).
Hypothesis I_same : ∀ w w',
  charts w' = charts w → chartInstances w' = chartInstances w → I w → I w'.
Hypothesis I_createChart : ∀ id ty d, keeps I (createChart rt id ty d).

Lemma page_only f : keeps I (modify (set_page f)).
Proof. apply keeps_modify. intros w. by apply I_same. Qed.

Lemma console_only e : keeps I (console_error e).
Proof. apply keeps_modify. intros w. by apply I_same. Qed.

Lemma element_only id prop : keeps I (element rt id prop).
Proof. unfold element, getElementById. repeat keeps_step. Qed.

Lemma assignee_only id prop : keeps I (assignee rt id prop).
Proof. unfold assignee, getElementById. repeat keeps_step. Qed.

Ltac charts_only :=
  repeat lazymatch goal with
    | |- keeps _ (createChart _ _ _ _) => apply I_createChart
    | |- keeps _ (modify (set_page _)) => apply page_only
    | |- keeps _ (classList_add _ _) => apply page_only
    | |- keeps _ (classList_remove _ _) => apply page_only
    | |- keeps _ (set_value _ _) => apply page_only
    | |- keeps _ (set_innerHTML _ _) => apply page_only
    | |- keeps _ (set_textContent _ _) => apply page_only
    | |- keeps _ (console_error _) => apply console_only
    | |- keeps _ (element _ _ _) => apply element_only
    | |- keeps _ (assignee _ _ _) => apply assignee_only
    | |- _ => keeps_step
    end.

Lemma showError_only id msg : keeps I (showError rt id msg).
Proof. unfold showError. charts_only. Qed.

Lemma field_only id : keeps I (field rt id).
Proof. unfold field, get_value. charts_only. Qed.

Lemma render_only id html : keeps I (render rt id html).
Proof. unfold render. charts_only. Qed.

Lemma switchTab_only tab : keeps I (switchTab rt tab).
Proof. unfold switchTab. charts_only. Qed.

Ltac script_only :=
  repeat lazymatch goal with
    | |- keeps _ (showError _ _ _) => apply showError_only
    | |- keeps _ (field _ _) => apply field_only
    | |- keeps _ (render _ _ _) => apply render_only
    | |- keeps _ (switchTab _ _) => apply switchTab_only
    | |- _ => charts_only
    end.

Lemma displayUserProfile_only user : keeps I (displayUserProfile rt user).
Proof. unfold displayUserProfile, showResults. script_only. Qed.

Lemma displayUserTweets_only data u : keeps I (displayUserTweets rt data u).
Proof. unfold displayUserTweets, showResults. script_only. Qed.

Lemma displayReplyAnalysis_only data : keeps I (displayReplyAnalysis rt data).
Proof. unfold displayReplyAnalysis, reply_html, showResults. script_only. Qed.

Lemma displayUserComparison_only data :
  keeps I (displayUserComparison rt data).
Proof. unfold displayUserComparison, showResults. script_only. Qed.

Lemma displayTweetComparison_only data :
  keeps I (displayTweetComparison rt data).
Proof. unfold displayTweetComparison, showResults. script_only. Qed.

Lemma displaySearchResults_only data : keeps I (displaySearchResults rt data).
Proof. unfold displaySearchResults, showResults. script_only. Qed.

Lemma script_keeps :
  async_keeps I (getUserProfile rt)
  ∧ async_keeps I (getUserTweets rt)
  ∧ async_keeps I (analyzeReplies rt)
  ∧ (∀ tweetId, async_keeps I (analyzeSpecificTweet rt tweetId))
  ∧ async_keeps I (compareUsers rt)
  ∧ async_keeps I (compareTweets rt)
  ∧ async_keeps I (searchAndAnalyze rt)
  ∧ async_keeps I (testSentiment rt)
  ∧ ∀ tabName, keeps I (switchTab rt tabName).
Proof.
  assert (async_keeps I (analyzeReplies rt)) as Hreplies.
  { unfold analyzeReplies, showLoading, hideLoading, hideError, hideResults.
    script_only; apply displayReplyAnalysis_only. }
  split_and!; [| |done| |..].
  - unfold getUserProfile, showLoading, hideLoading, hideError, hideResults.
    script_only; apply displayUserProfile_only.
  - unfold getUserTweets, showLoading, hideLoading, hideError, hideResults.
    script_only; apply displayUserTweets_only.
  - intros tweetId. unfold analyzeSpecificTweet. script_only. done.
  - unfold compareUsers, showLoading, hideLoading, hideError, hideResults.
    script_only; apply displayUserComparison_only.
  - unfold compareTweets, showLoading, hideLoading, hideError, hideResults.
    script_only; apply displayTweetComparison_only.
  - unfold searchAndAnalyze, showLoading, hideLoading, hideError, hideResults.
    script_only; apply displaySearchResults_only.
  - unfold testSentiment, showResults. script_only.
  - apply switchTab_only.
Qed.

End ChartsOnly.

(** X12.  Without a canvas there is no chart, and the old one is gone.
    When the identifier does not resolve to a [canvas] element,
    [createChart] throws: no chart object is constructed, the page and
    the registry are as they were, and the chart that was registered for
    the identifier, if there was one, has been destroyed all the same,
    since the script destroys it before it looks for the canvas.  Every
    other chart object is untouched. *)
Theorem createChart_needs_canvas (rt : Runtime) (id type : string)
    (chartData : ChartData) (w : World) :
  ¬ is_canvas id w →
  ∃ e w', createChart rt id type chartData w = Throw e w'
          ∧ page w' = page w ∧ chartInstances w' = chartInstances w
          ∧ length (charts w') = length (charts w)
          ∧ (∀ h c, chartInstances w !! id = Some h →
                    charts w' !! h = Some c → live c = false)
          ∧ (∀ h, chartInstances w !! id ≠ Some h →
                  charts w' !! h = charts w !! h).
Proof.
  intros Hno. rewrite createChart_unfold.
  destruct (chartInstances w !! id) as [h|] eqn:Hreg.
  - rewrite draw_no_canvas by done.
    eexists _, _. split_and!; [done..| | |]; simpl.
    + by rewrite length_alter.
    + intros h' c [= <-]. rewrite list_lookup_alter_eq.
      destruct (charts w !! h); [|done]. by intros [= <-].
    + intros h' Hh'. rewrite list_lookup_alter_ne; [done|]. congruence.
  - case_bool_decide.
    + by eexists _, _.
    + rewrite draw_no_canvas by done. by eexists _, _.
Qed.

(** On the sample page with the tweets of a user displayed, a chart for
    a canvas the page does not have. *)
Lemma createChart_needs_canvas_witness :
  ∃ e w', createChart sample_runtime "replyChart" "pie" sample_chart
            after_user_tweets = Throw e w'
          ∧ page w' = page after_user_tweets
          ∧ length (charts w') = length (charts after_user_tweets).
Proof.
  destruct (createChart_needs_canvas sample_runtime "replyChart" "pie"
              sample_chart after_user_tweets)
    as (e & w' & H1 & H2 & _ & H3 & _).
  - intros (c & n & Hc & _). vm_compute in Hc. discriminate Hc.
  - exists e, w'. split; [exact H1|]. split; [exact H2|exact H3].
Defined.

(** The run of [createChart] on a canvas. *)
Lemma createChart_run (rt : Runtime) (id type : string)
    (chartData : ChartData) (w : World) :
  is_canvas id w →
  id ∉ Object_prototype ∨ is_Some (chartInstances w !! id) →
  ∃ w', createChart rt id type chartData w = Ok () w'
        ∧ page w' = page w
        ∧ chartInstances w' = <[id := length (charts w)]> (chartInstances w)
        ∧ length (charts w') = S (length (charts w))
        ∧ (∃ h, chartInstances w' !! id = Some h
                ∧ charts w' !! h = Some {| canvas := id; kind := type;
                                           data := chartData; live := true |})
        ∧ (∀ h, h < length (charts w) → chartInstances w !! id ≠ Some h →
                charts w' !! h = charts w !! h).
Proof.
  intros Hcanvas Hkey.
  rewrite createChart_unfold in *.
  assert (∃ w1, match chartInstances w !! id with
                | Some h =>
                    match Dom.find_id id (page (world_of (destroy h w))) with
                    | Some c =>
                        if bool_decide (tag <$> Dom.get c
                                          (page (world_of (destroy h w)))
                                        = Some "canvas")
                        then register_new_Chart id type chartData
                               (world_of (destroy h w))
                        else Throw (Error (type_error_message rt "getContext"))
                               (world_of (destroy h w))
                    | None => Throw (Error (type_error_message rt "getContext"))
                                (world_of (destroy h w))
                    end
                | None =>
                    if bool_decide (id ∈ Object_prototype)
                    then Throw (Error (type_error_message rt "destroy")) w
                    else match Dom.find_id id (page w) with
                         | Some c =>
                             if bool_decide (tag <$> Dom.get c (page w)
                                             = Some "canvas")
                             then register_new_Chart id type chartData w
                             else Throw (Error (type_error_message rt
                                                  "getContext")) w
                         | None => Throw (Error (type_error_message rt
                                                   "getContext")) w
                         end
                end = register_new_Chart id type chartData w1
                ∧ page w1 = page w ∧ chartInstances w1 = chartInstances w
                ∧ length (charts w1) = length (charts w)
                ∧ ∀ h, chartInstances w !! id ≠ Some h →
                       charts w1 !! h = charts w !! h)
    as (w1 & Hrun & Hp & Hr & Hl & Hothers).
  { destruct (chartInstances w !! id) as [h|] eqn:Hreg.
    - exists (world_of (destroy h w)).
      rewrite (draw_canvas rt) by (by eapply is_canvas_page).
      split_and!; [done..| |]; simpl.
      + by rewrite length_alter.
      + intros h' Hh'. rewrite list_lookup_alter_ne; [done|]. congruence.
    - exists w. destruct Hkey as [Hkey|[? [=]]].
      rewrite bool_decide_eq_false_2 by done.
      by rewrite (draw_canvas rt). }
  rewrite Hrun in *. eexists. split; [done|]. simpl.
  split_and!.
  - done.
  - by rewrite Hr, Hl.
  - rewrite length_app, Hl. simpl. lia.
  - exists (length (charts w1)). split; [by rewrite lookup_insert_eq|].
    rewrite lookup_app_r by done. by rewrite Nat.sub_diag.
  - intros h Hlt Hh. rewrite lookup_app_l by lia. by apply Hothers.
Qed.

(** X13.  With a canvas, [createChart] draws.  When the identifier
    resolves to a [canvas] element (and is not a name that every object
    inherits, unless a chart is registered under it), the call returns,
    the page is as it was, the new chart object is the last one
    constructed, carries the given type and data and is live, and the
    registry holds it for the identifier: looking the identifier up
    gives the chart just made.  Every chart object other than the one
    the identifier held is untouched.  When every live chart was the
    registered one before, the canvas has exactly one live chart
    after. *)
Theorem createChart_draws (rt : Runtime) (id type : string)
    (chartData : ChartData) (w : World) :
  is_canvas id w →
  id ∉ Object_prototype ∨ is_Some (chartInstances w !! id) →
  ∃ w', createChart rt id type chartData w = Ok () w'
        ∧ page w' = page w
        ∧ chartInstances w' = <[id := length (charts w)]> (chartInstances w)
        ∧ length (charts w') = S (length (charts w))
        ∧ (∃ h, chartInstances w' !! id = Some h
                ∧ charts w' !! h = Some {| canvas := id; kind := type;
                                           data := chartData; live := true |})
        ∧ (∀ h, h < length (charts w) → chartInstances w !! id ≠ Some h →
                charts w' !! h = charts w !! h)
        ∧ (registry_ok w → live_on id w' = 1).
Proof.
  intros Hcanvas Hkey.
  destruct (createChart_run rt id type chartData w Hcanvas Hkey)
    as (w' & Hrun & Hp & Hr & Hl & (h & Hh & Hch) & Hothers).
  exists w'. split_and!; [done..|by exists h|done|].
  intros Hreg. apply Nat.le_antisymm.
  - pose proof (createChart_ok rt id type chartData w Hreg) as Hok.
    rewrite Hrun in Hok. by apply (registry_ok_one_live id _ Hok).
  - unfold live_on.
    eapply (filter_length_pos _ _ {| canvas := id; kind := type;
                                    data := chartData; live := true |}).
    + by eapply list_elem_of_lookup_2.
    + done.
Qed.

(** A second chart on the canvas that the tweets of a user were drawn
    on. *)
Lemma createChart_draws_witness :
  ∃ w', createChart sample_runtime "tweetsChart" "bar" sample_chart
          after_user_tweets = Ok () w'
        ∧ live_on "tweetsChart" w' = 1.
Proof.
  destruct (createChart_draws sample_runtime "tweetsChart" "bar" sample_chart
              after_user_tweets) as (w' & H1 & _ & _ & _ & _ & _ & Hone).
  - eexists _, _. split_and!; vm_compute; reflexivity.
  - left. apply (bool_decide_eq_false_1 ("tweetsChart" ∈ Object_prototype)).
    vm_compute. reflexivity.
  - exists w'. split; [exact H1|]. apply Hone, after_user_tweets_ok.
Defined.

(** X14.  A chart of another canvas is never touched.  Every entry of the
    registry points at a chart that was built on the canvas the entry is
    for; this holds before the script has run and is kept by
    [createChart] and by every entry point of the script.  Under it, a
    call of [createChart] for one identifier, whether it returns or
    throws, leaves every chart object of every other canvas exactly as
    it was, leaves the registry entries of the other identifiers, and so
    leaves the number of live charts of every other canvas. *)
Theorem createChart_spares_others (rt : Runtime) :
  (∀ p, registry_sound (initial p))
  ∧ (∀ id type chartData, keeps registry_sound (createChart rt id type chartData))
  ∧ (async_keeps registry_sound (getUserProfile rt)
     ∧ async_keeps registry_sound (getUserTweets rt)
     ∧ async_keeps registry_sound (analyzeReplies rt)
     ∧ (∀ tweetId, async_keeps registry_sound (analyzeSpecificTweet rt tweetId))
     ∧ async_keeps registry_sound (compareUsers rt)
     ∧ async_keeps registry_sound (compareTweets rt)
     ∧ async_keeps registry_sound (searchAndAnalyze rt)
     ∧ async_keeps registry_sound (testSentiment rt)
     ∧ ∀ tabName, keeps registry_sound (switchTab rt tabName))
  ∧ ∀ w id type chartData id',
      registry_sound w → id' ≠ id →
      let w' := world_of (createChart rt id type chartData w) in
      chartInstances w' !! id' = chartInstances w !! id'
      ∧ (∀ h c, charts w !! h = Some c → canvas c = id' →
                charts w' !! h = Some c)
      ∧ live_on id' w' = live_on id' w.
Proof.
  split; [|split; [|split]].
  - apply registry_sound_initial.
  - apply createChart_sound.
  - apply script_keeps; [apply registry_sound_same|apply createChart_sound].
  - intros w id type chartData id' Hs Hne. cbv zeta.
    rewrite createChart_unfold.
    assert (∀ w1 : World,
              let w2 := world_of
                (match Dom.find_id id (page w1) with
                 | Some c =>
                     if bool_decide (tag <$> Dom.get c (page w1) = Some "canvas")
                     then register_new_Chart id type chartData w1
                     else Throw (Error (type_error_message rt "getContext")) w1
                 | None => Throw (Error (type_error_message rt "getContext")) w1
                 end) in
              chartInstances w2 !! id' = chartInstances w1 !! id'
              ∧ (∀ h c, charts w1 !! h = Some c → charts w2 !! h = Some c)
              ∧ live_on id' w2 = live_on id' w1) as Hdraw.
    { intros w1. cbv zeta.
      destruct (Dom.find_id id (page w1)) as [c|]; [|done].
      case_bool_decide; [|done]. simpl. split_and!.
      - by rewrite lookup_insert_ne.
      - intros h c' Hc'. rewrite lookup_app_l; [done|].
        by eapply lookup_lt_Some.
      - unfold live_on. simpl. rewrite filter_app, length_app.
        rewrite filter_cons, decide_False; [simpl; lia|].
        intros [? _]. simpl in *. congruence. }
    destruct (chartInstances w !! id) as [h|] eqn:Hreg.
    + destruct (Hs id h Hreg) as (c0 & Hc0 & Hid0).
      destruct (Hdraw (world_of (destroy h w))) as (H1 & H2 & H3).
      split_and!.
      * by rewrite H1.
      * intros h' c Hc Hcan. apply H2. simpl.
        rewrite list_lookup_alter_ne; [done|]. intros ->. congruence.
      * rewrite H3. unfold live_on. simpl. f_equal.
        apply filter_alter_out. intros x Hx.
        assert (x = c0) as -> by congruence.
        split; intros [? _]; simpl in *; congruence.
    + case_bool_decide; [done|].
      destruct (Hdraw w) as (H1 & H2 & H3). split_and!; [done| |done].
      intros h' c Hc _. by apply H2.
Qed.

(** The chart of the tweets tab stays when a chart for another canvas is
    asked for. *)
Lemma createChart_spares_others_witness :
  live_on "tweetsChart"
    (world_of (createChart sample_runtime "replyChart" "pie" sample_chart
                 after_user_tweets))
  = live_on "tweetsChart" after_user_tweets.
Proof.
  destruct (createChart_spares_others sample_runtime) as (Hi & _ & _ & H).
  refine (proj2 (proj2 (H after_user_tweets "replyChart" "pie" sample_chart
                          "tweetsChart" _ _))).
  - exact (displayUserTweets_only sample_runtime registry_sound
             registry_sound_same (createChart_sound sample_runtime)
             sample_tweets "alice" (sample_world "alice") (Hi _)).
  - intros Heq. discriminate Heq.
Defined.

(** ** Markup and what it brings into the page *)

Section Markup.
Context (rt : Runtime).
Implicit Types (w : World) (id : string).
#[local] Arguments String.append !_ _ / : simpl nomatch.

(** The tokenizer runs over a concatenation piece by piece. *)
Lemma scan_app st a b :
  Html.scan st (a +:+ b)
  = Html.scan st a ++ Html.scan (state_after st a) b.
Proof.
  revert st. induction a as [|c a IH]; intros st; simpl; [done|].
  destruct (Html.step st c) as [st' [tg|]]; simpl; by rewrite IH.
Qed.

Lemma state_after_app st a b :
  state_after st (a +:+ b) = state_after (state_after st a) b.
Proof. revert st. induction a as [|c a IH]; intros st; simpl; [done|]. by rewrite IH. Qed.

(** Markup that leaves the tokenizer between tags can be parsed apart
    from what follows it. *)
Lemma parse_markup_app a b :
  state_after Html.Data a = Html.Data →
  parse_markup (a +:+ b) = parse_markup a ++ parse_markup b.
Proof.
  intros H. unfold parse_markup, Html.start_tags.
  by rewrite scan_app, fmap_app, H.
Qed.

(** Whatever follows it, the nodes of a piece of markup come first. *)
Lemma parse_markup_prefix a b :
  ∃ rest, parse_markup (a +:+ b) = parse_markup a ++ rest.
Proof.
  unfold parse_markup, Html.start_tags. rewrite scan_app, fmap_app.
  by eexists.
Qed.

Lemma list_find_app_l {A} (Q : A → Prop) `{!∀ x, Decision (Q x)}
    (l1 l2 : list A) ix :
  list_find Q l1 = Some ix → list_find Q (l1 ++ l2) = Some ix.
Proof.
  destruct ix as [i x]. intros (Hi & HQ & Hmin)%list_find_Some.
  apply list_find_Some. split_and!; [|done|].
  - by apply lookup_app_l_Some.
  - intros j y Hj Hji. apply (Hmin j y); [|done].
    rewrite lookup_app_l in Hj; [done|].
    apply lookup_lt_Some in Hi. lia.
Qed.

Lemma static_element_page id w w' :
  page w' = page w → static_element id w' = static_element id w.
Proof. unfold static_element. by intros ->. Qed.

Lemma displays_page id msg w w' :
  page w' = page w → displays id msg w → displays id msg w'.
Proof.
  intros Hp (i & e & H & ?). exists i, e.
  by rewrite (static_element_page _ _ _ Hp).
Qed.

(** A node inside a served element is what its identifier resolves to
    when nothing else of the page carries or holds the identifier. *)
Lemma find_id_inside id w i e j n :
  page w !! i = Some e → node_id (node e) ≠ Some id →
  list_find (λ n, Dom.has_id id n = true) (kids e) = Some (j, n) →
  only_in id i w →
  Dom.find_id id (page w) = Some (Dynamic i j)
  ∧ Dom.get (Dynamic i j) (page w) = Some n.
Proof.
  intros Hi Hown Hkid Honly.
  assert (Dom.has_id id (node e) = false) as Hn.
  { destruct (Dom.has_id id (node e)) eqn:E; [|done].
    by apply has_id_true in E. }
  assert (list_find (λ e, Dom.declares id e = true) (page w) = Some (i, e))
    as Hfind.
  { apply list_find_Some. split_and!; [done| |].
    - unfold Dom.declares. rewrite Hn. simpl.
      apply list_find_Some in Hkid as (Hj & Hh & _).
      apply existsb_exists. exists n. split; [|done].
      apply list_elem_of_In. by eapply list_elem_of_lookup_2.
    - intros k e' Hk Hki. rewrite (Honly k e' Hk); [done|lia]. }
  split.
  - unfold Dom.find_id. by rewrite Hfind, Hn, Hkid.
  - simpl. rewrite Hi. simpl.
    by apply list_find_Some in Hkid as (Hj & _).
Qed.

Lemma only_in_page id i w w' :
  page w' = page w → only_in id i w → only_in id i w'.
Proof. unfold only_in. by intros ->. Qed.

(** Class changes and the rendering into the element at [i] leave the
    other elements without the identifier. *)
Lemma only_in_classes_at id i g k w :
  only_in id i w → only_in id i (classes_at g k w).
Proof.
  intros H j e. simpl. rewrite list_lookup_alter.
  case_decide as Hjk; [|by apply H]. subst.
  destruct (page w !! j) as [x|] eqn:Hx; [|done]. simpl.
  intros [= <-] Hj. by apply (H j x).
Qed.

Lemma only_in_markup_at id i html w :
  only_in id i w → only_in id i (markup_at html i w).
Proof.
  intros H j e. simpl. intros Hj Hji.
  rewrite list_lookup_alter_ne in Hj by done. by apply (H j e).
Qed.

(** The two canvases of the user comparison come before anything of
    the payload: tokenizing reaches them whatever the payload holds. *)
Lemma users_html_canvases data :
  ∃ ks rest j1 n1 j2 n2,
    parse_markup (users_html rt data) = ks ++ rest
    ∧ list_find (λ n, Dom.has_id "profileCompareChart" n = true) ks
      = Some (j1, n1)
    ∧ tag n1 = "canvas"
    ∧ list_find (λ n, Dom.has_id "sentimentCompareChart" n = true) ks
      = Some (j2, n2)
    ∧ tag n2 = "canvas".
Proof.
  unfold users_html.
  lazymatch goal with
  | |- context [parse_markup (markup ?a +:+ ?b)] =>
      destruct (parse_markup_prefix (markup a) b) as [rest ->];
      exists (parse_markup (markup a)), rest
  end.
  eexists _, _, _, _. split; [done|].
  split_and!; vm_compute; reflexivity.
Qed.

(** The [catch] branch on a page that serves the regions. *)
Lemma catch_branch loading error results msg w :
  loading ≠ error → loading ≠ results → error ≠ results →
  served [loading; error; results] w = true →
  ∃ w'', (hideLoading rt loading ≫= λ _, showError rt error msg) w
         = Ok () w''
         ∧ displays error msg w''
         ∧ untouched results w w''
         ∧ is_hidden loading w''
         ∧ same_charts w w''.
Proof.
  intros HLE HLR HER (HL & HE & HR & _)%served_cons_3.
  destruct HL as (iL & eL & HL), HE as (iE & eE & HE), HR as (iR & eR & HR).
  erewrite bind_ok by (by eapply hideLoading_run).
  pose proof (classes_at_self (λ s, s ∖ {["active"]}) _ _ _ _ HL) as HL1.
  pose proof (classes_at_frame (λ s, s ∖ {["active"]}) _ _ _ _ _ _
                HL (not_eq_sym HLE) HE) as HE1.
  pose proof (classes_at_frame (λ s, s ∖ {["active"]}) _ _ _ _ _ _
                HL (not_eq_sym HLR) HR) as HR1.
  destruct (showError_effect rt error msg _ _ _ HE1)
    as (w'' & Hrun & Hdisp & [Hc Hr] & _ & _ & Hframe).
  rewrite Hrun. exists w''. split_and!; [done..| | |done].
  - exists (iR, eR). split; [done|]. apply Hframe; [by apply not_eq_sym|done].
  - eexists _, _. split; [by apply Hframe|]. simpl. set_solver.
Qed.

End Markup.

(** X15.  A successful user comparison draws both charts, whatever the
    payload holds.  The two canvases stand in the markup before any text
    of the payload, so no user name can take them away.  When the
    response arrives on a page that serves the three regions of the
    feature, where no element outside the result region carries or holds
    the two canvas identifiers, and where the registry is sound, the
    flow ends normally: the result region displays the comparison
    markup, two chart objects were constructed, and the registry holds
    for each canvas a live bar chart with the series of the payload. *)
Theorem comparison_draws_both_charts (rt : Runtime) (w : World)
    (data : CompareUsers.t) (w' : World) (fl : Flow CompareUsers.t unit)
    (i : nat) (e : Element) :
  resume (compareUsers rt w) (Reply (Success data)) w' = Some fl →
  served ["compareUsersLoading"; "compareUsersError"; "compareUsersResults"] w'
  = true →
  static_element "compareUsersResults" w' = Some (i, e) →
  only_in "profileCompareChart" i w' → only_in "sentimentCompareChart" i w' →
  registry_sound w' →
  ∃ w'' h1 h2,
    fl = Done (Ok () w'')
    ∧ displays "compareUsersResults" (users_html rt data) w''
    ∧ length (charts w'') = 2 + length (charts w')
    ∧ chartInstances w'' !! "profileCompareChart" = Some h1
    ∧ charts w'' !! h1
      = Some {| canvas := "profileCompareChart"; kind := "bar";
                data := UserCharts.profile_comparison (CompareUsers.charts data);
                live := true |}
    ∧ chartInstances w'' !! "sentimentCompareChart" = Some h2
    ∧ charts w'' !! h2
      = Some {| canvas := "sentimentCompareChart"; kind := "bar";
                data := UserCharts.sentiment_comparison (CompareUsers.charts data);
                live := true |}.
Proof.
  to_request_flow. intros ->%request_flow_resume Hs HR Hp Hq Hsound.
  pose proof Hs as ((iL & eL & HL) & _)%served_cons.
  rewrite (on_outcome_success rt _ _ _ _ _ _ _ HL).
  set (wh := classes_at (λ s, s ∖ {["active"]}) iL w').
  assert ("compareUsersResults" ≠ "compareUsersLoading") as Hne by done.
  pose proof (classes_at_frame (λ s, s ∖ {["active"]}) _ _ _ _ _ _
                HL Hne HR) as HR1.
  fold wh in HR1. unfold displayUserComparison.
  set (html := users_html rt data).
  destruct (render_show_run rt "compareUsersResults" html wh i e HR1)
    as [Hrun HR2].
  set (wr := classes_at (λ s, s ∪ {["active"]}) i (markup_at html i wh)) in *.
  assert (∀ rest : M unit,
            (render rt "compareUsersResults" html
               ≫= λ _, showResults rt "compareUsersResults" ≫= λ _, rest) wh
            = rest wr) as Hstart.
  { intros rest. revert Hrun. unfold mbind, M_bind.
    destruct (render rt _ html wh) as [[] wa|]; [|done].
    destruct (showResults rt _ wa) as [[] wb|]; [|done]. by intros [= ->]. }
  rewrite Hstart. clear Hstart Hrun.
  (* the two canvases of the rendered markup *)
  destruct (users_html_canvases rt data)
    as (ks & rest & j1 & n1 & j2 & n2 & Hks & Hf1 & Ht1 & Hf2 & Ht2).
  fold html in Hks.
  pose proof (static_element_lookup _ _ _ _ HR2) as Hi2.
  assert (∀ id, only_in id i w' → only_in id i wr) as Honly.
  { intros id H. by apply only_in_classes_at, only_in_markup_at,
                          only_in_classes_at. }
  pose proof (proj1 (static_element_Some _ _ _ _) HR) as (_ & Hid & _).
  assert (is_canvas "profileCompareChart" wr) as Hc1.
  { destruct (find_id_inside "profileCompareChart" wr i _ j1 n1 Hi2)
      as [Hfind Hget]; [| |by apply Honly|by exists (Dynamic i j1), n1].
    - simpl. rewrite Hid. by intros [=].
    - cbn [kids]. rewrite Hks. by apply list_find_app_l. }
  assert (is_canvas "sentimentCompareChart" wr) as Hc2.
  { destruct (find_id_inside "sentimentCompareChart" wr i _ j2 n2 Hi2)
      as [Hfind Hget]; [| |by apply Honly|by exists (Dynamic i j2), n2].
    - simpl. rewrite Hid. by intros [=].
    - cbn [kids]. rewrite Hks. by apply list_find_app_l. }
  (* the first chart *)
  destruct (createChart_run rt "profileCompareChart" "bar"
              (UserCharts.profile_comparison (CompareUsers.charts data)) wr Hc1)
    as (wc & Hrun3 & Hp3 & Hr3 & Hl3 & (h1 & Hh1 & Hch1) & _).
  { left. apply (bool_decide_eq_false_1 (_ ∈ Object_prototype)).
    vm_compute. reflexivity. }
  erewrite bind_ok by exact Hrun3.
  rewrite Hr3, lookup_insert_eq in Hh1. injection Hh1 as <-.
  (* the second chart *)
  destruct (createChart_run rt "sentimentCompareChart" "bar"
              (UserCharts.sentiment_comparison (CompareUsers.charts data)) wc)
    as (wd & Hrun4 & Hp4 & Hr4 & Hl4 & (h2 & Hh2 & Hch2) & Hrest4).
  { by eapply is_canvas_page. }
  { left. apply (bool_decide_eq_false_1 (_ ∈ Object_prototype)).
    vm_compute. reflexivity. }
  rewrite Hrun4. exists wd, (length (charts wr)), h2.
  split_and!; [done| | | | |done|done].
  - apply (displays_page _ _ wr); [by rewrite Hp4, Hp3|].
    eexists _, _. split; [exact HR2|]. split; [done|]. simpl. set_solver.
  - rewrite Hl4, Hl3. done.
  - rewrite Hr4, lookup_insert_ne by done. by rewrite Hr3, lookup_insert_eq.
  - rewrite Hrest4; [done|lia|].
    rewrite Hr3, lookup_insert_ne by done. intros Hreg.
    destruct (Hsound _ _ Hreg) as (c & Hc & _).
    apply lookup_lt_Some in Hc.
    change (charts w') with (charts wr) in Hc. lia.
Qed.

(** On the sample page, with user names that are themselves markup. *)
Lemma comparison_draws_both_charts_witness :
  ∃ fl w'' h1 h2,
    resume (compareUsers sample_runtime (sample_world "a"))
      (Reply (Success sample_comparison)) (sample_world "a") = Some fl
    ∧ fl = Done (Ok () w'')
    ∧ chartInstances w'' !! "profileCompareChart" = Some h1
    ∧ chartInstances w'' !! "sentimentCompareChart" = Some h2.
Proof.
  edestruct (comparison_draws_both_charts sample_runtime (sample_world "a")
               sample_comparison (sample_world "a") _ 21
               (control "div" "compareUsersResults" ["results"] "") eq_refl)
    as (w'' & h1 & h2 & H1 & _ & _ & H2 & _ & H3 & _).
  - vm_compute. reflexivity.
  - vm_compute. reflexivity.
  - intros k x Hk Hne.
    assert (k < 34) as Hlt by (apply lookup_lt_Some in Hk; exact Hk).
    do 34 (destruct k as [|k]; [injection Hk as <-; reflexivity|]). lia.
  - intros k x Hk Hne.
    assert (k < 34) as Hlt by (apply lookup_lt_Some in Hk; exact Hk).
    do 34 (destruct k as [|k]; [injection Hk as <-; reflexivity|]). lia.
  - apply registry_sound_initial.
  - eexists _, w'', h1, h2. split; [reflexivity|].
    split; [exact H1|]. split; [exact H2|exact H3].
Defined.

(** X16.  A payload that reports replies and lacks what goes with them.
    When a successful reply analysis has [total_replies] above zero and
    no [sentiment_stats], or no [analyzed_replies], the display function
    throws at the first read of the missing part, before anything is
    rendered.  The flow reports it: the error region displays [Error: ]
    followed by the message of the [TypeError], the result region is as
    it was, the loading indicator is hidden and no chart is touched. *)
Theorem replies_without_stats_reported (rt : Runtime) (w : World)
    (data : TweetReplies.t) (w' : World) (fl : Flow TweetReplies.t unit)
    (prop : string) :
  resume (analyzeReplies rt w) (Reply (Success data)) w' = Some fl →
  served ["replyLoading"; "replyError"; "replyResults"] w' = true →
  Num.gt (ReplyAnalysis.total_replies (TweetReplies.reply_analysis data))
         (Num.of_Z 0) = true →
  missing_of (TweetReplies.reply_analysis data) = Some prop →
  ∃ w'', fl = Done (Ok () w'')
         ∧ displays "replyError" ("Error: " +:+ type_error_message rt prop) w''
         ∧ untouched "replyResults" w' w''
         ∧ is_hidden "replyLoading" w''
         ∧ same_charts w' w''.
Proof.
  to_request_flow. intros ->%request_flow_resume Hs Hgt Hmiss.
  pose proof Hs as ((iL & eL & HL) & _)%served_cons.
  rewrite (on_outcome_success rt _ _ _ _ _ _ _ HL).
  set (wh := classes_at (λ s, s ∖ {["active"]}) iL w').
  assert (displayReplyAnalysis rt data wh
          = Throw (Error (type_error_message rt prop)) wh) as ->.
  { unfold displayReplyAnalysis, reply_html, mbind, M_bind.
    rewrite Hgt. unfold missing_of in Hmiss.
    destruct (ReplyAnalysis.sentiment_stats _) as [stats|]; simpl.
    - destruct (ReplyAnalysis.analyzed_replies _) as [replies|]; [done|].
      simpl. by injection Hmiss as <-.
    - by injection Hmiss as <-. }
  assert (served ["replyLoading"; "replyError"; "replyResults"] wh = true)
    as Hs1.
  { apply served_cons_3 in Hs as (_ & (iE & eE & HE) & (iR & eR & HR) & _).
    apply served_cons_3_intro.
    - eexists _, _. by apply classes_at_self.
    - destruct (classes_at_served (λ s, s ∖ {["active"]}) iL _ _ _ _ HE)
        as [x Hx]. by exists iE, x.
    - destruct (classes_at_served (λ s, s ∖ {["active"]}) iL _ _ _ _ HR)
        as [x Hx]. by exists iR, x. }
  destruct (catch_branch rt "replyLoading" "replyError" "replyResults"
              ("Error: " +:+ type_error_message rt prop) wh)
    as (w'' & Hrun & Hd & Hu & Hh & Hc); [done..|].
  simpl. rewrite Hrun. exists w''. split_and!; [done..| |done|done].
  destruct Hu as (ie & Hie1 & Hie2). exists ie. split; [|done].
  apply served_cons_3 in Hs as (_ & _ & (iR & eR & HR) & _).
  assert ("replyResults" ≠ "replyLoading") as Hne by done.
  pose proof (classes_at_frame (λ s, s ∖ {["active"]}) _ _ _ _ _ _
                HL Hne HR) as HR1.
  fold wh in HR1. congruence.
Qed.

Lemma replies_without_stats_reported_witness :
  ∃ fl w'',
    resume (analyzeReplies sample_runtime (sample_world "1"))
      (Reply (Success replies_without_stats)) (sample_world "1") = Some fl
    ∧ fl = Done (Ok () w'')
    ∧ displays "replyError"
        "Error: Cannot read properties of null (reading 'positive_pct')" w''.
Proof.
  edestruct (replies_without_stats_reported sample_runtime (sample_world "1")
               replies_without_stats (sample_world "1") _ "positive_pct"
               eq_refl)
    as (w'' & H1 & H2 & _).
  - vm_compute. reflexivity.
  - vm_compute. reflexivity.
  - reflexivity.
  - eexists _, w''. split; [reflexivity|]. split; [exact H1|exact H2].
Defined.

(** ** What the display functions put together *)

Section Accumulated.
Context (rt : Runtime).
Implicit Types (w : World).
#[local] Arguments String.append !_ _ / : simpl nomatch.

Lemma append_empty_r (s : string) : s +:+ "" = s.
Proof. induction s as [|c s IH]; simpl; [done|]. by rewrite IH. Qed.

(** [html += f(x)] for each [x]: the pieces in order, after what was
    there. *)
Lemma foldl_append {A} (f : A → string) (l : list A) (html : string) :
  foldl (λ html x, html +:+ f x) html l
  = html +:+ foldr (λ x rest, f x +:+ rest) "" l.
Proof.
  revert html. induction l as [|x l IH]; intros html; simpl.
  - by rewrite append_empty_r.
  - by rewrite IH, append_assoc.
Qed.

Lemma tweets_of_closed html sentiment all :
  tweets_of rt html sentiment all
  = html +:+ match take 5 all with
             | [] => ""
             | shown =>
                 tweets_heading sentiment
                 +:+ foldr (λ tweet rest,
                              tweet_card rt sentiment tweet +:+ rest) "" shown
             end.
Proof.
  unfold tweets_of. cbv zeta. destruct (take 5 all) as [|t shown] eqn:E.
  - simpl. by rewrite append_empty_r.
  - change (0 <? length (t :: shown))%nat with true. cbv iota.
    by rewrite foldl_append, append_assoc.
Qed.

Lemma reply_html_closed data w stats replies :
  Num.gt (ReplyAnalysis.total_replies (TweetReplies.reply_analysis data))
         (Num.of_Z 0) = true →
  ReplyAnalysis.sentiment_stats (TweetReplies.reply_analysis data)
  = Some stats →
  ReplyAnalysis.analyzed_replies (TweetReplies.reply_analysis data)
  = Some replies →
  reply_html rt data w
  = Ok (reply_head rt data +:+ reply_stats rt stats
        +:+ foldr (λ reply rest, reply_card rt reply +:+ rest) ""
                  (take 10 replies)
        +:+ "</div>") w.
Proof.
  intros Hgt Hs Hr. unfold reply_html. cbv zeta. rewrite Hgt, Hs, Hr.
  unfold deref, mbind, M_bind, mret, M_ret.
  by rewrite foldl_append, !append_assoc.
Qed.

(** The markup of the reply analysis starts with its head, whenever
    there is any. *)
Lemma reply_html_head data w :
  (Num.gt (ReplyAnalysis.total_replies (TweetReplies.reply_analysis data))
          (Num.of_Z 0) = true →
   missing_of (TweetReplies.reply_analysis data) = None) →
  ∃ rest, reply_html rt data w = Ok (reply_head rt data +:+ rest) w.
Proof.
  intros Hm.
  destruct (Num.gt _ _) eqn:Hgt.
  - specialize (Hm eq_refl). unfold missing_of in Hm.
    destruct (ReplyAnalysis.sentiment_stats _) as [stats|] eqn:Hs; [|done].
    destruct (ReplyAnalysis.analyzed_replies _) as [replies|] eqn:Hr; [|done].
    eexists. by apply reply_html_closed.
  - unfold reply_html. rewrite Hgt. by eexists.
Qed.

(** The page after rendering, showing and drawing. *)
Lemma rendered_page id html (rest : M unit) w i e :
  static_element id w = Some (i, e) →
  (∀ w0, page (world_of (rest w0)) = page w0) →
  page (world_of ((render rt id html
                     ≫= λ _, showResults rt id ≫= λ _, rest) w))
  = page (classes_at (λ s, s ∪ {["active"]}) i (markup_at html i w)).
Proof.
  intros H Hrest.
  destruct (render_show_run rt id html w i e H) as [Hrun _].
  assert ((render rt id html ≫= λ _, showResults rt id ≫= λ _, rest) w
          = rest (classes_at (λ s, s ∪ {["active"]}) i (markup_at html i w)))
    as ->; [|done].
  revert Hrun. unfold mbind, M_bind.
  destruct (render rt id html w) as [[] w1|]; [|done].
  destruct (showResults rt id w1) as [[] w2|]; [|done].
  by intros [= ->].
Qed.

End Accumulated.

(** X17.  The text of a tweet goes into the markup as it is.  The
    display function of the reply analysis puts the text of the original
    tweet, unescaped, into the string it assigns to [innerHTML]:
    whatever the text holds, the result region is made active and its
    markup is the fixed opening of the template, then the text character
    for character, then the rest of the template (as long as the payload
    has its statistics when it reports replies, so that something is
    rendered at all). *)
Theorem reply_text_unescaped (rt : Runtime) (data : TweetReplies.t)
    (w : World) (i : nat) (e : Element) :
  static_element "replyResults" w = Some (i, e) →
  (Num.gt (ReplyAnalysis.total_replies (TweetReplies.reply_analysis data))
          (Num.of_Z 0) = true →
   missing_of (TweetReplies.reply_analysis data) = None) →
  ∃ after,
    displays "replyResults"
      (markup "
        <div class=`chart-container`>
            <h3>Original Tweet</h3>
            <p style=`margin: 10px 0;`>"
       +:+ Original.text (TweetReplies.tweet data) +:+ after)
      (world_of (displayReplyAnalysis rt data w)).
Proof.
  intros H Hm. destruct (reply_html_head rt data w Hm) as [rest Hh].
  unfold reply_head in Hh. cbv zeta in Hh. rewrite !append_assoc in Hh.
  unfold displayReplyAnalysis. erewrite bind_ok by exact Hh.
  eexists. eapply displays_page.
  - apply (rendered_page rt _ _ _ _ _ _ H), optional_chart_page.
  - lazymatch goal with
    | |- displays _ _ (classes_at _ _ (markup_at ?html _ _)) =>
        destruct (render_show_run rt "replyResults" html w i e H) as [_ HR]
    end.
    eexists _, _. split; [exact HR|]. split; [reflexivity|].
    simpl. set_solver.
Qed.

(** The tweet of [canvas_in_text]: its text is markup for a canvas, and
    that markup is what the result region holds. *)
Lemma reply_text_unescaped_witness :
  ∃ after,
    displays "replyResults"
      (markup "
        <div class=`chart-container`>
            <h3>Original Tweet</h3>
            <p style=`margin: 10px 0;`>"
       +:+ Original.text (TweetReplies.tweet canvas_in_text) +:+ after)
      (world_of (displayReplyAnalysis sample_runtime canvas_in_text
                   (sample_world "1")))
    ∧ Original.text (TweetReplies.tweet canvas_in_text)
      = markup "<canvas id=`replyChart`></canvas>".
Proof.
  destruct (reply_text_unescaped sample_runtime canvas_in_text
              (sample_world "1") 12
              (control "div" "replyResults" ["results"] ""))
    as (after & H1).
  - vm_compute. reflexivity.
  - intros Hgt. vm_compute in Hgt. discriminate Hgt.
  - exists after. split; [exact H1|reflexivity].
Defined.

(** X18.  Five tweets of a category, ten replies.  The loops that build
    the markup add, for each category that has tweets, one heading
    followed by the cards of its first five tweets, in the order
    positive, neutral, negative; a category without tweets adds
    nothing, and a tweet after the fifth never reaches the page.  The
    reply analysis with replies adds the cards of the first ten
    replies. *)
Theorem lists_are_cut (rt : Runtime) :
  (∀ data username,
     let section := λ sentiment all,
       match take 5 all with
       | [] => ""
       | shown =>
           tweets_heading sentiment
           +:+ foldr (λ tweet rest, tweet_card rt sentiment tweet +:+ rest)
                     "" shown
       end in
     tweets_html rt data username
     = tweets_head rt data username
       +:+ section "positive" (Categorized.positive (UserTweets.categorized data))
       +:+ section "neutral" (Categorized.neutral (UserTweets.categorized data))
       +:+ section "negative" (Categorized.negative (UserTweets.categorized data))
       +:+ "</div>")
  ∧ (∀ html sentiment shown more,
       length shown = 5 →
       tweets_of rt html sentiment (shown ++ more)
       = tweets_of rt html sentiment shown)
  ∧ (∀ data w stats replies,
       Num.gt (ReplyAnalysis.total_replies (TweetReplies.reply_analysis data))
              (Num.of_Z 0) = true →
       ReplyAnalysis.sentiment_stats (TweetReplies.reply_analysis data)
       = Some stats →
       ReplyAnalysis.analyzed_replies (TweetReplies.reply_analysis data)
       = Some replies →
       reply_html rt data w
       = Ok (reply_head rt data +:+ reply_stats rt stats
             +:+ foldr (λ reply rest, reply_card rt reply +:+ rest) ""
                       (take 10 replies)
             +:+ "</div>") w).
Proof.
  split_and!.
  - intros data username. cbv zeta. unfold tweets_html.
    by rewrite !tweets_of_closed, !append_assoc.
  - intros html sentiment shown more Hlen. rewrite !tweets_of_closed.
    by rewrite take_app_length', firstn_all2 by lia.
  - apply reply_html_closed.
Qed.

(** Six tweets in a category: the sixth is not shown. *)
Lemma lists_are_cut_witness :
  tweets_of sample_runtime "" "positive"
    (replicate 5 sample_tweet
     ++ [ {| Tweet.id := "6"; Tweet.confidence := Num.of_Z 1;
             Tweet.created_at := ""; Tweet.text := "sixth";
             Tweet.likes := Num.of_Z 0; Tweet.retweets := Num.of_Z 0;
             Tweet.replies := Num.of_Z 0 |} ])
  = tweets_of sample_runtime "" "positive" (replicate 5 sample_tweet).
Proof.
  apply (proj1 (proj2 (lists_are_cut sample_runtime))). reflexivity.
Defined.

(** ** From a tweet card to the reply analysis *)

Section Pivot.
Context (rt : Runtime).
Implicit Types (w : World) (id : string) (r : NodeRef).

Lemma same_fields_refl w : same_fields w w.
Proof. intros id i e H. by exists e. Qed.







Lemma has_id_classes id g n :
  Dom.has_id id (Dom.with_classes g n) = Dom.has_id id n.
Proof. done. Qed.








End Pivot.



(** ** More on [extractTweetId] *)

Section Extraction.
Import Str.
#[local] Arguments String.append !_ _ / : simpl nomatch.

Lemma length_append (a b : string) :
  String.length (a +:+ b) = String.length a + String.length b.
Proof. induction a as [|c a IH]; simpl; [done|]. by rewrite IH. Qed.

Lemma digits_of_run d rest :
  all_digits d = true →
  (∀ c t, rest = String c t → is_digit c = false) →
  digits_of (d +:+ rest) = d.
Proof.
  intros Hd Hrest. induction d as [|c d IH]; simpl.
  - destruct rest as [|x t]; [done|]. simpl. by rewrite (Hrest x t).
  - simpl in Hd. apply andb_prop in Hd as [Hc Hd]. rewrite Hc.
    by rewrite IH.
Qed.

(** The pattern right at the head. *)
Lemma match_here_at d rest :
  d ≠ "" → all_digits d = true →
  (∀ c t, rest = String c t → is_digit c = false) →
  Regex.match_here ("status/" +:+ d +:+ rest) = Some d.
Proof.
  intros Hne Hd Hrest. unfold Regex.match_here.
  rewrite (proj2 (strip_prefix_Some "status/" _ (d +:+ rest)) eq_refl).
  rewrite digits_of_run by done. by destruct d.
Qed.

(** Where the pattern matches, the eighth character is a digit. *)
Lemma match_here_leads s g :
  Regex.match_here s = Some g → leads_without_digit 8 s = false.
Proof.
  intros (Hg & Hd & rest & -> & _)%match_here_Some.
  destruct g as [|c g]; [done|]. simpl in Hd.
  apply andb_prop in Hd as [Hc _]. simpl. by rewrite Hc.
Qed.

(** Text without digits followed by [status/]: no digit among the
    first characters, seven more than the text has. *)
Lemma leads_before_status m rest n :
  no_digits m = true → n ≤ String.length m + 7 →
  leads_without_digit n (m +:+ "status/" +:+ rest) = true.
Proof.
  revert n. induction m as [|y m IH]; intros n Hm Hn.
  - simpl in Hn.
    do 8 (destruct n as [|n]; [reflexivity|]). lia.
  - destruct n as [|n]; [done|]. simpl in *.
    apply andb_prop in Hm as [Hy Hm]. rewrite Hy. simpl.
    apply IH; [done|lia].
Qed.

Lemma match_here_inside x m rest :
  no_digits (String x m) = true →
  Regex.match_here (String x m +:+ "status/" +:+ rest) = None.
Proof.
  intros Hm. destruct (Regex.match_here _) as [g|] eqn:E; [|done].
  apply match_here_leads in E.
  rewrite leads_before_status in E; [done..|]. simpl. lia.
Qed.

Lemma match_status_here s g :
  Regex.match_here s = Some g → Regex.match_status s = Some g.
Proof.
  intros H. destruct s; [by compute in H|]. simpl. by rewrite H.
Qed.

Lemma match_status_skip x s :
  Regex.match_here (String x s) = None →
  Regex.match_status (String x s) = Regex.match_status s.
Proof. intros H. simpl. by rewrite H. Qed.

Lemma match_status_url pre d rest :
  no_digits pre = true → d ≠ "" → all_digits d = true →
  (∀ c t, rest = String c t → is_digit c = false) →
  Regex.match_status (pre +:+ "status/" +:+ d +:+ rest) = Some d.
Proof.
  intros Hpre Hne Hd Hrest. induction pre as [|x pre IH].
  - change ("" +:+ "status/" +:+ d +:+ rest)
      with ("status/" +:+ d +:+ rest).
    by apply match_status_here, match_here_at.
  - pose proof (match_here_inside x pre (d +:+ rest) Hpre) as H.
    change (String x pre +:+ "status/" +:+ d +:+ rest)
      with (String x (pre +:+ "status/" +:+ d +:+ rest)) in *.
    rewrite (match_status_skip _ _ H). apply IH.
    simpl in Hpre. by apply andb_prop in Hpre as [_ ?].
Qed.

End Extraction.

(** X20.  [extractTweetId] makes nothing up and loses nothing whole: its
    result is a part of the input, so it is never longer than the input,
    and it is empty only when the input is.  The check for an empty
    identifier that follows the extraction in the reply analysis and in
    the tweet comparison is therefore a check of the raw field. *)
Theorem extractTweetId_within (s : string) :
  contains (extractTweetId s) s
  ∧ String.length (extractTweetId s) ≤ String.length s
  ∧ (extractTweetId s = "" ↔ s = "")
  ∧ falsy (extractTweetId s) = falsy s.
Proof.
  assert (contains (extractTweetId s) s) as Hc.
  { unfold extractTweetId.
    destruct (Regex.match_status s) as [g|] eqn:E.
    - apply match_status_Some in E as (pre & r & -> & _).
      exists (pre +:+ "status/"), r. by rewrite !append_assoc.
    - exists "", "". simpl. by rewrite append_empty_r. }
  split_and!; [done| |apply extractTweetId_empty|apply falsy_extractTweetId].
  destruct Hc as (pre & post & Hs). rewrite Hs at 2.
  rewrite !length_append. lia.
Qed.

(** X21.  The identifier of a tweet address.  When nothing before
    [status/] is a digit, [extractTweetId] returns the digits that
    follow [status/], all of them and nothing more, whatever comes
    after them: a query string, a further path, a second address. *)
Theorem extractTweetId_of_address (pre digits rest : string) :
  Str.no_digits pre = true →
  digits ≠ "" → Str.all_digits digits = true →
  (∀ c t, rest = String c t → Str.is_digit c = false) →
  extractTweetId (pre +:+ "status/" +:+ digits +:+ rest) = digits.
Proof.
  intros Hpre Hne Hd Hrest. unfold extractTweetId.
  by rewrite match_status_url.
Qed.

Lemma extractTweetId_of_address_witness :
  extractTweetId "https://twitter.com/nasa/status/1234567890?s=20&t=status/7"
  = "1234567890".
Proof.
  apply (extractTweetId_of_address "https://twitter.com/nasa/" "1234567890"
           "?s=20&t=status/7").
  - reflexivity.
  - intros H. discriminate H.
  - reflexivity.
  - intros c t [= <- _]. reflexivity.
Defined.

(** X22.  What the profile shows in place of what is missing.  A user
    without a description, or with an empty one, is shown with the text
    [No description]; any other description is shown as it is.  The
    name is followed by a check mark when the user is verified and by
    nothing otherwise. *)
Theorem profile_fallbacks (rt : Runtime) (user : UserInfo.t) :
  (UserInfo.description user = None ∨ UserInfo.description user = Some "" →
   contains "No description</p>" (profile_html rt user))
  ∧ (∀ d, UserInfo.description user = Some d → d ≠ "" →
          contains (d +:+ "</p>") (profile_html rt user))
  ∧ (UserInfo.verified user = true →
     contains (UserInfo.name user +:+ " ✓</h3>") (profile_html rt user))
  ∧ (UserInfo.verified user = false →
     contains (UserInfo.name user +:+ " </h3>") (profile_html rt user)).
Proof.
  split_and!.
  - intros Hd.
    assert (or_else (UserInfo.description user) "No description"
            = "No description") as Hor by (by destruct Hd as [-> | ->]).
    unfold profile_html. rewrite Hor. eval_markup.
    do 13 apply contains_later.
    by eapply (contains_split "No description" "</p>").
  - intros d Hd Hne.
    assert (or_else (UserInfo.description user) "No description" = d) as Hor.
    { rewrite Hd. unfold or_else. by rewrite falsy_false. }
    unfold profile_html. rewrite Hor. eval_markup.
    do 13 apply contains_later. by eapply contains_split.
  - intros Hv. unfold profile_html. rewrite Hv. eval_markup.
    do 9 apply contains_later. by eapply contains_split.
  - intros Hv. unfold profile_html. rewrite Hv. eval_markup.
    do 9 apply contains_later. by eapply contains_split.
Qed.

(** A verified user who wrote no description. *)
Lemma profile_fallbacks_witness :
  contains "No description</p>"
    (profile_html sample_runtime
       {| UserInfo.username := "nasa"; UserInfo.tweet_count := Num.of_Z 1;
          UserInfo.followers_count := Num.of_Z 2;
          UserInfo.following_count := Num.of_Z 3; UserInfo.name := "NASA";
          UserInfo.verified := true; UserInfo.description := Some "";
          UserInfo.created_at := "2007-12-19" |}).
Proof.
  apply (proj1 (profile_fallbacks sample_runtime _)). by right.
Defined.

(** ** Plain text in the payload *)

Section Plain.
Context (rt : Runtime).
Implicit Types (w : World) (id : string).
#[local] Arguments String.append !_ _ / : simpl nomatch.

Lemma plain_app a b : plain (a +:+ b) = plain a && plain b.
Proof.
  induction a as [|c a IH]; simpl; [done|]. by rewrite IH, andb_assoc.
Qed.

(** Between tags, text without [<] produces no tag and leaves the
    tokenizer between tags. *)
Lemma plain_scan s :
  plain s = true →
  Html.scan Html.Data s = [] ∧ state_after Html.Data s = Html.Data.
Proof.
  induction s as [|c s IH]; simpl; [done|].
  intros [Hc Hs]%andb_prop. apply negb_true_iff in Hc. rewrite Hc. simpl.
  by apply IH.
Qed.

Lemma parse_markup_plain a b :
  plain a = true → parse_markup (a +:+ b) = parse_markup b.
Proof.
  intros [H1 H2]%plain_scan. unfold parse_markup, Html.start_tags.
  by rewrite scan_app, H1, H2.
Qed.

Lemma plain_uint d : plain (NilEmpty.string_of_uint d) = true.
Proof. induction d; simpl; done. Qed.

Lemma plain_digits z : plain (Num.digits z) = true.
Proof.
  unfold Num.digits, NilZero.string_of_uint.
  destruct (N.to_uint _); try done; apply plain_uint.
Qed.

(** An engine that prints no number with a [<] in it. *)
Lemma plain_show x :
  (∀ y, plain (number_to_string rt y) = true) → plain (show rt x) = true.
Proof.
  intros Hrt. unfold show, Num.toString.
  destruct x as [| [] | |s m e]; try done.
  destruct (Num.safe_integer m e) as [z|]; [|done].
  rewrite plain_app, plain_digits. by destruct s.
Qed.

Lemma plain_zeros n : plain (Num.zeros n) = true.
Proof. induction n; simpl; done. Qed.

Lemma plain_substring n m s :
  plain s = true → plain (String.substring n m s) = true.
Proof.
  revert n m. induction s as [|c s IH]; intros n m Hs.
  - by destruct n, m.
  - simpl in Hs. apply andb_prop in Hs as [Hc Hs].
    destruct n as [|n]; simpl.
    + destruct m as [|m]; [done|]. simpl. rewrite Hc. by apply IH.
    + by apply IH.
Qed.

Lemma plain_point m f : plain m = true → plain (Num.point m f) = true.
Proof.
  intros Hm. unfold Num.point.
  assert (plain (if (String.length m <=? f)%nat
                 then Num.zeros (f + 1 - String.length m) +:+ m else m)
          = true) as Hm'.
  { case_match; [|done]. by rewrite plain_app, plain_zeros. }
  destruct f; [done|].
  rewrite !plain_app, !plain_substring by done. done.
Qed.

(** [(x * 100).toFixed(1)] holds no [<] either. *)
Lemma plain_percent x :
  (∀ y, plain (number_to_string rt y) = true) → plain (percent rt x) = true.
Proof.
  intros Hrt. unfold percent, Num.toFixed.
  destruct (Num.mul x (Num.of_Z 100)) as [| [] | |s m e] eqn:E;
    try done.
  destruct (Num.at_least_1e21 m e).
  - apply (plain_show (S754_finite s m e) Hrt).
  - rewrite plain_app, plain_point by apply plain_digits. by destruct s.
Qed.

(** Rendering markup whose first nodes hold a canvas, and drawing on
    it. *)
Lemma one_chart_drawn id html cid ty d w i e ks rest j n :
  static_element id w = Some (i, e) →
  parse_markup html = ks ++ rest →
  list_find (λ n, Dom.has_id cid n = true) ks = Some (j, n) →
  tag n = "canvas" →
  id ≠ cid → cid ∉ Object_prototype →
  only_in cid i w →
  ∃ w' h,
    (render rt id html
       ≫= λ _, showResults rt id
       ≫= λ _, createChart rt cid ty d) w = Ok () w'
    ∧ displays id html w'
    ∧ chartInstances w' !! cid = Some h
    ∧ charts w' !! h = Some {| canvas := cid; kind := ty; data := d;
                               live := true |}.
Proof.
  intros H Hks Hf Ht Hn Hp Ho.
  destruct (render_show_run rt id html w i e H) as [Hrun HR2].
  set (wr := classes_at (λ s, s ∪ {["active"]}) i (markup_at html i w)) in *.
  assert (∀ rest' : M unit,
            (render rt id html ≫= λ _, showResults rt id ≫= λ _, rest') w
            = rest' wr) as Hstart.
  { intros rest'. revert Hrun. unfold mbind, M_bind.
    destruct (render rt _ html w) as [[] wa|]; [|done].
    destruct (showResults rt _ wa) as [[] wb|]; [|done]. by intros [= ->]. }
  rewrite Hstart. clear Hstart Hrun.
  pose proof (static_element_lookup _ _ _ _ HR2) as Hi2.
  pose proof (proj1 (static_element_Some _ _ _ _) H) as (_ & Hid & _).
  assert (is_canvas cid wr) as Hc.
  { destruct (find_id_inside cid wr i _ j n Hi2)
      as [Hfind Hget]; [| | |by exists (Dynamic i j), n].
    - simpl. rewrite Hid. by intros [= ?].
    - cbn [kids]. rewrite Hks. by apply list_find_app_l.
    - by apply only_in_classes_at, only_in_markup_at. }
  destruct (createChart_run rt cid ty d wr Hc)
    as (wc & Hrun3 & Hp3 & Hr3 & Hl3 & (h & Hh & Hch) & _);
    [by left|].
  exists wc, h. split_and!; [done| |done|done].
  apply (displays_page _ _ wr); [done|].
  eexists _, _. split; [exact HR2|]. split; [done|]. simpl. set_solver.
Qed.

(** Rendering markup whose first nodes hold the canvases of a pie chart
    and of an optional bar chart, and drawing them. *)
Lemma pie_and_bar_drawn id html pieId barId pie (bar : option ChartData)
    w i e ks rest j1 n1 j2 n2 :
  static_element id w = Some (i, e) →
  parse_markup html = ks ++ rest →
  list_find (λ n, Dom.has_id pieId n = true) ks = Some (j1, n1) →
  tag n1 = "canvas" →
  list_find (λ n, Dom.has_id barId n = true) ks = Some (j2, n2) →
  tag n2 = "canvas" →
  id ≠ pieId → id ≠ barId → pieId ≠ barId →
  pieId ∉ Object_prototype → barId ∉ Object_prototype →
  only_in pieId i w → only_in barId i w → registry_sound w →
  ∃ w' h1,
    (render rt id html
       ≫= λ _, showResults rt id
       ≫= λ _, createChart rt pieId "pie" pie
       ≫= λ _, match bar with
               | Some d => createChart rt barId "bar" d
               | None => mret ()
               end) w = Ok () w'
    ∧ displays id html w'
    ∧ chartInstances w' !! pieId = Some h1
    ∧ charts w' !! h1 = Some {| canvas := pieId; kind := "pie"; data := pie;
                                live := true |}
    ∧ match bar with
      | Some d =>
          ∃ h2, chartInstances w' !! barId = Some h2
                ∧ charts w' !! h2 = Some {| canvas := barId; kind := "bar";
                                            data := d; live := true |}
      | None => chartInstances w' !! barId = chartInstances w !! barId
      end.
Proof.
  intros H Hks Hf1 Ht1 Hf2 Ht2 Hn1 Hn2 Hn12 Hp1 Hp2 Ho1 Ho2 Hsound.
  destruct (render_show_run rt id html w i e H) as [Hrun HR2].
  set (wr := classes_at (λ s, s ∪ {["active"]}) i (markup_at html i w)) in *.
  assert (∀ rest' : M unit,
            (render rt id html ≫= λ _, showResults rt id ≫= λ _, rest') w
            = rest' wr) as Hstart.
  { intros rest'. revert Hrun. unfold mbind, M_bind.
    destruct (render rt _ html w) as [[] wa|]; [|done].
    destruct (showResults rt _ wa) as [[] wb|]; [|done]. by intros [= ->]. }
  rewrite Hstart. clear Hstart Hrun.
  pose proof (static_element_lookup _ _ _ _ HR2) as Hi2.
  pose proof (proj1 (static_element_Some _ _ _ _) H) as (_ & Hid & _).
  assert (∀ x, only_in x i w → only_in x i wr) as Honly.
  { intros x Hx. by apply only_in_classes_at, only_in_markup_at. }
  assert (displays id html wr) as Hdisp.
  { eexists _, _. split; [exact HR2|]. split; [done|]. simpl. set_solver. }
  assert (is_canvas pieId wr) as Hc1.
  { destruct (find_id_inside pieId wr i _ j1 n1 Hi2)
      as [Hfind Hget]; [| |by apply Honly|by exists (Dynamic i j1), n1].
    - simpl. rewrite Hid. by intros [= ?].
    - cbn [kids]. rewrite Hks. by apply list_find_app_l. }
  assert (is_canvas barId wr) as Hc2.
  { destruct (find_id_inside barId wr i _ j2 n2 Hi2)
      as [Hfind Hget]; [| |by apply Honly|by exists (Dynamic i j2), n2].
    - simpl. rewrite Hid. by intros [= ?].
    - cbn [kids]. rewrite Hks. by apply list_find_app_l. }
  destruct (createChart_run rt pieId "pie" pie wr Hc1)
    as (wc & Hrun3 & Hp3 & Hr3 & Hl3 & (h1 & Hh1 & Hch1) & _);
    [by left|].
  erewrite bind_ok by exact Hrun3.
  rewrite Hr3, lookup_insert_eq in Hh1. injection Hh1 as <-.
  destruct bar as [d|].
  - destruct (createChart_run rt barId "bar" d wc)
      as (wd & Hrun4 & Hp4 & Hr4 & Hl4 & (h2 & Hh2 & Hch2) & Hrest4);
      [by eapply is_canvas_page|by left|].
    rewrite Hrun4. exists wd, (length (charts wr)).
    split_and!; [done| | | |by exists h2].
    + apply (displays_page _ _ wr); [by rewrite Hp4, Hp3|done].
    + rewrite Hr4, lookup_insert_ne by done. by rewrite Hr3, lookup_insert_eq.
    + rewrite Hrest4; [done|lia|].
      rewrite Hr3, lookup_insert_ne by done. intros Hreg.
      destruct (Hsound _ _ Hreg) as (c & Hc & _).
      apply lookup_lt_Some in Hc.
      change (charts w) with (charts wr) in Hc. lia.
  - exists wc, (length (charts wr)). split_and!; [done| | |done|].
    + by apply (displays_page _ _ wr).
    + by rewrite Hr3, lookup_insert_eq.
    + by rewrite Hr3, lookup_insert_ne.
Qed.

End Plain.

(** Tokenize a template piece by piece: fixed markup that ends between
    tags, and holes filled with plain text. *)
Ltac plain_hole :=
  lazymatch goal with
  | |- plain (show _ _) = true => by apply plain_show
  | |- plain (percent _ _) = true => by apply plain_percent
  | |- plain (String _ _) = true => vm_compute; reflexivity
  | |- _ => assumption
  end.

Ltac tokenize_template :=
  repeat first
    [ rewrite parse_markup_plain by plain_hole
    | lazymatch goal with
      | |- context [parse_markup (markup ?a +:+ ?b)] =>
          rewrite (parse_markup_app (markup a) b) by (vm_compute; reflexivity)
      | |- context [parse_markup (String ?c ?a +:+ ?b)] =>
          rewrite (parse_markup_app (String c a) b)
            by (vm_compute; reflexivity)
      end ].

Section Canvases.
Context (rt : Runtime).
Hypothesis engine : ∀ y, plain (number_to_string rt y) = true.

Lemma tweets_html_canvases data username :
  plain username = true →
  ∃ ks rest j1 n1 j2 n2,
    parse_markup (tweets_html rt data username) = ks ++ rest
    ∧ list_find (λ n, Dom.has_id "tweetsChart" n = true) ks = Some (j1, n1)
    ∧ tag n1 = "canvas"
    ∧ list_find (λ n, Dom.has_id "engagementChart" n = true) ks
      = Some (j2, n2)
    ∧ tag n2 = "canvas".
Proof.
  intros Hu. unfold tweets_html. cbv zeta.
  rewrite !tweets_of_closed. unfold tweets_head. rewrite !append_assoc.
  tokenize_template. rewrite !app_assoc.
  eexists _, _, _, _, _, _. split; [reflexivity|].
  split_and!; vm_compute; reflexivity.
Qed.

Lemma search_html_canvases data :
  plain (Search.query data) = true →
  ∃ ks rest j1 n1 j2 n2,
    parse_markup (search_html rt data) = ks ++ rest
    ∧ list_find (λ n, Dom.has_id "searchPieChart" n = true) ks
      = Some (j1, n1)
    ∧ tag n1 = "canvas"
    ∧ list_find (λ n, Dom.has_id "searchEngagementChart" n = true) ks
      = Some (j2, n2)
    ∧ tag n2 = "canvas".
Proof.
  intros Hq. unfold search_html. cbv zeta.
  tokenize_template.
  eexists _, [], _, _, _, _. split; [by rewrite app_nil_r|].
  split_and!; vm_compute; reflexivity.
Qed.

Lemma tweets_compared_html_canvas data :
  plain (Details.text (ComparedTweet.details (CompareTweets.tweet1 data)))
  = true →
  plain (Details.text (ComparedTweet.details (CompareTweets.tweet2 data)))
  = true →
  ∃ ks rest j n,
    parse_markup (tweets_compared_html rt data) = ks ++ rest
    ∧ list_find (λ n, Dom.has_id "tweetCompareChart" n = true) ks
      = Some (j, n)
    ∧ tag n = "canvas".
Proof.
  intros H1 H2. unfold tweets_compared_html.
  tokenize_template.
  eexists _, [], _, _. split; [by rewrite app_nil_r|].
  split_and!; vm_compute; reflexivity.
Qed.

Lemma reply_html_canvas data stats rest :
  plain (Original.text (TweetReplies.tweet data)) = true →
  ∃ ks rest' j n,
    parse_markup (reply_head rt data +:+ reply_stats rt stats +:+ rest)
    = ks ++ rest'
    ∧ list_find (λ n, Dom.has_id "replyChart" n = true) ks = Some (j, n)
    ∧ tag n = "canvas".
Proof.
  intros Ht. unfold reply_head, reply_stats. cbv zeta.
  rewrite !append_assoc. tokenize_template. rewrite !app_assoc.
  eexists _, _, _, _. split; [reflexivity|].
  split_and!; vm_compute; reflexivity.
Qed.

End Canvases.

(** X23.  The tweets of a user with a plain name.  When the user name
    holds no [<] and the engine prints numbers without one, the display
    function of the tweet analysis returns on every payload: the result
    region displays the markup, the pie chart of the payload is live and
    registered for [tweetsChart], and the engagement chart is live and
    registered for [engagementChart] exactly when the payload has the
    series; without it the registry entry of that canvas is left as it
    was.  The page must serve the result region, hold the two canvas
    identifiers nowhere else, and the registry must be sound. *)
Theorem tweets_display_draws (rt : Runtime) (data : UserTweets.t)
    (username : string) (w : World) (i : nat) (e : Element) :
  (∀ y, plain (number_to_string rt y) = true) →
  plain username = true →
  static_element "tweetsResults" w = Some (i, e) →
  only_in "tweetsChart" i w → only_in "engagementChart" i w →
  registry_sound w →
  ∃ w' h1,
    displayUserTweets rt data username w = Ok () w'
    ∧ displays "tweetsResults" (tweets_html rt data username) w'
    ∧ chartInstances w' !! "tweetsChart" = Some h1
    ∧ charts w' !! h1
      = Some {| canvas := "tweetsChart"; kind := "pie";
                data := TweetCharts.pie_chart (UserTweets.charts data);
                live := true |}
    ∧ match TweetCharts.engagement (UserTweets.charts data) with
      | Some d =>
          ∃ h2, chartInstances w' !! "engagementChart" = Some h2
                ∧ charts w' !! h2
                  = Some {| canvas := "engagementChart"; kind := "bar";
                            data := d; live := true |}
      | None =>
          chartInstances w' !! "engagementChart"
          = chartInstances w !! "engagementChart"
      end.
Proof.
  intros Hrt Hu H Ho1 Ho2 Hsound.
  destruct (tweets_html_canvases rt Hrt data username Hu)
    as (ks & rest & j1 & n1 & j2 & n2 & Hks & Hf1 & Ht1 & Hf2 & Ht2).
  unfold displayUserTweets.
  eapply (pie_and_bar_drawn rt); try done.
  - apply (bool_decide_eq_false_1 (_ ∈ Object_prototype)).
    vm_compute. reflexivity.
  - apply (bool_decide_eq_false_1 (_ ∈ Object_prototype)).
    vm_compute. reflexivity.
Qed.

Lemma tweets_display_draws_witness :
  ∃ w' h1,
    displayUserTweets sample_runtime sample_tweets "alice" (sample_world "alice")
    = Ok () w'
    ∧ chartInstances w' !! "tweetsChart" = Some h1
    ∧ charts w' !! h1
      = Some {| canvas := "tweetsChart"; kind := "pie"; data := sample_chart;
                live := true |}.
Proof.
  destruct (tweets_display_draws sample_runtime sample_tweets "alice"
              (sample_world "alice") 7
              (control "div" "tweetsResults" ["results"] ""))
    as (w' & h1 & H1 & _ & H2 & H3 & _).
  - reflexivity.
  - reflexivity.
  - vm_compute. reflexivity.
  - intros k x Hk Hne.
    assert (k < 34) as Hlt by (apply lookup_lt_Some in Hk; exact Hk).
    do 34 (destruct k as [|k]; [injection Hk as <-; reflexivity|]). lia.
  - intros k x Hk Hne.
    assert (k < 34) as Hlt by (apply lookup_lt_Some in Hk; exact Hk).
    do 34 (destruct k as [|k]; [injection Hk as <-; reflexivity|]). lia.
  - apply registry_sound_initial.
  - exists w', h1. split; [exact H1|]. split; [exact H2|exact H3].
Defined.

(** X24.  The results of a search for a plain query.  When the query of
    the payload holds no [<] and the engine prints numbers without one,
    the display function of the search returns on every payload: the
    result region displays the markup, the pie chart is live and
    registered for [searchPieChart], and the engagement chart is live
    and registered for [searchEngagementChart] exactly when the payload
    has the series.  The page must serve the result region, hold the
    two canvas identifiers nowhere else, and the registry must be
    sound. *)
Theorem search_display_draws (rt : Runtime) (data : Search.t) (w : World)
    (i : nat) (e : Element) :
  (∀ y, plain (number_to_string rt y) = true) →
  plain (Search.query data) = true →
  static_element "searchResults" w = Some (i, e) →
  only_in "searchPieChart" i w → only_in "searchEngagementChart" i w →
  registry_sound w →
  ∃ w' h1,
    displaySearchResults rt data w = Ok () w'
    ∧ displays "searchResults" (search_html rt data) w'
    ∧ chartInstances w' !! "searchPieChart" = Some h1
    ∧ charts w' !! h1
      = Some {| canvas := "searchPieChart"; kind := "pie";
                data := TweetCharts.pie_chart (Search.charts data);
                live := true |}
    ∧ match TweetCharts.engagement (Search.charts data) with
      | Some d =>
          ∃ h2, chartInstances w' !! "searchEngagementChart" = Some h2
                ∧ charts w' !! h2
                  = Some {| canvas := "searchEngagementChart"; kind := "bar";
                            data := d; live := true |}
      | None =>
          chartInstances w' !! "searchEngagementChart"
          = chartInstances w !! "searchEngagementChart"
      end.
Proof.
  intros Hrt Hq H Ho1 Ho2 Hsound.
  destruct (search_html_canvases rt Hrt data Hq)
    as (ks & rest & j1 & n1 & j2 & n2 & Hks & Hf1 & Ht1 & Hf2 & Ht2).
  unfold displaySearchResults.
  eapply (pie_and_bar_drawn rt); try done.
  - apply (bool_decide_eq_false_1 (_ ∈ Object_prototype)).
    vm_compute. reflexivity.
  - apply (bool_decide_eq_false_1 (_ ∈ Object_prototype)).
    vm_compute. reflexivity.
Qed.

Lemma search_display_draws_witness :
  ∃ w' h1 h2,
    displaySearchResults sample_runtime sample_search (sample_world "q")
    = Ok () w'
    ∧ chartInstances w' !! "searchPieChart" = Some h1
    ∧ chartInstances w' !! "searchEngagementChart" = Some h2.
Proof.
  destruct (search_display_draws sample_runtime sample_search
              (sample_world "q") 31
              (control "div" "searchResults" ["results"] ""))
    as (w' & h1 & H1 & _ & H2 & _ & (h2 & H3 & _)).
  - reflexivity.
  - reflexivity.
  - vm_compute. reflexivity.
  - intros k x Hk Hne.
    assert (k < 34) as Hlt by (apply lookup_lt_Some in Hk; exact Hk).
    do 34 (destruct k as [|k]; [injection Hk as <-; reflexivity|]). lia.
  - intros k x Hk Hne.
    assert (k < 34) as Hlt by (apply lookup_lt_Some in Hk; exact Hk).
    do 34 (destruct k as [|k]; [injection Hk as <-; reflexivity|]). lia.
  - apply registry_sound_initial.
  - exists w', h1, h2. split; [exact H1|]. split; [exact H2|exact H3].
Defined.

(** X25.  The comparison of two tweets with plain texts.  When neither
    text holds a [<] and the engine prints numbers without one, the
    display function of the tweet comparison returns on every payload:
    the result region displays the markup, and the comparison chart is
    live and registered for [tweetCompareChart].  The canvas stands
    after the two texts in the markup, which is why they must be plain.
    The page must serve the result region and hold the canvas
    identifier nowhere else. *)
Theorem tweet_comparison_draws (rt : Runtime) (data : CompareTweets.t)
    (w : World) (i : nat) (e : Element) :
  (∀ y, plain (number_to_string rt y) = true) →
  plain (Details.text (ComparedTweet.details (CompareTweets.tweet1 data)))
  = true →
  plain (Details.text (ComparedTweet.details (CompareTweets.tweet2 data)))
  = true →
  static_element "compareTweetsResults" w = Some (i, e) →
  only_in "tweetCompareChart" i w →
  ∃ w' h,
    displayTweetComparison rt data w = Ok () w'
    ∧ displays "compareTweetsResults" (tweets_compared_html rt data) w'
    ∧ chartInstances w' !! "tweetCompareChart" = Some h
    ∧ charts w' !! h
      = Some {| canvas := "tweetCompareChart"; kind := "bar";
                data := ComparisonCharts.comparison (CompareTweets.charts data);
                live := true |}.
Proof.
  intros Hrt H1 H2 H Ho.
  destruct (tweets_compared_html_canvas rt Hrt data H1 H2)
    as (ks & rest & j & n & Hks & Hf & Ht).
  unfold displayTweetComparison.
  eapply (one_chart_drawn rt); try done.
  apply (bool_decide_eq_false_1 (_ ∈ Object_prototype)).
  vm_compute. reflexivity.
Qed.

Lemma tweet_comparison_draws_witness :
  ∃ w' h,
    displayTweetComparison sample_runtime sample_tweet_comparison
      (sample_world "1") = Ok () w'
    ∧ chartInstances w' !! "tweetCompareChart" = Some h.
Proof.
  destruct (tweet_comparison_draws sample_runtime sample_tweet_comparison
              (sample_world "1") 26
              (control "div" "compareTweetsResults" ["results"] ""))
    as (w' & h & H1 & _ & H2 & _).
  - reflexivity.
  - reflexivity.
  - reflexivity.
  - vm_compute. reflexivity.
  - intros k x Hk Hne.
    assert (k < 34) as Hlt by (apply lookup_lt_Some in Hk; exact Hk).
    do 34 (destruct k as [|k]; [injection Hk as <-; reflexivity|]). lia.
  - exists w', h. split; [exact H1|exact H2].
Defined.

(** X26.  A reply analysis with replies and a plain tweet text.  When
    the payload reports replies, has its statistics, its replies and a
    sentiment series, when the text of the original tweet holds no [<]
    and the engine prints numbers without one, the display function
    returns: the result region displays the head, the statistics, the
    cards of the first ten replies and the closing tag, and the pie
    chart of the series is live and registered for [replyChart].  The
    replies themselves may hold anything: their cards come after the
    canvas. *)
Theorem replies_display_draws (rt : Runtime) (data : TweetReplies.t)
    (stats : SentimentStats.t) (replies : list Reply.t) (series : ChartData)
    (w : World) (i : nat) (e : Element) :
  (∀ y, plain (number_to_string rt y) = true) →
  plain (Original.text (TweetReplies.tweet data)) = true →
  Num.gt (ReplyAnalysis.total_replies (TweetReplies.reply_analysis data))
         (Num.of_Z 0) = true →
  ReplyAnalysis.sentiment_stats (TweetReplies.reply_analysis data) = Some stats →
  ReplyAnalysis.analyzed_replies (TweetReplies.reply_analysis data)
  = Some replies →
  TweetReplies.charts data ≫= ReplyCharts.sentiment_distribution = Some series →
  static_element "replyResults" w = Some (i, e) →
  only_in "replyChart" i w →
  ∃ w' h,
    displayReplyAnalysis rt data w = Ok () w'
    ∧ displays "replyResults"
        (reply_head rt data +:+ reply_stats rt stats
         +:+ foldr (λ reply rest, reply_card rt reply +:+ rest) ""
                   (take 10 replies)
         +:+ "</div>") w'
    ∧ chartInstances w' !! "replyChart" = Some h
    ∧ charts w' !! h
      = Some {| canvas := "replyChart"; kind := "pie"; data := series;
                live := true |}.
Proof.
  intros Hrt Htext Hgt Hs Hr Hc H Ho.
  unfold displayReplyAnalysis.
  erewrite bind_ok by (by apply reply_html_closed).
  rewrite Hc.
  destruct (reply_html_canvas rt Hrt data stats
              (foldr (λ reply rest, reply_card rt reply +:+ rest) ""
                     (take 10 replies) +:+ "</div>") Htext)
    as (ks & rest & j & n & Hks & Hf & Ht).
  eapply (one_chart_drawn rt); try done.
  apply (bool_decide_eq_false_1 (_ ∈ Object_prototype)).
  vm_compute. reflexivity.
Qed.

(** One reply, whose text is markup: the chart is drawn all the same. *)
Lemma replies_display_draws_witness :
  ∃ w' h,
    displayReplyAnalysis sample_runtime sample_replies (sample_world "1")
    = Ok () w'
    ∧ chartInstances w' !! "replyChart" = Some h
    ∧ charts w' !! h
      = Some {| canvas := "replyChart"; kind := "pie"; data := sample_chart;
                live := true |}.
Proof.
  destruct (replies_display_draws sample_runtime sample_replies sample_stats
               [sample_reply] sample_chart (sample_world "1") 12
               (control "div" "replyResults" ["results"] ""))
    as (w' & h & H1 & _ & H2 & H3).
  - reflexivity.
  - reflexivity.
  - vm_compute. reflexivity.
  - reflexivity.
  - reflexivity.
  - reflexivity.
  - vm_compute. reflexivity.
  - intros k x Hk Hne.
    assert (k < 34) as Hlt by (apply lookup_lt_Some in Hk; exact Hk).
    do 34 (destruct k as [|k]; [injection Hk as <-; reflexivity|]). lia.
  - exists w', h. split; [exact H1|]. split; [exact H2|exact H3].
Defined.

(** ** A reply analysis without replies *)

Section WithoutReplies.
Context (rt : Runtime).
Hypothesis engine : ∀ y, plain (number_to_string rt y) = true.



End WithoutReplies.




(** With a series and no canvas for it, [createChart] is still called: it
    throws at the missing canvas, no chart is constructed, and the reply
    flow reports the exception in its error region, next to the
    no-replies message. *)
Example series_without_canvas :
  let f := resume (analyzeReplies sample_runtime (sample_world "1"))
             (Reply (Success series_without_replies)) (sample_world "1") in
  charts <$> settled f = Some []
  ∧ (settled f ≫= text_of "replyError")
    = Some "Error: Cannot read properties of null (reading 'getContext')"
  ∧ (settled f ≫= text_of "replyResults")
    = Some (reply_head sample_runtime series_without_replies +:+ no_replies).
Proof. cbv zeta. split_and!; vm_compute; reflexivity. Qed.

(** A canvas [replyChart] anywhere else in the document is enough: with
    plain text and a series, the chart is drawn on it. *)
Example canvas_elsewhere_suffices :
  let w := initial (sample_page "1" ++ [control "canvas" "replyChart" [] ""]) in
  charts w = []
  ∧ charts (world_of (displayReplyAnalysis sample_runtime
                        series_without_replies w))
    = [ {| canvas := "replyChart"; kind := "pie"; data := sample_chart;
           live := true |} ].
Proof. cbv zeta. split; [reflexivity|]. vm_compute. reflexivity. Qed.
